(** * keithley2400: the SCPI command layer and the sweep engine

    A shallow embedding of the driver's controllers
    (config.py, source.py, measure.py, trigger.py, status.py, data.py),
    of the connection wrapper (connection.py) and of the sweep routines
    (sweep.py), together with the part of the Python runtime they rely on:
    [str.strip], [str.split], [int], [float], [round], [abs] and the
    ["E"] and [repr] renderings of a float.

    Conventions.
    - A Python [str] is a [string] whose characters are code points
      below 256.
    - A Python [float] is an IEEE 754 binary64 value, [spec_float] at
      precision 53 and maximal exponent 1024.
    - A Python [int] is a [Z].
    - A call that may raise returns an [outcome]; a method of a controller
      is a computation over the trace of commands handed to the transport. *)

From Stdlib Require Import ZArith List String Ascii Bool Lia.
From Stdlib Require Import SpecFloat.
Import ListNotations.

Local Open Scope string_scope.
Local Open Scope Z_scope.

(** ** Exceptions *)

Inductive exn : Type :=
| TransportError     (* raised by the VISA session *)
| ValueError
| ZeroDivisionError
| OverflowError.

Inductive outcome (A : Type) : Type :=
| Return (a : A)
| Raise (e : exn).

Arguments Return {A} a.
Arguments Raise {A} e.

Definition obind {A B} (o : outcome A) (k : A -> outcome B) : outcome B :=
  match o with
  | Return a => k a
  | Raise e => Raise e
  end.

(** ** Python strings *)

Module PyStr.

Definition code (c : ascii) : nat := nat_of_ascii c.

(** [str.isspace] on one character, as [str.strip()] uses it. *)
Definition is_space (c : ascii) : bool :=
  let n := code c in
  (((9 <=? n) && (n <=? 13)) || ((28 <=? n) && (n <=? 32))
   || (n =? 133) || (n =? 160))%nat.

(** The white space that [int(str)] and [float(str)] skip: the C-locale
    white space, and the non-ASCII spaces, which the conversion first
    maps to a blank.  The separators 28..31 are not skipped. *)
Definition is_numeric_space (c : ascii) : bool :=
  let n := code c in
  (((9 <=? n) && (n <=? 13)) || (n =? 32) || (n =? 133) || (n =? 160))%nat.

Definition is_digit (c : ascii) : bool :=
  let n := code c in ((48 <=? n) && (n <=? 57))%nat.

Definition digit_val (c : ascii) : Z := Z.of_nat (code c) - 48.

Definition digit_char (d : Z) : ascii := ascii_of_nat (Z.to_nat (48 + d)).

Section Strip.
Variable drop : ascii -> bool.

Fixpoint lstrip_with (s : string) : string :=
  match s with
  | EmptyString => EmptyString
  | String c r => if drop c then lstrip_with r else s
  end.

(** Right strip: a dropped character is removed when all that follows
    it is removed too. *)
Fixpoint rstrip_with (s : string) : string :=
  match s with
  | EmptyString => EmptyString
  | String c r =>
      match rstrip_with r with
      | EmptyString => if drop c then EmptyString else String c EmptyString
      | r' => String c r'
      end
  end.

Definition strip_with (s : string) : string :=
  rstrip_with (lstrip_with s).
End Strip.

(** [s.strip()] *)
Definition strip (s : string) : string := strip_with is_space s.

(** [s.strip(chars)] *)
Definition strip_chars (chars : list ascii) (s : string) : string :=
  strip_with (fun c => existsb (Ascii.eqb c) chars) s.

(** [s.split(sep, 1)] for a one-character separator: the text before the
    first separator and the text after it, or the whole string alone. *)
Fixpoint split1 (sep : ascii) (s : string) : list string :=
  match s with
  | EmptyString => [EmptyString]
  | String c r =>
      if Ascii.eqb c sep then [EmptyString; r]
      else match split1 sep r with
           | [a] => [String c a]
           | a :: rest => String c a :: rest
           | [] => []
           end
  end.

(** [sep.join(parts)] *)
Fixpoint join (sep : string) (parts : list string) : string :=
  match parts with
  | [] => EmptyString
  | [p] => p
  | p :: rest => p ++ sep ++ join sep rest
  end.

(** [s.split(sep)] for a one-character separator. *)
Fixpoint split (sep : ascii) (s : string) : list string :=
  match s with
  | EmptyString => [EmptyString]
  | String c r =>
      if Ascii.eqb c sep then EmptyString :: split sep r
      else match split sep r with
           | a :: rest => String c a :: rest
           | [] => [String c EmptyString]
           end
  end.

Definition contains (c : ascii) (s : string) : bool :=
  existsb (Ascii.eqb c) (list_ascii_of_string s).

Definition dquote : ascii := ascii_of_nat 34.

Fixpoint all_digits (s : string) : bool :=
  match s with
  | EmptyString => true
  | String c r => is_digit c && all_digits r
  end.

End PyStr.

(** ** Python integers: [int(str)] and [str(int)] *)

Module PyInt.
Import PyStr.

(** Digits with single underscores between them, most significant first;
    [acc] is the value read so far and [prev_us] tells that the character
    before was an underscore. *)
Fixpoint digits_us (s : string) (acc : Z) (prev_us : bool) : option Z :=
  match s with
  | EmptyString => if prev_us then None else Some acc
  | String c r =>
      if is_digit c then digits_us r (10 * acc + digit_val c) false
      else if Ascii.eqb c "_" then
             if prev_us then None else digits_us r acc true
           else None
  end.

(** A run of digits that starts with a digit. *)
Definition digit_run (s : string) : option Z :=
  match s with
  | String c _ => if is_digit c then digits_us s 0 false else None
  | EmptyString => None
  end.

(** [int(s)] in base ten. *)
Definition of_str (s : string) : outcome Z :=
  let t := strip_with is_numeric_space s in
  let '(neg, body) :=
    match t with
    | String "-" r => (true, r)
    | String "+" r => (false, r)
    | _ => (false, t)
    end in
  match digit_run body with
  | Some n => Return (if neg then - n else n)
  | None => Raise ValueError
  end.

(** The decimal digits of a non-negative integer. *)
Fixpoint digits_fuel (fuel : nat) (n : Z) (acc : string) : string :=
  match fuel with
  | O => acc
  | S f =>
      let acc' := String (digit_char (n mod 10)) acc in
      if n <? 10 then acc' else digits_fuel f (n / 10) acc'
  end.

Definition digits (n : Z) : string :=
  digits_fuel (S (Z.to_nat (Z.log2 n))) n EmptyString.

(** [str(n)] *)
Definition to_str (n : Z) : string :=
  if n <? 0 then String "-" (digits (- n)) else digits n.

End PyInt.

(** ** Python floats *)

Module PyFloat.
Import PyStr.

Definition prec : Z := 53.
Definition emax : Z := 1024.

Definition float : Type := spec_float.

Definition pos_inf : float := S754_infinity false.
Definition neg_inf : float := S754_infinity true.
Definition nan : float := S754_nan.

Definition is_zero (x : float) : bool :=
  match x with S754_zero _ => true | _ => false end.

Definition is_finite (x : float) : bool :=
  match x with S754_zero _ | S754_finite _ _ _ => true | _ => false end.

(** [x - y], [abs(x)], [x / y], [x > y], [x == y] *)
Definition sub (x y : float) : float := SFsub prec emax x y.
Definition abs (x : float) : float := SFabs x.
Definition truediv (x y : float) : outcome float :=
  if is_zero y then Raise ZeroDivisionError
  else Return (SFdiv prec emax x y).
Definition gt (x y : float) : bool := SFltb y x.
Definition le (x y : float) : bool := SFleb x y.
Definition eqb (x y : float) : bool := SFeqb x y.

(** The value [m * 2^e] of a finite float as a fraction of positive
    integers. *)
Definition fraction (m : positive) (e : Z) : Z * Z :=
  if 0 <=? e then (Zpos m * 2 ^ e, 1) else (Zpos m, 2 ^ (- e)).

Definition cond_opp (neg : bool) (n : Z) : Z := if neg then - n else n.

(** Nearest integer to [n / d], halves to the even neighbour. *)
Definition round_half_even (n d : Z) : Z :=
  let q := n / d in
  match 2 * (n mod d) ?= d with
  | Lt => q
  | Eq => if Z.even q then q else q + 1
  | Gt => q + 1
  end.

(** [int(x)]: truncation towards zero. *)
Definition to_int (x : float) : outcome Z :=
  match x with
  | S754_nan => Raise ValueError
  | S754_infinity _ => Raise OverflowError
  | S754_zero _ => Return 0
  | S754_finite s m e =>
      let '(n, d) := fraction m e in Return (cond_opp s (n / d))
  end.

(** [round(x)] with one argument: the nearest integer, halves to even. *)
Definition round (x : float) : outcome Z :=
  match x with
  | S754_nan => Raise ValueError
  | S754_infinity _ => Raise OverflowError
  | S754_zero _ => Return 0
  | S754_finite s m e =>
      let '(n, d) := fraction m e in
      Return (cond_opp s (round_half_even n d))
  end.

(** The binary64 value nearest to [d * 10^e10], for [d >= 0]. *)
Definition of_decimal (neg : bool) (d : Z) (e10 : Z) : float :=
  match d with
  | Z0 => S754_zero neg
  | Zpos p =>
      if 0 <=? e10 then
        binary_normalize prec emax (cond_opp neg (Zpos p * 10 ^ e10)) 0 false
      else
        let '(q, e, l) :=
          SFdiv_core_binary prec emax (Zpos p) 0 (10 ^ (- e10)) 0 in
        binary_round_aux prec emax neg q e l
  | Zneg _ => S754_nan
  end.

(** *** Decimal rendering *)

(** Number of decimal digits of a positive integer. *)
Fixpoint ndigits_fuel (fuel : nat) (n : Z) : Z :=
  match fuel with
  | O => 0
  | S f => if n <? 10 then 1 else 1 + ndigits_fuel f (n / 10)
  end.

Definition ndigits (n : Z) : Z :=
  ndigits_fuel (S (Z.to_nat (Z.log2 n))) n.

(** [10^z] for [z >= 0], and 1 for a negative [z]. *)
Definition pow10 (z : Z) : Z := 10 ^ Z.max z 0.

(** [num / den * 10^k] as a fraction. *)
Definition scale10 (num den k : Z) : Z * Z :=
  (num * pow10 k, den * pow10 (- k)).

(** The decimal exponent of the leading digit of [num / den]: the
    difference [c] of the digit counts when [10^c <= num / den], and
    [c - 1] otherwise. *)
Definition log10_floor (num den : Z) : Z :=
  let c := ndigits num - ndigits den in
  let '(n, d) := scale10 num den (- c) in
  if d <=? n then c else c - 1.

(** Fold a mantissa that rounding carried up to [10^k] back to [k]
    digits. *)
Definition carry (k : Z) (me : Z * Z) : Z * Z :=
  let '(m, e10) := me in
  if m =? 10 ^ k then (10 ^ (k - 1), e10 + 1) else (m, e10).

(** [num / den] correctly rounded to [k] significant digits: the
    mantissa, of [k] digits, and the decimal exponent of its first
    digit. *)
Definition round_sig (k num den : Z) : Z * Z :=
  let e10 := log10_floor num den in
  let '(n, d) := scale10 num den (k - 1 - e10) in
  carry k (round_half_even n d, e10).

(** The other [k]-digit neighbour of [num / den]. *)
Definition other_sig (k num den : Z) : Z * Z :=
  let e10 := log10_floor num den in
  let '(n, d) := scale10 num den (k - 1 - e10) in
  let q := n / d in
  carry k (if round_half_even n d =? q then q + 1 else q, e10).

Fixpoint zeros (n : nat) : string :=
  match n with O => EmptyString | S k => String "0" (zeros k) end.

(** Sign and at least two digits. *)
Definition exp_str (e : Z) : string :=
  (if e <? 0 then "-" else "+") ++
  (if Z.abs e <? 10 then String "0" (PyInt.digits (Z.abs e))
   else PyInt.digits (Z.abs e)).

Definition sign_str (neg : bool) : string :=
  if neg then "-" else EmptyString.

(** First digit, a point when [point] asks for it or digits follow, the
    other digits, the exponent letter and the exponent. *)
Definition sci (point : bool) (neg : bool) (ds : string) (e10 : Z)
    (letter : string) : string :=
  match ds with
  | EmptyString => EmptyString
  | String d0 rest =>
      sign_str neg ++
      String d0 ((match rest with
                  | EmptyString => if point then "." else EmptyString
                  | _ => "." ++ rest
                  end) ++ letter ++ exp_str e10)
  end.

(** [format(x, "E")]: six digits after the point. *)
Definition format_E (x : float) : string :=
  match x with
  | S754_nan => "NAN"
  | S754_infinity s => sign_str s ++ "INF"
  | S754_zero s => sci true s (zeros 7) 0 "E"
  | S754_finite s m e =>
      let '(n, d) := fraction m e in
      let '(mant, e10) := round_sig 7 n d in
      sci true s (PyInt.digits mant) e10 "E"
  end.

(** The shortest digit string that reads back as [x = num / den > 0]:
    for each length from [k] up, the nearest decimal of that length,
    then its neighbour on the other side. *)
Fixpoint shortest (fuel : nat) (k : Z) (x : float) (num den : Z) : Z * Z :=
  match fuel with
  | O => round_sig k num den
  | S f =>
      let '(m1, e1) := round_sig k num den in
      if eqb (of_decimal false m1 (e1 - k + 1)) x then (m1, e1)
      else
        let '(m2, e2) := other_sig k num den in
        if eqb (of_decimal false m2 (e2 - k + 1)) x then (m2, e2)
        else shortest f (k + 1) x num den
  end.

Definition take (n : Z) (s : string) : string :=
  substring 0 (Z.to_nat n) s.
Definition drop (n : Z) (s : string) : string :=
  substring (Z.to_nat n) (length s - Z.to_nat n) s.

(** [repr(x)], which [str(x)] and an f-string without a format use. *)
Definition repr (x : float) : string :=
  match x with
  | S754_nan => "nan"
  | S754_infinity s => sign_str s ++ "inf"
  | S754_zero s => sign_str s ++ "0.0"
  | S754_finite s m e =>
      let '(n, d) := fraction m e in
      let '(mant, e10) := shortest 16 1 (S754_finite false m e) n d in
      let ds := PyInt.digits mant in
      let k := Z.of_nat (length ds) in
      let decpt := e10 + 1 in
      if (decpt <=? -4) || (16 <? decpt) then sci false s ds e10 "e"
      else if decpt <=? 0 then
             sign_str s ++ "0." ++ zeros (Z.to_nat (- decpt)) ++ ds
      else if k <=? decpt then
             sign_str s ++ ds ++ zeros (Z.to_nat (decpt - k)) ++ ".0"
      else sign_str s ++ take decpt ds ++ "." ++ drop decpt ds
  end.

(** *** [float(str)] *)

(** Underscores are allowed between two digits only. *)
Fixpoint underscores_ok (prev : ascii) (s : string) : bool :=
  match s with
  | EmptyString => negb (Ascii.eqb prev "_")
  | String c r =>
      (if Ascii.eqb c "_" then is_digit prev
       else if Ascii.eqb prev "_" then is_digit c else true)
      && underscores_ok c r
  end.

Fixpoint remove_underscores (s : string) : string :=
  match s with
  | EmptyString => EmptyString
  | String c r =>
      if Ascii.eqb c "_" then remove_underscores r
      else String c (remove_underscores r)
  end.

(** A maximal run of digits: its value continuing [acc], how many digits
    were read, and the rest of the text. *)
Fixpoint span_digits (s : string) (acc : Z) (cnt : Z) : Z * Z * string :=
  match s with
  | String c r =>
      if is_digit c then span_digits r (10 * acc + digit_val c) (cnt + 1)
      else (acc, cnt, s)
  | EmptyString => (acc, cnt, s)
  end.

Definition lower (c : ascii) : ascii :=
  let n := code c in
  if ((65 <=? n) && (n <=? 90))%nat then ascii_of_nat (n + 32) else c.

Fixpoint lower_str (s : string) : string :=
  match s with
  | EmptyString => EmptyString
  | String c r => String (lower c) (lower_str r)
  end.

Definition split_sign (s : string) : bool * string :=
  match s with
  | String "-" r => (true, r)
  | String "+" r => (false, r)
  | _ => (false, s)
  end.

(** The exponent part: nothing, or [e] or [E], an optional sign and at
    least one digit, up to the end of the text. *)
Definition parse_exponent (s : string) : option Z :=
  match s with
  | EmptyString => Some 0
  | String c r =>
      if Ascii.eqb (lower c) "e" then
        let '(neg, r') := split_sign r in
        match span_digits r' 0 0 with
        | (v, cnt, EmptyString) =>
            if 0 <? cnt then Some (cond_opp neg v) else None
        | _ => None
        end
      else None
  end.

(** A decimal literal without its sign. *)
Definition parse_decimal (neg : bool) (s : string) : option float :=
  let '(ipart, icnt, r1) := span_digits s 0 0 in
  let '(mant, fcnt, r2) :=
    match r1 with
    | String "." r => span_digits r ipart 0
    | _ => (ipart, 0, r1)
    end in
  if 0 <? icnt + fcnt then
    match parse_exponent r2 with
    | Some ex => Some (of_decimal neg mant (ex - fcnt))
    | None => None
    end
  else None.

Definition parse_special (neg : bool) (s : string) : option float :=
  let l := lower_str s in
  if String.eqb l "inf" || String.eqb l "infinity"
  then Some (S754_infinity neg)
  else if String.eqb l "nan" then Some S754_nan
  else None.

(** [float(s)] *)
Definition of_str (s : string) : outcome float :=
  let t := strip_with is_numeric_space s in
  if underscores_ok " " t then
    let '(neg, body) := split_sign (remove_underscores t) in
    match parse_decimal neg body with
    | Some x => Return x
    | None =>
        match parse_special neg body with
        | Some x => Return x
        | None => Raise ValueError
        end
    end
  else Raise ValueError.

End PyFloat.

(** ** Computations over the command trace *)

(** Every string handed to the transport, oldest first. *)
Definition trace : Type := list string.

Definition M (A : Type) : Type := trace -> outcome A * trace.

Definition ret {A} (a : A) : M A := fun tr => (Return a, tr).

Definition bind {A B} (m : M A) (k : A -> M B) : M B :=
  fun tr =>
    match m tr with
    | (Return a, tr') => k a tr'
    | (Raise e, tr') => (Raise e, tr')
    end.

Definition lift {A} (o : outcome A) : M A := fun tr => (o, tr).

Notation "x <- c ;; k" := (bind c (fun x => k))
  (at level 61, c at next level, right associativity).
Notation "c ;;; k" := (bind c (fun _ => k))
  (at level 61, right associativity).

(** What the controllers ask of a connection object: [Connection] and the
    tests' [MockConnection] both provide it, and both define the IEEE-488
    helpers the same way. *)
Module Conn.
Record t : Type := {
  write : string -> M unit;
  query : string -> M string;
  query_ascii_values : string -> M (list PyFloat.float)
}.

(** A connection that records each command it is given, whatever becomes
    of it. *)
Record logs (c : t) : Prop := {
  write_logs : forall cmd tr, snd (write c cmd tr) = (tr ++ [cmd])%list;
  query_logs : forall cmd tr, snd (query c cmd tr) = (tr ++ [cmd])%list;
  ascii_logs : forall cmd tr,
      snd (query_ascii_values c cmd tr) = (tr ++ [cmd])%list
}.

Section Common.
Variable conn : t.

Definition reset : M unit := write conn "*RST".
Definition clear_status : M unit := write conn "*CLS".
Definition identify : M string := query conn "*IDN?".
Definition operation_complete : M bool :=
  r <- query conn "*OPC?" ;; ret (String.eqb r "1").
Definition wait : M unit := write conn "*WAI".
Definition self_test : M Z :=
  r <- query conn "*TST?" ;; lift (PyInt.of_str r).
End Common.
End Conn.

(** The VISA resource behind a [Connection]: what it does with a command,
    given the commands it was sent before. *)
Record Instrument : Type := {
  on_write : trace -> string -> outcome unit;
  on_query : trace -> string -> outcome string;
  on_query_ascii_values : trace -> string -> outcome (list PyFloat.float)
}.

(** connection.py *)
Module Connection.
Section Wrapper.
Variable inst : Instrument.

Definition write (cmd : string) : M unit :=
  fun tr => (on_write inst tr cmd, (tr ++ [cmd])%list).

Definition query (cmd : string) : M string :=
  fun tr => (obind (on_query inst tr cmd) (fun r => Return (PyStr.strip r)),
             (tr ++ [cmd])%list).

Definition query_ascii_values (cmd : string) : M (list PyFloat.float) :=
  fun tr => (on_query_ascii_values inst tr cmd, (tr ++ [cmd])%list).

Definition make : Conn.t :=
  {| Conn.write := write; Conn.query := query;
     Conn.query_ascii_values := query_ascii_values |}.
End Wrapper.
End Connection.

(** tests/conftest.py *)
Module MockConnection.
Section Mock.
(** The [responses] dict, latest binding first. *)
Variable responses : list (string * string).

Definition get (cmd : string) (default : string) : string :=
  match find (fun kv => String.eqb (fst kv) cmd) responses with
  | Some kv => snd kv
  | None => default
  end.

Fixpoint floats (parts : list string) : outcome (list PyFloat.float) :=
  match parts with
  | [] => Return []
  | p :: r =>
      obind (PyFloat.of_str p) (fun x =>
      obind (floats r) (fun xs => Return (x :: xs)))
  end.

Definition write (cmd : string) : M unit :=
  fun tr => (Return tt, (tr ++ [cmd])%list).

Definition query (cmd : string) : M string :=
  fun tr => (Return (get cmd "0"), (tr ++ [cmd])%list).

Definition query_ascii_values (cmd : string) : M (list PyFloat.float) :=
  fun tr =>
    (match get cmd EmptyString with
     | EmptyString => Return []
     | raw => floats (PyStr.split "," raw)
     end, (tr ++ [cmd])%list).

Definition make : Conn.t :=
  {| Conn.write := write; Conn.query := query;
     Conn.query_ascii_values := query_ascii_values |}.
End Mock.
End MockConnection.

Definition on_off (enable : bool) : string := if enable then "ON" else "OFF".

(** config.py *)
Module Config.
Section Methods.
Variable conn : Conn.t.

Definition output_on : M unit := Conn.write conn ":OUTP ON".
Definition output_off : M unit := Conn.write conn ":OUTP OFF".
Definition is_output_on : M bool :=
  r <- Conn.query conn ":OUTP?" ;; ret (String.eqb r "1").
Definition set_output_off_mode (mode : string) : M unit :=
  Conn.write conn (":OUTP:SMOD " ++ mode).
Definition set_terminals (terminal : string) : M unit :=
  Conn.write conn (":ROUT:TERM " ++ terminal).
Definition set_four_wire (enable : bool) : M unit :=
  Conn.write conn (":SYST:RSEN " ++ on_off enable).
Definition set_data_elements (elements : list string) : M unit :=
  Conn.write conn (":FORM:ELEM " ++ PyStr.join "," elements).
Definition get_data_elements : M string := Conn.query conn ":FORM:ELEM?".

Definition get_output_off_mode : M string := Conn.query conn ":OUTP:SMOD?".
Definition get_terminals : M string := Conn.query conn ":ROUT:TERM?".
Definition is_four_wire : M bool :=
  r <- Conn.query conn ":SYST:RSEN?" ;; ret (String.eqb r "1").
Definition set_auto_zero (mode : string) : M unit :=
  Conn.write conn (":SYST:AZER:STAT " ++ mode).
Definition get_auto_zero : M string := Conn.query conn ":SYST:AZER:STAT?".
Definition set_guard (mode : string) : M unit :=
  Conn.write conn (":SYST:GUAR " ++ mode).
Definition get_guard : M string := Conn.query conn ":SYST:GUAR?".
Definition set_beeper (enable : bool) : M unit :=
  Conn.write conn (":SYST:BEEP:STAT " ++ on_off enable).
Definition is_beeper_on : M bool :=
  r <- Conn.query conn ":SYST:BEEP:STAT?" ;; ret (String.eqb r "1").
End Methods.
End Config.

(** source.py *)
Module Source.
Section Methods.
Variable conn : Conn.t.

Definition set_function (func : string) : M unit :=
  Conn.write conn (":SOUR:FUNC " ++ func).
Definition get_function : M string := Conn.query conn ":SOUR:FUNC?".

Definition set_voltage (level : PyFloat.float) : M unit :=
  Conn.write conn (":SOUR:VOLT:LEV " ++ PyFloat.format_E level).
Definition get_voltage : M PyFloat.float :=
  r <- Conn.query conn ":SOUR:VOLT:LEV?" ;; lift (PyFloat.of_str r).
Definition set_voltage_range (range_val : PyFloat.float) : M unit :=
  Conn.write conn (":SOUR:VOLT:RANG " ++ PyFloat.format_E range_val).
Definition set_voltage_mode (mode : string) : M unit :=
  Conn.write conn (":SOUR:VOLT:MODE " ++ mode).

Definition set_current (level : PyFloat.float) : M unit :=
  Conn.write conn (":SOUR:CURR:LEV " ++ PyFloat.format_E level).
Definition get_current : M PyFloat.float :=
  r <- Conn.query conn ":SOUR:CURR:LEV?" ;; lift (PyFloat.of_str r).
Definition set_current_range (range_val : PyFloat.float) : M unit :=
  Conn.write conn (":SOUR:CURR:RANG " ++ PyFloat.format_E range_val).
Definition set_current_mode (mode : string) : M unit :=
  Conn.write conn (":SOUR:CURR:MODE " ++ mode).

Definition set_delay (seconds : PyFloat.float) : M unit :=
  Conn.write conn (":SOUR:DEL " ++ PyFloat.repr seconds).
Definition set_auto_delay (enable : bool) : M unit :=
  Conn.write conn (":SOUR:DEL:AUTO " ++ on_off enable).

Definition set_voltage_protection (volts : PyFloat.float) : M unit :=
  Conn.write conn (":SOUR:VOLT:PROT " ++ PyFloat.format_E volts).

Definition get_voltage_range : M PyFloat.float :=
  r <- Conn.query conn ":SOUR:VOLT:RANG?" ;; lift (PyFloat.of_str r).
Definition get_voltage_mode : M string := Conn.query conn ":SOUR:VOLT:MODE?".
Definition get_current_range : M PyFloat.float :=
  r <- Conn.query conn ":SOUR:CURR:RANG?" ;; lift (PyFloat.of_str r).
Definition get_current_mode : M string := Conn.query conn ":SOUR:CURR:MODE?".
Definition get_delay : M PyFloat.float :=
  r <- Conn.query conn ":SOUR:DEL?" ;; lift (PyFloat.of_str r).
Definition is_auto_delay : M bool :=
  r <- Conn.query conn ":SOUR:DEL:AUTO?" ;; ret (String.eqb r "1").
Definition get_voltage_protection : M PyFloat.float :=
  r <- Conn.query conn ":SOUR:VOLT:PROT?" ;; lift (PyFloat.of_str r).
Definition is_voltage_protection_tripped : M bool :=
  r <- Conn.query conn ":SOUR:VOLT:PROT:TRIP?" ;; ret (String.eqb r "1").
End Methods.
End Source.

(** measure.py *)
Module Measure.
Section Methods.
Variable conn : Conn.t.

Definition quoted (f : string) : string :=
  String PyStr.dquote (f ++ String PyStr.dquote EmptyString).

Definition set_function (funcs : list string) : M unit :=
  Conn.write conn (":SENS:FUNC " ++ PyStr.join "," (map quoted funcs)).
Definition set_concurrent (enable : bool) : M unit :=
  Conn.write conn (":SENS:FUNC:CONC " ++ on_off enable).

Definition set_voltage_compliance (volts : PyFloat.float) : M unit :=
  Conn.write conn (":SENS:VOLT:PROT " ++ PyFloat.format_E volts).
Definition get_voltage_compliance : M PyFloat.float :=
  r <- Conn.query conn ":SENS:VOLT:PROT?" ;; lift (PyFloat.of_str r).
Definition is_voltage_compliance_tripped : M bool :=
  r <- Conn.query conn ":SENS:VOLT:PROT:TRIP?" ;; ret (String.eqb r "1").
Definition set_current_compliance (amps : PyFloat.float) : M unit :=
  Conn.write conn (":SENS:CURR:PROT " ++ PyFloat.format_E amps).
Definition get_current_compliance : M PyFloat.float :=
  r <- Conn.query conn ":SENS:CURR:PROT?" ;; lift (PyFloat.of_str r).
Definition is_current_compliance_tripped : M bool :=
  r <- Conn.query conn ":SENS:CURR:PROT:TRIP?" ;; ret (String.eqb r "1").

Definition set_voltage_range (range_val : PyFloat.float) : M unit :=
  Conn.write conn (":SENS:VOLT:RANG " ++ PyFloat.format_E range_val).
Definition set_current_range (range_val : PyFloat.float) : M unit :=
  Conn.write conn (":SENS:CURR:RANG " ++ PyFloat.format_E range_val).
Definition set_resistance_range (range_val : PyFloat.float) : M unit :=
  Conn.write conn (":SENS:RES:RANG " ++ PyFloat.format_E range_val).
Definition set_auto_range (func : string) (enable : bool) : M unit :=
  Conn.write conn (":SENS:" ++ func ++ ":RANG:AUTO " ++ on_off enable).

Definition set_nplc (func : string) (nplc : PyFloat.float) : M unit :=
  Conn.write conn (":SENS:" ++ func ++ ":NPLC " ++ PyFloat.repr nplc).

Definition read : M (list PyFloat.float) :=
  Conn.query_ascii_values conn ":READ?".
Definition fetch : M (list PyFloat.float) :=
  Conn.query_ascii_values conn ":FETC?".

Definition get_function : M string := Conn.query conn ":SENS:FUNC?".
Definition is_concurrent : M bool :=
  r <- Conn.query conn ":SENS:FUNC:CONC?" ;; ret (String.eqb r "1").
Definition get_voltage_range : M PyFloat.float :=
  r <- Conn.query conn ":SENS:VOLT:RANG?" ;; lift (PyFloat.of_str r).
Definition get_current_range : M PyFloat.float :=
  r <- Conn.query conn ":SENS:CURR:RANG?" ;; lift (PyFloat.of_str r).
Definition get_nplc (func : string) : M PyFloat.float :=
  r <- Conn.query conn (":SENS:" ++ func ++ ":NPLC?") ;;
  lift (PyFloat.of_str r).

Definition set_filter (enable : bool) (filter_type : string) (count : Z)
    : M unit :=
  Conn.write conn (":SENS:AVER:TCON " ++ filter_type) ;;;
  Conn.write conn (":SENS:AVER:COUN " ++ PyInt.to_str count) ;;;
  Conn.write conn (":SENS:AVER " ++ on_off enable).

End Methods.
End Measure.

(** trigger.py *)
Module Trigger.
Section Methods.
Variable conn : Conn.t.

Definition initiate : M unit := Conn.write conn ":INIT".
Definition abort : M unit := Conn.write conn ":ABOR".

Definition set_trigger_count (count : Z) : M unit :=
  Conn.write conn (":TRIG:COUN " ++ PyInt.to_str count).
Definition get_trigger_count : M Z :=
  r <- Conn.query conn ":TRIG:COUN?" ;;
  lift (obind (PyFloat.of_str r) PyFloat.to_int).

Definition set_trigger_delay (seconds : PyFloat.float) : M unit :=
  Conn.write conn (":TRIG:DEL " ++ PyFloat.repr seconds).
Definition get_trigger_delay : M PyFloat.float :=
  r <- Conn.query conn ":TRIG:DEL?" ;; lift (PyFloat.of_str r).

Definition set_arm_count (count : Z) : M unit :=
  Conn.write conn (":ARM:COUN " ++ PyInt.to_str count).

Definition arm_limit : PyFloat.float := PyFloat.of_decimal false 2500 0.

Definition get_arm_count : M Z :=
  resp <- Conn.query conn ":ARM:COUN?" ;;
  val <- lift (PyFloat.of_str resp) ;;
  if PyFloat.gt val arm_limit then ret (-1)
  else lift (PyFloat.to_int val).

Definition set_trigger_source (source : string) : M unit :=
  Conn.write conn (":TRIG:SOUR " ++ source).
Definition get_trigger_source : M string := Conn.query conn ":TRIG:SOUR?".
Definition set_arm_source (source : string) : M unit :=
  Conn.write conn (":ARM:SOUR " ++ source).
Definition get_arm_source : M string := Conn.query conn ":ARM:SOUR?".
Definition set_arm_timer (seconds : PyFloat.float) : M unit :=
  Conn.write conn (":ARM:TIM " ++ PyFloat.repr seconds).
Definition get_arm_timer : M PyFloat.float :=
  r <- Conn.query conn ":ARM:TIM?" ;; lift (PyFloat.of_str r).
End Methods.
End Trigger.

(** data.py *)
Module DataBuffer.
Section Methods.
Variable conn : Conn.t.

Definition set_size (points : Z) : M unit :=
  Conn.write conn (":TRAC:POIN " ++ PyInt.to_str points).
Definition get_size : M Z :=
  r <- Conn.query conn ":TRAC:POIN?" ;;
  lift (obind (PyFloat.of_str r) PyFloat.to_int).
Definition clear : M unit := Conn.write conn ":TRAC:CLE".
Definition get_free : M string := Conn.query conn ":TRAC:FREE?".
Definition read : M (list PyFloat.float) :=
  Conn.query_ascii_values conn ":TRAC:DATA?".
Definition get_count : M Z :=
  r <- Conn.query conn ":TRAC:POIN:ACT?" ;;
  lift (obind (PyFloat.of_str r) PyFloat.to_int).

Definition set_feed (source : string) : M unit :=
  Conn.write conn (":TRAC:FEED " ++ source).
Definition set_control (mode : string) : M unit :=
  Conn.write conn (":TRAC:CONT " ++ mode).
Definition get_control : M string := Conn.query conn ":TRAC:CONT?".
Definition set_timestamp_format (fmt : string) : M unit :=
  Conn.write conn (":TRAC:TST:FORM " ++ fmt).
Definition get_timestamp_format : M string :=
  Conn.query conn ":TRAC:TST:FORM?".
End Methods.
End DataBuffer.

(** status.py *)
Module Status.
Section Methods.
Variable conn : Conn.t.

(** [a, b = parts] *)
Definition unpack2 (parts : list string) : outcome (string * string) :=
  match parts with
  | [a; b] => Return (a, b)
  | _ => Raise ValueError
  end.

Definition read_error : M (Z * string) :=
  resp <- Conn.query conn ":SYST:ERR?" ;;
  p <- lift (unpack2 (PyStr.split1 "," resp)) ;;
  let '(code_str, msg) := p in
  code <- lift (PyInt.of_str code_str) ;;
  ret (code, PyStr.strip_chars [PyStr.dquote] (PyStr.strip msg)).

(** The [while True] loop of [read_all_errors], unrolled at most [fuel]
    times; [None] when the loop is still running after that. *)
Fixpoint read_all_errors_loop (fuel : nat) (errors : list (Z * string))
    (tr : trace) : option (outcome (list (Z * string)) * trace) :=
  match fuel with
  | O => None
  | S f =>
      match read_error tr with
      | (Raise e, tr') => Some (Raise e, tr')
      | (Return (code, msg), tr') =>
          if code =? 0 then Some (Return errors, tr')
          else read_all_errors_loop f (errors ++ [(code, msg)])%list tr'
      end
  end.

Definition read_all_errors (fuel : nat) (tr : trace)
    : option (outcome (list (Z * string)) * trace) :=
  read_all_errors_loop fuel [] tr.

Definition clear : M unit := Conn.clear_status conn.

Definition read_status_byte : M Z :=
  r <- Conn.query conn "*STB?" ;; lift (PyInt.of_str r).
Definition read_event_register : M Z :=
  r <- Conn.query conn "*ESR?" ;; lift (PyInt.of_str r).
Definition read_measurement_event : M Z :=
  r <- Conn.query conn ":STAT:MEAS?" ;; lift (PyInt.of_str r).
Definition set_measurement_enable (mask : Z) : M unit :=
  Conn.write conn (":STAT:MEAS:ENAB " ++ PyInt.to_str mask).
Definition read_operation_event : M Z :=
  r <- Conn.query conn ":STAT:OPER?" ;; lift (PyInt.of_str r).
Definition set_operation_enable (mask : Z) : M unit :=
  Conn.write conn (":STAT:OPER:ENAB " ++ PyInt.to_str mask).
Definition read_questionable_event : M Z :=
  r <- Conn.query conn ":STAT:QUES?" ;; lift (PyInt.of_str r).
Definition set_questionable_enable (mask : Z) : M unit :=
  Conn.write conn (":STAT:QUES:ENAB " ++ PyInt.to_str mask).
Definition preset : M unit := Conn.write conn ":STAT:PRES".
End Methods.
End Status.

(** sweep.py.  The controllers a [Sweep] is built from are those of its own
    connection, as the facade wires them. *)
Module Sweep.

(** [l[start::step]] for [step > 0]: [skip] elements are passed over
    before the next one is kept. *)
Fixpoint every (step : nat) (skip : nat) (l : list PyFloat.float)
    : list PyFloat.float :=
  match l with
  | [] => []
  | x :: r =>
      match skip with
      | O => x :: every step (step - 1) r
      | S k => every step k r
      end
  end.

Definition slice_from_step (start step : nat) (l : list PyFloat.float) :=
  every step start l.

(** A [dict] keeps its keys in the order of their first insertion. *)
Definition dict : Type := list (string * list PyFloat.float).

Fixpoint dict_set (d : dict) (k : string) (v : list PyFloat.float) : dict :=
  match d with
  | [] => [(k, v)]
  | (k', v') :: r =>
      if String.eqb k' k then (k', v) :: r else (k', v') :: dict_set r k v
  end.

Definition _parse_two_element (raw : list PyFloat.float)
    (key_a key_b : string) : dict :=
  let a_vals := slice_from_step 0 2 raw in
  let b_vals := slice_from_step 1 2 raw in
  dict_set (dict_set [] key_a a_vals) key_b b_vals.

Definition default_delay : PyFloat.float := PyFloat.of_decimal false 1 (-1).
Definition default_nplc : PyFloat.float := PyFloat.of_decimal false 1 0.

(** [int(round(abs(stop - start) / abs(step))) + 1] *)
Definition linear_points (start stop step : PyFloat.float) : outcome Z :=
  obind (PyFloat.truediv (PyFloat.abs (PyFloat.sub stop start))
                         (PyFloat.abs step)) (fun q =>
  obind (PyFloat.round q) (fun r => Return (r + 1))).

Section Methods.
Variable conn : Conn.t.

Definition voltage_sweep_linear
    (start stop step compliance delay nplc : PyFloat.float) : M dict :=
  num_points <- lift (linear_points start stop step) ;;
  Conn.reset conn ;;;
  Measure.set_concurrent conn false ;;;
  Source.set_function conn "VOLT" ;;;
  Measure.set_function conn ["CURR:DC"] ;;;
  Measure.set_current_compliance conn compliance ;;;
  Measure.set_nplc conn "CURR" nplc ;;;
  Conn.write conn (":SOUR:VOLT:START " ++ PyFloat.format_E start) ;;;
  Conn.write conn (":SOUR:VOLT:STOP " ++ PyFloat.format_E stop) ;;;
  Conn.write conn (":SOUR:VOLT:STEP " ++ PyFloat.format_E step) ;;;
  Source.set_voltage_mode conn "SWE" ;;;
  Conn.write conn ":SOUR:SWE:RANG AUTO" ;;;
  Conn.write conn ":SOUR:SWE:SPAC LIN" ;;;
  Trigger.set_trigger_count conn num_points ;;;
  Source.set_delay conn delay ;;;
  Config.set_data_elements conn ["VOLT"; "CURR"] ;;;
  Config.output_on conn ;;;
  raw <- Measure.read conn ;;
  Config.output_off conn ;;;
  ret (_parse_two_element raw "voltage" "current").

Definition current_sweep_linear
    (start stop step compliance delay nplc : PyFloat.float) : M dict :=
  num_points <- lift (linear_points start stop step) ;;
  Conn.reset conn ;;;
  Measure.set_concurrent conn false ;;;
  Source.set_function conn "CURR" ;;;
  Measure.set_function conn ["VOLT:DC"] ;;;
  Measure.set_voltage_compliance conn compliance ;;;
  Measure.set_nplc conn "VOLT" nplc ;;;
  Conn.write conn (":SOUR:CURR:START " ++ PyFloat.format_E start) ;;;
  Conn.write conn (":SOUR:CURR:STOP " ++ PyFloat.format_E stop) ;;;
  Conn.write conn (":SOUR:CURR:STEP " ++ PyFloat.format_E step) ;;;
  Source.set_current_mode conn "SWE" ;;;
  Conn.write conn ":SOUR:SWE:RANG AUTO" ;;;
  Conn.write conn ":SOUR:SWE:SPAC LIN" ;;;
  Trigger.set_trigger_count conn num_points ;;;
  Source.set_delay conn delay ;;;
  Config.set_data_elements conn ["VOLT"; "CURR"] ;;;
  Config.output_on conn ;;;
  raw <- Measure.read conn ;;
  Config.output_off conn ;;;
  ret (_parse_two_element raw "voltage" "current").

Definition voltage_sweep_log (start stop : PyFloat.float) (points : Z)
    (compliance delay nplc : PyFloat.float) : M dict :=
  Conn.reset conn ;;;
  Measure.set_concurrent conn false ;;;
  Source.set_function conn "VOLT" ;;;
  Measure.set_function conn ["CURR:DC"] ;;;
  Measure.set_current_compliance conn compliance ;;;
  Measure.set_nplc conn "CURR" nplc ;;;
  Conn.write conn (":SOUR:VOLT:START " ++ PyFloat.format_E start) ;;;
  Conn.write conn (":SOUR:VOLT:STOP " ++ PyFloat.format_E stop) ;;;
  Source.set_voltage_mode conn "SWE" ;;;
  Conn.write conn ":SOUR:SWE:RANG AUTO" ;;;
  Conn.write conn ":SOUR:SWE:SPAC LOG" ;;;
  Conn.write conn (":SOUR:SWE:POIN " ++ PyInt.to_str points) ;;;
  Trigger.set_trigger_count conn points ;;;
  Source.set_delay conn delay ;;;
  Config.set_data_elements conn ["VOLT"; "CURR"] ;;;
  Config.output_on conn ;;;
  raw <- Measure.read conn ;;
  Config.output_off conn ;;;
  ret (_parse_two_element raw "voltage" "current").

Definition current_sweep_log (start stop : PyFloat.float) (points : Z)
    (compliance delay nplc : PyFloat.float) : M dict :=
  Conn.reset conn ;;;
  Measure.set_concurrent conn false ;;;
  Source.set_function conn "CURR" ;;;
  Measure.set_function conn ["VOLT:DC"] ;;;
  Measure.set_voltage_compliance conn compliance ;;;
  Measure.set_nplc conn "VOLT" nplc ;;;
  Conn.write conn (":SOUR:CURR:START " ++ PyFloat.format_E start) ;;;
  Conn.write conn (":SOUR:CURR:STOP " ++ PyFloat.format_E stop) ;;;
  Source.set_current_mode conn "SWE" ;;;
  Conn.write conn ":SOUR:SWE:RANG AUTO" ;;;
  Conn.write conn ":SOUR:SWE:SPAC LOG" ;;;
  Conn.write conn (":SOUR:SWE:POIN " ++ PyInt.to_str points) ;;;
  Trigger.set_trigger_count conn points ;;;
  Source.set_delay conn delay ;;;
  Config.set_data_elements conn ["VOLT"; "CURR"] ;;;
  Config.output_on conn ;;;
  raw <- Measure.read conn ;;
  Config.output_off conn ;;;
  ret (_parse_two_element raw "voltage" "current").

Definition voltage_sweep_list (voltages : list PyFloat.float)
    (compliance delay nplc : PyFloat.float) : M dict :=
  Conn.reset conn ;;;
  Measure.set_concurrent conn false ;;;
  Source.set_function conn "VOLT" ;;;
  Measure.set_function conn ["CURR:DC"] ;;;
  Measure.set_current_compliance conn compliance ;;;
  Measure.set_nplc conn "CURR" nplc ;;;
  Source.set_voltage_mode conn "LIST" ;;;
  let volt_str := PyStr.join "," (map PyFloat.format_E voltages) in
  Conn.write conn (":SOUR:LIST:VOLT " ++ volt_str) ;;;
  Trigger.set_trigger_count conn (Z.of_nat (List.length voltages)) ;;;
  Source.set_delay conn delay ;;;
  Config.set_data_elements conn ["VOLT"; "CURR"] ;;;
  Config.output_on conn ;;;
  raw <- Measure.read conn ;;
  Config.output_off conn ;;;
  ret (_parse_two_element raw "voltage" "current").

Definition current_sweep_list (currents : list PyFloat.float)
    (compliance delay nplc : PyFloat.float) : M dict :=
  Conn.reset conn ;;;
  Measure.set_concurrent conn false ;;;
  Source.set_function conn "CURR" ;;;
  Measure.set_function conn ["VOLT:DC"] ;;;
  Measure.set_voltage_compliance conn compliance ;;;
  Measure.set_nplc conn "VOLT" nplc ;;;
  Source.set_current_mode conn "LIST" ;;;
  let curr_str := PyStr.join "," (map PyFloat.format_E currents) in
  Conn.write conn (":SOUR:LIST:CURR " ++ curr_str) ;;;
  Trigger.set_trigger_count conn (Z.of_nat (List.length currents)) ;;;
  Source.set_delay conn delay ;;;
  Config.set_data_elements conn ["VOLT"; "CURR"] ;;;
  Config.output_on conn ;;;
  raw <- Measure.read conn ;;
  Config.output_off conn ;;;
  ret (_parse_two_element raw "voltage" "current").
End Methods.
End Sweep.

(** smu.py, the facade.  Its controllers and its sweep share the one
    connection; [on_close] is what closing the session ([conn.close()])
    comes to after the commands sent so far. *)
Module Keithley2400.
Section Facade.
Variable conn : Conn.t.
Variable on_close : trace -> outcome unit.

Definition conn_close : M unit := fun tr => (on_close tr, tr).

Definition reset : M unit := Conn.reset conn.
Definition identify : M string := Conn.identify conn.



Definition close : M unit := Config.output_off conn ;;; conn_close.

(** [with Keithley2400(...) as smu: body]: [__exit__] calls [close] however
    the body ends and returns nothing, so an error of the body is raised
    again after it, unless [close] raises itself. *)
Definition with_block {A} (body : M A) : M A :=
  fun tr =>
    let '(o, tr1) := body tr in
    match close tr1 with
    | (Return _, tr2) => (o, tr2)
    | (Raise e, tr2) => (Raise e, tr2)
    end.
End Facade.
End Keithley2400.

(** ** Sweep requests, scripts and test instruments *)

(** The float that the decimal literal [m * 10^e] denotes. *)
Definition lit (m e : Z) : PyFloat.float := PyFloat.of_decimal false m e.

(** One call of one of the six sweep methods. *)
Inductive request : Type :=
| VoltageLinear (start stop step compliance delay nplc : PyFloat.float)
| CurrentLinear (start stop step compliance delay nplc : PyFloat.float)
| VoltageLog (start stop : PyFloat.float) (points : Z)
             (compliance delay nplc : PyFloat.float)
| CurrentLog (start stop : PyFloat.float) (points : Z)
             (compliance delay nplc : PyFloat.float)
| VoltageList (voltages : list PyFloat.float)
              (compliance delay nplc : PyFloat.float)
| CurrentList (currents : list PyFloat.float)
              (compliance delay nplc : PyFloat.float).

Definition run (conn : Conn.t) (r : request) : M Sweep.dict :=
  match r with
  | VoltageLinear a b c d e f => Sweep.voltage_sweep_linear conn a b c d e f
  | CurrentLinear a b c d e f => Sweep.current_sweep_linear conn a b c d e f
  | VoltageLog a b n d e f => Sweep.voltage_sweep_log conn a b n d e f
  | CurrentLog a b n d e f => Sweep.current_sweep_log conn a b n d e f
  | VoltageList l d e f => Sweep.voltage_sweep_list conn l d e f
  | CurrentList l d e f => Sweep.current_sweep_list conn l d e f
  end.

(** The point count a request resolves to. *)
Definition points (r : request) : outcome Z :=
  match r with
  | VoltageLinear a b c _ _ _ | CurrentLinear a b c _ _ _ =>
      Sweep.linear_points a b c
  | VoltageLog _ _ n _ _ _ | CurrentLog _ _ n _ _ _ => Return n
  | VoltageList l _ _ _ | CurrentList l _ _ _ =>
      Return (Z.of_nat (List.length l))
  end.

(** The commands of steps 1 to 5, for the point count [n]. *)
Definition setup (r : request) (n : Z) : list string :=
  match r with
  | VoltageLinear start stop step compliance delay nplc =>
      [ "*RST"; ":SENS:FUNC:CONC OFF"; ":SOUR:FUNC VOLT";
        ":SENS:FUNC " ++ Measure.quoted "CURR:DC";
        ":SENS:CURR:PROT " ++ PyFloat.format_E compliance;
        ":SENS:CURR:NPLC " ++ PyFloat.repr nplc;
        ":SOUR:VOLT:START " ++ PyFloat.format_E start;
        ":SOUR:VOLT:STOP " ++ PyFloat.format_E stop;
        ":SOUR:VOLT:STEP " ++ PyFloat.format_E step;
        ":SOUR:VOLT:MODE SWE"; ":SOUR:SWE:RANG AUTO"; ":SOUR:SWE:SPAC LIN";
        ":TRIG:COUN " ++ PyInt.to_str n;
        ":SOUR:DEL " ++ PyFloat.repr delay;
        ":FORM:ELEM VOLT,CURR" ]
  | CurrentLinear start stop step compliance delay nplc =>
      [ "*RST"; ":SENS:FUNC:CONC OFF"; ":SOUR:FUNC CURR";
        ":SENS:FUNC " ++ Measure.quoted "VOLT:DC";
        ":SENS:VOLT:PROT " ++ PyFloat.format_E compliance;
        ":SENS:VOLT:NPLC " ++ PyFloat.repr nplc;
        ":SOUR:CURR:START " ++ PyFloat.format_E start;
        ":SOUR:CURR:STOP " ++ PyFloat.format_E stop;
        ":SOUR:CURR:STEP " ++ PyFloat.format_E step;
        ":SOUR:CURR:MODE SWE"; ":SOUR:SWE:RANG AUTO"; ":SOUR:SWE:SPAC LIN";
        ":TRIG:COUN " ++ PyInt.to_str n;
        ":SOUR:DEL " ++ PyFloat.repr delay;
        ":FORM:ELEM VOLT,CURR" ]
  | VoltageLog start stop pts compliance delay nplc =>
      [ "*RST"; ":SENS:FUNC:CONC OFF"; ":SOUR:FUNC VOLT";
        ":SENS:FUNC " ++ Measure.quoted "CURR:DC";
        ":SENS:CURR:PROT " ++ PyFloat.format_E compliance;
        ":SENS:CURR:NPLC " ++ PyFloat.repr nplc;
        ":SOUR:VOLT:START " ++ PyFloat.format_E start;
        ":SOUR:VOLT:STOP " ++ PyFloat.format_E stop;
        ":SOUR:VOLT:MODE SWE"; ":SOUR:SWE:RANG AUTO"; ":SOUR:SWE:SPAC LOG";
        ":SOUR:SWE:POIN " ++ PyInt.to_str pts;
        ":TRIG:COUN " ++ PyInt.to_str n;
        ":SOUR:DEL " ++ PyFloat.repr delay;
        ":FORM:ELEM VOLT,CURR" ]
  | CurrentLog start stop pts compliance delay nplc =>
      [ "*RST"; ":SENS:FUNC:CONC OFF"; ":SOUR:FUNC CURR";
        ":SENS:FUNC " ++ Measure.quoted "VOLT:DC";
        ":SENS:VOLT:PROT " ++ PyFloat.format_E compliance;
        ":SENS:VOLT:NPLC " ++ PyFloat.repr nplc;
        ":SOUR:CURR:START " ++ PyFloat.format_E start;
        ":SOUR:CURR:STOP " ++ PyFloat.format_E stop;
        ":SOUR:CURR:MODE SWE"; ":SOUR:SWE:RANG AUTO"; ":SOUR:SWE:SPAC LOG";
        ":SOUR:SWE:POIN " ++ PyInt.to_str pts;
        ":TRIG:COUN " ++ PyInt.to_str n;
        ":SOUR:DEL " ++ PyFloat.repr delay;
        ":FORM:ELEM VOLT,CURR" ]
  | VoltageList voltages compliance delay nplc =>
      [ "*RST"; ":SENS:FUNC:CONC OFF"; ":SOUR:FUNC VOLT";
        ":SENS:FUNC " ++ Measure.quoted "CURR:DC";
        ":SENS:CURR:PROT " ++ PyFloat.format_E compliance;
        ":SENS:CURR:NPLC " ++ PyFloat.repr nplc;
        ":SOUR:VOLT:MODE LIST";
        ":SOUR:LIST:VOLT " ++ PyStr.join "," (map PyFloat.format_E voltages);
        ":TRIG:COUN " ++ PyInt.to_str n;
        ":SOUR:DEL " ++ PyFloat.repr delay;
        ":FORM:ELEM VOLT,CURR" ]
  | CurrentList currents compliance delay nplc =>
      [ "*RST"; ":SENS:FUNC:CONC OFF"; ":SOUR:FUNC CURR";
        ":SENS:FUNC " ++ Measure.quoted "VOLT:DC";
        ":SENS:VOLT:PROT " ++ PyFloat.format_E compliance;
        ":SENS:VOLT:NPLC " ++ PyFloat.repr nplc;
        ":SOUR:CURR:MODE LIST";
        ":SOUR:LIST:CURR " ++ PyStr.join "," (map PyFloat.format_E currents);
        ":TRIG:COUN " ++ PyInt.to_str n;
        ":SOUR:DEL " ++ PyFloat.repr delay;
        ":FORM:ELEM VOLT,CURR" ]
  end.

(** Steps 1 to 5 and the output enable of step 6. *)
Definition preamble (r : request) (n : Z) : list string :=
  (setup r n ++ [":OUTP ON"])%list.

(** Write the commands in turn, then go on with [k]. *)
Definition write_all_then {A} (conn : Conn.t) (cmds : list string) (k : M A)
    : M A :=
  fold_right (fun c rest => Conn.write conn c ;;; rest) k cmds.

(** Every write of [cmds], issued in turn from the trace [tr], returns. *)
Fixpoint writes_ok (conn : Conn.t) (cmds : list string) (tr : trace) : Prop :=
  match cmds with
  | [] => True
  | c :: rest =>
      fst (Conn.write conn c tr) = Return tt
      /\ writes_ok conn rest (tr ++ [c])%list
  end.

(** The acquisition of step 6 after the output enable, and step 7. *)
Definition acquire (conn : Conn.t) : M Sweep.dict :=
  raw <- Measure.read conn ;;
  Config.output_off conn ;;;
  ret (Sweep._parse_two_element raw "voltage" "current").

(** An instrument that accepts every write, answers the [k]-th query of a
    command with the [k]-th scripted reply and times out when the script is
    used up, and answers a numeric query with [readings]. *)
Definition scripted (replies : list string)
    (readings : outcome (list PyFloat.float)) : Instrument :=
  {| on_write := fun _ _ => Return tt;
     on_query := fun tr cmd =>
       match nth_error replies (count_occ string_dec tr cmd) with
       | Some r => Return r
       | None => Raise TransportError
       end;
     on_query_ascii_values := fun _ _ => readings |}.

(** The last command of a trace. *)
Definition last_command (tr : trace) : option string :=
  match rev tr with
  | [] => None
  | c :: _ => Some c
  end.

(** [sub] occurs in [l] as a subsequence: its elements in their order,
    other elements in between allowed. *)
Fixpoint subsequence (sub l : list string) : Prop :=
  match sub, l with
  | [], _ => True
  | _ :: _, [] => False
  | a :: sub', b :: l' =>
      (a = b /\ subsequence sub' l') \/ subsequence sub l'
  end.

Fixpoint subsequenceb (sub l : list string) : bool :=
  match sub, l with
  | [], _ => true
  | _ :: _, [] => false
  | a :: sub', b :: l' =>
      if String.eqb a b then subsequenceb sub' l' || subsequenceb sub l'
      else subsequenceb sub l'
  end.

(** The position of the first occurrence of a command. *)
Fixpoint index (c : string) (l : list string) : option nat :=
  match l with
  | [] => None
  | x :: r => if String.eqb x c then Some O else option_map S (index c r)
  end.

(** The six sweeps, each with sample arguments. *)
Definition six_requests : list request :=
  let c := lit 1 (-1) in
  let d := Sweep.default_delay in
  let p := Sweep.default_nplc in
  [ VoltageLinear (lit 0 0) (lit 1 0) (lit 5 (-1)) c d p;
    CurrentLinear (lit 1 (-3)) (lit 1 (-2)) (lit 1 (-3)) c d p;
    VoltageLog (lit 1 (-1)) (lit 10 0) 3 c d p;
    CurrentLog (lit 1 (-3)) (lit 1 (-1)) 3 c d p;
    VoltageList [lit 7 0; lit 1 0; lit 3 0] c d p;
    CurrentList [lit 1 (-3); lit 5 (-3)] c d p ].

(** An instrument whose numeric read times out. *)
Definition read_times_out : Instrument := scripted [] (Raise TransportError).

(** [k] is the value of the finite float [x] with its fraction dropped. *)
Definition truncation_of (x : PyFloat.float) (k : Z) : Prop :=
  match x with
  | S754_zero _ => k = 0
  | S754_finite s m e =>
      let '(num, den) := PyFloat.fraction m e in
      exists a, k = PyFloat.cond_opp s a
                /\ 0 <= a /\ a * den <= num < (a + 1) * den
  | _ => False
  end.

(** [k] is an integer nearest to the finite float [x], the even one of the
    two when [x] lies half way between them. *)
Definition nearest_integer_to (x : PyFloat.float) (k : Z) : Prop :=
  match x with
  | S754_zero _ => k = 0
  | S754_finite s m e =>
      let '(num, den) := PyFloat.fraction m e in
      exists a, k = PyFloat.cond_opp s a
                /\ 2 * Z.abs (a * den - num) <= den
                /\ (2 * Z.abs (a * den - num) = den -> Z.even a = true)
  | _ => False
  end.

(** The setters of a source or measure level, range or compliance, each
    with the header of its command. *)
Definition e_setters
    : list ((Conn.t -> PyFloat.float -> M unit) * string) :=
  [ (Source.set_voltage, ":SOUR:VOLT:LEV ");
    (Source.set_voltage_range, ":SOUR:VOLT:RANG ");
    (Source.set_current, ":SOUR:CURR:LEV ");
    (Source.set_current_range, ":SOUR:CURR:RANG ");
    (Source.set_voltage_protection, ":SOUR:VOLT:PROT ");
    (Measure.set_voltage_compliance, ":SENS:VOLT:PROT ");
    (Measure.set_current_compliance, ":SENS:CURR:PROT ");
    (Measure.set_voltage_range, ":SENS:VOLT:RANG ");
    (Measure.set_current_range, ":SENS:CURR:RANG ");
    (Measure.set_resistance_range, ":SENS:RES:RANG ") ].

(** ** Devices for the further properties *)


(** The two channels put back in reply order. *)
Fixpoint interleave (a b : list PyFloat.float) : list PyFloat.float :=
  match a, b with
  | x :: a', y :: b' => x :: y :: interleave a' b'
  | _, [] => a
  | [], _ => b
  end.

(** The first character of [s], if any, is not one that [drop] removes;
    likewise for the last one. *)
Definition head_kept (drop : ascii -> bool) (s : string) : bool :=
  match s with
  | EmptyString => true
  | String c _ => negb (drop c)
  end.

Fixpoint last_kept (drop : ascii -> bool) (s : string) : bool :=
  match s with
  | EmptyString => true
  | String c EmptyString => negb (drop c)
  | String _ r => last_kept drop r
  end.

Definition is_dquote (c : ascii) : bool :=
  existsb (Ascii.eqb c) [PyStr.dquote].

(** [s] without the prefix [p], when it starts with it. *)
Fixpoint strip_prefix (p s : string) : option string :=
  match p with
  | EmptyString => Some s
  | String a p' =>
      match s with
      | String b s' => if Ascii.eqb a b then strip_prefix p' s' else None
      | EmptyString => None
      end
  end.

(** A query without its question mark. *)
Fixpoint header_of (cmd : string) : option string :=
  match cmd with
  | EmptyString => None
  | String c EmptyString =>
      if Ascii.eqb c "?" then Some EmptyString else None
  | String c r => option_map (String c) (header_of r)
  end.

(** The argument of the latest command of the trace that is [h], a blank
    and an argument. *)
Fixpoint latest_setting (h : string) (tr : trace) : option string :=
  match tr with
  | [] => None
  | c :: rest =>
      match latest_setting h rest with
      | Some a => Some a
      | None => strip_prefix (h ++ " ") c
      end
  end.

(** An instrument that echoes: it accepts every write and answers the
    query [h?] with the argument last written with the header [h], word
    for word; a query for something never written times out, and so does a
    numeric query. *)
Definition echo : Instrument :=
  {| on_write := fun _ _ => Return tt;
     on_query := fun tr cmd =>
       match header_of cmd with
       | Some h =>
           match latest_setting h tr with
           | Some a => Return a
           | None => Raise TransportError
           end
       | None => Raise TransportError
       end;
     on_query_ascii_values := fun _ _ => Raise TransportError |}.

(** The getters that return the reply as it is. *)
Definition string_getters : list (Conn.t -> M string) :=
  [ Conn.identify; Config.get_output_off_mode; Config.get_terminals;
    Config.get_auto_zero; Config.get_guard; Config.get_data_elements;
    Source.get_function; Source.get_voltage_mode; Source.get_current_mode;
    Measure.get_function; Trigger.get_trigger_source;
    Trigger.get_arm_source; DataBuffer.get_free; DataBuffer.get_control;
    DataBuffer.get_timestamp_format ].

(** The setters of a token, each with its getter. *)
Definition token_pairs
    : list ((Conn.t -> string -> M unit) * (Conn.t -> M string)) :=
  [ (Config.set_output_off_mode, Config.get_output_off_mode);
    (Config.set_terminals, Config.get_terminals);
    (Config.set_auto_zero, Config.get_auto_zero);
    (Config.set_guard, Config.get_guard);
    (Source.set_function, Source.get_function);
    (Source.set_voltage_mode, Source.get_voltage_mode);
    (Source.set_current_mode, Source.get_current_mode);
    (Trigger.set_trigger_source, Trigger.get_trigger_source);
    (Trigger.set_arm_source, Trigger.get_arm_source);
    (DataBuffer.set_control, DataBuffer.get_control);
    (DataBuffer.set_timestamp_format, DataBuffer.get_timestamp_format) ].

(** The setters of a flag, each with its getter. *)
Definition flag_pairs
    : list ((Conn.t -> bool -> M unit) * (Conn.t -> M bool)) :=
  [ (Config.set_four_wire, Config.is_four_wire);
    (Config.set_beeper, Config.is_beeper_on);
    (Source.set_auto_delay, Source.is_auto_delay);
    (Measure.set_concurrent, Measure.is_concurrent) ].

(** The getters of a flag. *)
Definition flag_getters : list ((Conn.t -> M bool) * string) :=
  [ (Config.is_output_on, ":OUTP?");
    (Config.is_four_wire, ":SYST:RSEN?");
    (Config.is_beeper_on, ":SYST:BEEP:STAT?");
    (Source.is_auto_delay, ":SOUR:DEL:AUTO?");
    (Source.is_voltage_protection_tripped, ":SOUR:VOLT:PROT:TRIP?");
    (Measure.is_concurrent, ":SENS:FUNC:CONC?");
    (Measure.is_voltage_compliance_tripped, ":SENS:VOLT:PROT:TRIP?");
    (Measure.is_current_compliance_tripped, ":SENS:CURR:PROT:TRIP?");
    (Conn.operation_complete, "*OPC?") ].

(** The setters of a count, each with its getter. *)
Definition count_pairs
    : list ((Conn.t -> Z -> M unit) * (Conn.t -> M Z)) :=
  [ (Trigger.set_trigger_count, Trigger.get_trigger_count);
    (Trigger.set_arm_count, Trigger.get_arm_count);
    (DataBuffer.set_size, DataBuffer.get_size) ].

(** The setters that send an E rendering, each with its getter. *)
Definition level_pairs
    : list ((Conn.t -> PyFloat.float -> M unit)
            * (Conn.t -> M PyFloat.float)) :=
  [ (Source.set_voltage, Source.get_voltage);
    (Source.set_voltage_range, Source.get_voltage_range);
    (Source.set_current, Source.get_current);
    (Source.set_current_range, Source.get_current_range);
    (Source.set_voltage_protection, Source.get_voltage_protection);
    (Measure.set_voltage_compliance, Measure.get_voltage_compliance);
    (Measure.set_current_compliance, Measure.get_current_compliance);
    (Measure.set_voltage_range, Measure.get_voltage_range);
    (Measure.set_current_range, Measure.get_current_range) ].

(** What [float] makes of the E rendering of [x]: the float nearest to the
    seven digits sent. *)
Definition readback (x : PyFloat.float) : PyFloat.float :=
  match x with
  | S754_finite s m e =>
      let '(n, d) := PyFloat.fraction m e in
      let '(mant, e10) := PyFloat.round_sig 7 n d in
      PyFloat.of_decimal s mant (e10 - 6)
  | _ => x
  end.

(** The value of a digit string read after [acc]. *)
Fixpoint value_from (acc : Z) (ds : string) : Z :=
  match ds with
  | EmptyString => acc
  | String c r => value_from (10 * acc + PyStr.digit_val c) r
  end.

(** The counts from [lo] up, [len] of them. *)
Definition counts (lo : Z) (len : nat) : list Z :=
  map (fun i => lo + Z.of_nat i) (seq 0 len).

(** A count written and echoed is decoded to itself. *)
Definition count_reads_back (n : Z) : bool :=
  match obind (PyFloat.of_str (PyStr.strip (PyInt.to_str n))) (fun v =>
          Return (PyFloat.gt v (lit 2500 0), PyFloat.to_int v)) with
  | Return (false, Return k) => k =? n
  | _ => false
  end.

(** The computation [k], started after [tr], sends the commands [K] in
    their order and stops at the first one that raises: what it sent is a
    prefix of [K], all of [K] when it returns, and when it raises [e] the
    last command sent is one on which the connection raised [e]. *)
Definition fail_stop {A} (conn : Conn.t) (k : M A) (K : list string)
    (tr : trace) : Prop :=
  exists sent rest,
    K = (sent ++ rest)%list
    /\ snd (k tr) = (tr ++ sent)%list
    /\ (forall a, fst (k tr) = Return a -> rest = [])
    /\ (forall e, fst (k tr) = Raise e ->
          exists pre c,
            sent = (pre ++ [c])%list
            /\ (fst (Conn.write conn c (tr ++ pre)%list) = Raise e
                \/ fst (Conn.query_ascii_values conn c (tr ++ pre)%list)
                   = Raise e)).

(** Read, turn the output off and hand the reading to [f]. *)
Definition acquire_with {A} (f : list PyFloat.float -> A) (conn : Conn.t)
    : M A :=
  raw <- Measure.read conn ;;
  Config.output_off conn ;;;
  ret (f raw).



(** The characters of an E rendering: digits, point, signs, the exponent
    letter and the letters of INF and NAN. *)
Definition e_char (c : ascii) : bool :=
  PyStr.is_digit c
  || existsb (Ascii.eqb c) ["."; "E"; "+"; "-"; "I"; "N"; "F"; "A"]%char.

Fixpoint e_text (s : string) : bool :=
  match s with
  | EmptyString => true
  | String c r => e_char c && e_text r
  end.

(** * Properties *)

(** ** The monad and the trace *)

Lemma logs_connection (inst : Instrument) : Conn.logs (Connection.make inst).
Proof. constructor; intros; reflexivity. Qed.

Lemma logs_mock (responses : list (string * string)) :
  Conn.logs (MockConnection.make responses).
Proof. constructor; intros; reflexivity. Qed.

Lemma write_all_then_ok {A} (conn : Conn.t) (k : M A) :
  Conn.logs conn ->
  forall cmds tr,
    writes_ok conn cmds tr ->
    write_all_then conn cmds k tr = k (tr ++ cmds)%list.
Proof.
  intros L cmds; induction cmds as [|c rest IH]; intros tr H; simpl.
  - now rewrite app_nil_r.
  - destruct H as [Hc Hrest]. unfold bind.
    pose proof (Conn.write_logs _ L c tr) as Hs.
    destruct (Conn.write conn c tr) as [o tr'] eqn:E. simpl in Hc, Hs. subst.
    rewrite (IH _ Hrest). now rewrite <- app_assoc.
Qed.

(** Each sweep: the point count, then the preamble, then the acquisition. *)
Lemma run_unfold (conn : Conn.t) (r : request) :
  run conn r =
  (n <- lift (points r) ;; write_all_then conn (preamble r n) (acquire conn)).
Proof. destruct r; reflexivity. Qed.

Lemma subsequence_same (a : string) (sub l : list string) :
  subsequence sub l -> subsequence (a :: sub) (a :: l).
Proof. intro H. left. now split. Qed.

Lemma subsequence_skip (b : string) (sub l : list string) :
  subsequence sub l -> subsequence sub (b :: l).
Proof. intro H. destruct sub; [exact I | now right]. Qed.

Lemma subsequenceb_sound : forall sub l,
  subsequenceb sub l = true -> subsequence sub l.
Proof.
  intros sub l; revert sub; induction l as [|b l IH]; intros [|a sub] H;
    simpl in *; auto; try discriminate.
  destruct (String.eqb a b) eqn:E.
  - apply String.eqb_eq in E. apply orb_true_iff in H as [H|H]; auto.
  - auto.
Qed.

Lemma run_after_preamble (conn : Conn.t) (r : request) (n : Z) (tr : trace) :
  Conn.logs conn ->
  points r = Return n ->
  writes_ok conn (preamble r n) tr ->
  run conn r tr = acquire conn (tr ++ preamble r n)%list.
Proof.
  intros L Hn Hw. rewrite run_unfold. unfold bind at 1, lift. rewrite Hn.
  now apply write_all_then_ok.
Qed.

(** The acquisition stops at a failing read: nothing is sent after it. *)
Lemma acquire_read_raises (conn : Conn.t) (tr : trace) (e : exn) :
  Conn.logs conn ->
  fst (Measure.read conn tr) = Raise e ->
  acquire conn tr = (Raise e, (tr ++ [":READ?"])%list).
Proof.
  intros L H. unfold acquire, bind.
  pose proof (Conn.ascii_logs _ L ":READ?" tr) as Hs.
  unfold Measure.read in *.
  destruct (Conn.query_ascii_values conn ":READ?" tr) as [o tr'].
  simpl in *. now subst.
Qed.

Lemma acquire_read_returns (conn : Conn.t) (tr : trace)
    (raw : list PyFloat.float) :
  Conn.logs conn ->
  fst (Measure.read conn tr) = Return raw ->
  acquire conn tr =
  (match fst (Config.output_off conn (tr ++ [":READ?"])%list) with
   | Return _ => Return (Sweep._parse_two_element raw "voltage" "current")
   | Raise e => Raise e
   end, (tr ++ [":READ?"; ":OUTP OFF"])%list).
Proof.
  intros L H. unfold acquire, bind.
  pose proof (Conn.ascii_logs _ L ":READ?" tr) as Hs.
  unfold Measure.read in *.
  destruct (Conn.query_ascii_values conn ":READ?" tr) as [o tr'].
  simpl in *. subst.
  pose proof (Conn.write_logs _ L ":OUTP OFF" (tr ++ [":READ?"])%list) as Hw.
  unfold Config.output_off.
  destruct (Conn.write conn ":OUTP OFF" (tr ++ [":READ?"])%list) as [o tr'].
  simpl in *. subst. rewrite <- app_assoc. simpl.
  destruct o; reflexivity.
Qed.

(** ** The demultiplexer *)

Lemma every_two_cons (x : PyFloat.float) (l : list PyFloat.float) :
  Sweep.every 2 0 (x :: l) = x :: Sweep.every 2 1 l
  /\ Sweep.every 2 1 (x :: l) = Sweep.every 2 0 l.
Proof. split; reflexivity. Qed.

Lemma pair_induction (P : list PyFloat.float -> Prop) :
  P [] -> (forall x, P [x]) ->
  (forall x y l, P l -> P (x :: y :: l)) ->
  forall l, P l.
Proof.
  intros H0 H1 H2.
  assert (forall l, P l /\ forall x, P (x :: l)) as H.
  { induction l as [|y l [IHa IHb]]; split; auto. }
  intro l. apply H.
Qed.

Lemma map_seq_succ {A} (f : nat -> A) (n : nat) :
  map f (seq 0 (S n)) = f O :: map (fun i => f (S i)) (seq 0 n).
Proof. simpl. f_equal. rewrite <- seq_shift. now rewrite map_map. Qed.

Lemma every_two_even (d : PyFloat.float) : forall l,
  Sweep.every 2 0 l
  = map (fun i => nth (2 * i) l d) (seq 0 ((List.length l + 1) / 2)).
Proof.
  induction l as [| x | x y l IH] using pair_induction; try reflexivity.
  change (Sweep.every 2 0 (x :: y :: l)) with (x :: Sweep.every 2 0 l).
  replace ((List.length (x :: y :: l) + 1) / 2)%nat
    with (S ((List.length l + 1) / 2)).
  - rewrite map_seq_succ. simpl nth at 1. f_equal. rewrite IH.
    apply map_ext. intro i.
    replace (2 * S i)%nat with (S (S (2 * i))) by lia. reflexivity.
  - simpl List.length.
    replace (S (S (List.length l)) + 1)%nat
      with ((List.length l + 1) + 1 * 2)%nat by lia.
    rewrite Nat.div_add by lia. lia.
Qed.

Lemma every_two_odd (d : PyFloat.float) : forall l,
  Sweep.every 2 1 l
  = map (fun i => nth (2 * i + 1) l d) (seq 0 (List.length l / 2)).
Proof.
  induction l as [| x | x y l IH] using pair_induction; try reflexivity.
  change (Sweep.every 2 1 (x :: y :: l)) with (y :: Sweep.every 2 1 l).
  replace (List.length (x :: y :: l) / 2)%nat
    with (S (List.length l / 2)).
  - rewrite map_seq_succ. simpl nth at 1. f_equal. rewrite IH.
    apply map_ext. intro i.
    replace (2 * S i + 1)%nat with (S (S (2 * i + 1))) by lia. reflexivity.
  - simpl List.length.
    replace (S (S (List.length l))) with (List.length l + 1 * 2)%nat by lia.
    rewrite Nat.div_add by lia. lia.
Qed.

Lemma every_two_lengths (l : list PyFloat.float) :
  List.length (Sweep.every 2 0 l) = ((List.length l + 1) / 2)%nat
  /\ List.length (Sweep.every 2 1 l) = (List.length l / 2)%nat.
Proof.
  rewrite (every_two_even S754_nan), (every_two_odd S754_nan).
  now rewrite !length_map, !length_seq.
Qed.

Lemma parse_two_element_distinct (raw : list PyFloat.float) (ka kb : string) :
  ka <> kb ->
  Sweep._parse_two_element raw ka kb
  = [(ka, Sweep.every 2 0 raw); (kb, Sweep.every 2 1 raw)].
Proof.
  intro H. unfold Sweep._parse_two_element, Sweep.slice_from_step. simpl.
  apply String.eqb_neq in H. now rewrite H.
Qed.



(** ** The sweeps *)




(** C1, as the code has it.  No sweep guards its read: when the transport
    accepts the commands up to the output enable, a read that raises ends
    the sweep at once, with that error and with [:READ?] as the last
    command sent, the output still enabled; [:OUTP OFF] follows [:READ?]
    when the read returns. *)
Theorem sweep_output_off_only_after_read_returns
    (conn : Conn.t) (r : request) (n : Z) (tr : trace) :
  Conn.logs conn ->
  points r = Return n ->
  writes_ok conn (preamble r n) tr ->
  (forall e,
      fst (Measure.read conn (tr ++ preamble r n)%list) = Raise e ->
      run conn r tr
      = (Raise e, (tr ++ setup r n ++ [":OUTP ON"; ":READ?"])%list))
  /\ (forall raw,
      fst (Measure.read conn (tr ++ preamble r n)%list) = Return raw ->
      snd (run conn r tr)
      = (tr ++ setup r n ++ [":OUTP ON"; ":READ?"; ":OUTP OFF"])%list).
Proof.
  intros L Hn Hw.
  rewrite (run_after_preamble _ _ _ _ L Hn Hw). unfold preamble. split.
  - intros e He. rewrite (acquire_read_raises _ _ _ L He).
    now rewrite <- !app_assoc.
  - intros raw Hr. rewrite (acquire_read_returns _ _ _ L Hr). simpl.
    now rewrite <- !app_assoc.
Qed.

(** On a transport whose read times out the sweep stops at [:READ?]; on
    the mock, whose read returns, [:OUTP OFF] follows. *)
Lemma sweep_output_off_only_after_read_returns_witness :
  let r := VoltageLinear (lit 0 0) (lit 1 0) (lit 5 (-1))
                         (lit 1 (-1)) (lit 1 (-1)) (lit 1 0) in
  run (Connection.make read_times_out) r []
  = (Raise TransportError, (setup r 3 ++ [":OUTP ON"; ":READ?"])%list)
  /\ snd (run (MockConnection.make [(":READ?", "0.0,1e-6")]) r [])
     = (setup r 3 ++ [":OUTP ON"; ":READ?"; ":OUTP OFF"])%list.
Proof.
  intro r. split.
  - apply (proj1 (sweep_output_off_only_after_read_returns
                    (Connection.make read_times_out) r 3 []
                    (logs_connection _) eq_refl
                    ltac:(simpl; repeat split))
                 TransportError eq_refl).
  - apply (proj2 (sweep_output_off_only_after_read_returns
                    (MockConnection.make [(":READ?", "0.0,1e-6")]) r 3 []
                    (logs_mock _) eq_refl
                    ltac:(simpl; repeat split))
                 [lit 0 0; lit 1 (-6)] eq_refl).
Defined.

(** C1 fails as stated: on a transport whose read raises, each of the six
    sweeps re-raises the error with [:READ?] as the last command sent and
    without any [:OUTP OFF] in the trace. *)
Lemma read_failure_leaves_output_enabled :
  Forall (fun r =>
            let res := run (Connection.make read_times_out) r [] in
            fst res = Raise TransportError
            /\ last_command (snd res) = Some ":READ?"
            /\ existsb (String.eqb ":OUTP ON") (snd res) = true
            /\ existsb (String.eqb ":OUTP OFF") (snd res) = false)
         six_requests.
Proof. repeat constructor; vm_compute; reflexivity. Qed.

(** C2.  A linear voltage sweep from 0 to 1.0 in steps of 0.5, over a
    transport that accepts the commands and answers [:READ?] with
    [0.0, 1e-6, 0.5, 2e-6, 1.0, 3e-6], returns voltage [0.0, 0.5, 1.0] and
    current [1e-6, 2e-6, 3e-6]; the commands it sends are the eighteen
    listed, which hold in this order [*RST], the source function, the
    sense function, the compliance, the NPLC, START, STOP, STEP, MODE,
    RANG, SPAC, [:TRIG:COUN 3], [:OUTP ON], [:READ?] and [:OUTP OFF], the
    last one right after [:READ?]. *)
Theorem voltage_sweep_linear_end_to_end
    (conn : Conn.t) (compliance delay nplc : PyFloat.float) (tr : trace) :
  let r := VoltageLinear (lit 0 0) (lit 1 0) (lit 5 (-1))
                         compliance delay nplc in
  let sent :=
    [ "*RST"; ":SENS:FUNC:CONC OFF"; ":SOUR:FUNC VOLT";
      ":SENS:FUNC " ++ Measure.quoted "CURR:DC";
      ":SENS:CURR:PROT " ++ PyFloat.format_E compliance;
      ":SENS:CURR:NPLC " ++ PyFloat.repr nplc;
      ":SOUR:VOLT:START 0.000000E+00";
      ":SOUR:VOLT:STOP 1.000000E+00";
      ":SOUR:VOLT:STEP 5.000000E-01";
      ":SOUR:VOLT:MODE SWE"; ":SOUR:SWE:RANG AUTO"; ":SOUR:SWE:SPAC LIN";
      ":TRIG:COUN 3";
      ":SOUR:DEL " ++ PyFloat.repr delay;
      ":FORM:ELEM VOLT,CURR";
      ":OUTP ON"; ":READ?"; ":OUTP OFF" ] in
  Conn.logs conn ->
  writes_ok conn (firstn 16 sent) tr ->
  fst (Measure.read conn (tr ++ firstn 16 sent)%list)
    = Return [lit 0 0; lit 1 (-6); lit 5 (-1); lit 2 (-6);
              lit 1 0; lit 3 (-6)] ->
  fst (Config.output_off conn (tr ++ firstn 17 sent)%list) = Return tt ->
  run conn r tr
  = (Return [ ("voltage", [lit 0 0; lit 5 (-1); lit 1 0]);
              ("current", [lit 1 (-6); lit 2 (-6); lit 3 (-6)]) ],
     (tr ++ sent)%list)
  /\ subsequence
       [ "*RST"; ":SOUR:FUNC VOLT";
         ":SENS:FUNC " ++ Measure.quoted "CURR:DC";
         ":SENS:CURR:PROT " ++ PyFloat.format_E compliance;
         ":SENS:CURR:NPLC " ++ PyFloat.repr nplc;
         ":SOUR:VOLT:START 0.000000E+00";
         ":SOUR:VOLT:STOP 1.000000E+00";
         ":SOUR:VOLT:STEP 5.000000E-01";
         ":SOUR:VOLT:MODE SWE"; ":SOUR:SWE:RANG AUTO"; ":SOUR:SWE:SPAC LIN";
         ":TRIG:COUN 3"; ":OUTP ON"; ":READ?"; ":OUTP OFF" ] sent
  /\ index ":READ?" sent = Some 16%nat
  /\ index ":OUTP OFF" sent = Some 17%nat.
Proof.
  intros r sent L Hw Hr Ho.
  assert (Hp : points r = Return 3) by reflexivity.
  assert (Hs : sent = (preamble r 3 ++ [":READ?"; ":OUTP OFF"])%list)
    by reflexivity.
  assert (H16 : firstn 16 sent = preamble r 3) by reflexivity.
  assert (H17 : firstn 17 sent = (preamble r 3 ++ [":READ?"])%list)
    by reflexivity.
  rewrite H16 in Hw, Hr. rewrite H17, app_assoc in Ho.
  split; [|split; [|split]].
  - rewrite (run_after_preamble _ _ _ _ L Hp Hw).
    rewrite (acquire_read_returns _ _ _ L Hr), Ho, Hs.
    now rewrite <- app_assoc.
  - subst sent.
    apply subsequence_same, subsequence_skip.
    do 11 apply subsequence_same. do 2 apply subsequence_skip.
    do 3 apply subsequence_same. exact I.
  - reflexivity.
  - reflexivity.
Qed.

(** The sweep of the test suite: compliance 0.1, delay 0.05, NPLC 1.0, on
    the mock transport loaded with the reply text
    [0.0,1e-6,0.5,2e-6,1.0,3e-6]. *)
Lemma voltage_sweep_linear_end_to_end_witness :
  let conn :=
    MockConnection.make [(":READ?", "0.0,1e-6,0.5,2e-6,1.0,3e-6")] in
  let r := VoltageLinear (lit 0 0) (lit 1 0) (lit 5 (-1))
                         (lit 1 (-1)) (lit 5 (-2)) (lit 1 0) in
  fst (run conn r [])
  = Return [ ("voltage", [lit 0 0; lit 5 (-1); lit 1 0]);
             ("current", [lit 1 (-6); lit 2 (-6); lit 3 (-6)]) ]
  /\ subsequenceb
       [ "*RST"; ":SENS:FUNC:CONC OFF"; ":SOUR:FUNC VOLT";
         ":SENS:CURR:PROT 1.000000E-01"; ":SENS:CURR:NPLC 1.0";
         ":SOUR:VOLT:START 0.000000E+00"; ":SOUR:VOLT:STOP 1.000000E+00";
         ":SOUR:VOLT:STEP 5.000000E-01"; ":SOUR:VOLT:MODE SWE";
         ":SOUR:SWE:RANG AUTO"; ":SOUR:SWE:SPAC LIN"; ":TRIG:COUN 3";
         ":SOUR:DEL 0.05"; ":FORM:ELEM VOLT,CURR";
         ":OUTP ON"; ":READ?"; ":OUTP OFF" ]
       (snd (run conn r [])) = true.
Proof.
  intros conn r.
  destruct (voltage_sweep_linear_end_to_end
              conn (lit 1 (-1)) (lit 5 (-2)) (lit 1 0) [])
    as [Hrun _].
  - apply logs_mock.
  - simpl. repeat split.
  - reflexivity.
  - reflexivity.
  - fold r in Hrun. rewrite Hrun. split; reflexivity.
Defined.

(** ** The error queue *)

Lemma split1_spec (sep : ascii) : forall s,
  (PyStr.contains sep s = false /\ PyStr.split1 sep s = [s])
  \/ (exists a b, s = a ++ String sep b
                  /\ PyStr.contains sep a = false
                  /\ PyStr.split1 sep s = [a; b]).
Proof.
  unfold PyStr.contains.
  induction s as [|c s IH]; simpl.
  - now left.
  - rewrite (Ascii.eqb_sym sep c).
    destruct (Ascii.eqb c sep) eqn:E.
    + apply Ascii.eqb_eq in E. subst c. right.
      exists EmptyString, s. repeat split.
    + simpl. destruct IH as [[Hn Hs] | (a & b & Hab & Hn & Hs)].
      * left. rewrite Hs. now split.
      * right. exists (String c a), b. rewrite Hs. simpl.
        rewrite (Ascii.eqb_sym sep c), E. simpl. subst s. now repeat split.
Qed.

Lemma split1_at_first (sep : ascii) (a b : string) :
  PyStr.contains sep a = false ->
  PyStr.split1 sep (a ++ String sep b) = [a; b].
Proof.
  unfold PyStr.contains.
  induction a as [|c a IH]; simpl; intro H.
  - now rewrite Ascii.eqb_refl.
  - apply orb_false_iff in H as [Hc Ha].
    rewrite (Ascii.eqb_sym c sep), Hc. now rewrite (IH Ha).
Qed.

Lemma of_str_raises_value_error (s : string) (e : exn) :
  PyInt.of_str s = Raise e -> e = ValueError.
Proof.
  unfold PyInt.of_str.
  destruct (PyStr.strip_with PyStr.is_numeric_space s) as [|c r];
    [|destruct (Ascii.eqb c "-") eqn:E1; [|destruct (Ascii.eqb c "+") eqn:E2]].
  - simpl. congruence.
  - apply Ascii.eqb_eq in E1; subst c.
    destruct (PyInt.digit_run r); congruence.
  - apply Ascii.eqb_eq in E2; subst c.
    destruct (PyInt.digit_run r); congruence.
  - assert (H : (let '(neg, body) :=
                   match String c r with
                   | String "-" r0 => (true, r0)
                   | String "+" r0 => (false, r0)
                   | _ => (false, String c r)
                   end in
                 match PyInt.digit_run body with
                 | Some n => Return (if neg then - n else n)
                 | None => Raise ValueError
                 end)
                = match PyInt.digit_run (String c r) with
                  | Some n => Return n
                  | None => Raise ValueError
                  end).
    { destruct c as [[] [] [] [] [] [] [] []]; try reflexivity;
        discriminate. }
    rewrite H. destruct (PyInt.digit_run (String c r)); congruence.
Qed.

(** What [read_error] makes of a stripped reply. *)
Lemma read_error_decodes (conn : Conn.t) (tr : trace) (resp : string) :
  fst (Conn.query conn ":SYST:ERR?" tr) = Return resp ->
  fst (Status.read_error conn tr)
  = obind (Status.unpack2 (PyStr.split1 "," resp)) (fun p =>
    obind (PyInt.of_str (fst p)) (fun code =>
    Return (code, PyStr.strip_chars [PyStr.dquote] (PyStr.strip (snd p))))).
Proof.
  intro H. unfold Status.read_error, bind, lift, ret.
  destruct (Conn.query conn ":SYST:ERR?" tr) as [o tr']. simpl in H. subst o.
  destruct (Status.unpack2 (PyStr.split1 "," resp)) as [[a b]|e]; simpl;
    [|reflexivity].
  destruct (PyInt.of_str a); reflexivity.
Qed.

Lemma read_error_trace (conn : Conn.t) (tr : trace) :
  Conn.logs conn ->
  snd (Status.read_error conn tr) = (tr ++ [":SYST:ERR?"])%list.
Proof.
  intro L. pose proof (Conn.query_logs _ L ":SYST:ERR?" tr) as H.
  unfold Status.read_error, bind, lift, ret.
  destruct (Conn.query conn ":SYST:ERR?" tr) as [[resp|e] tr']; simpl in *;
    [|assumption].
  destruct (Status.unpack2 (PyStr.split1 "," resp)) as [[a b]|e]; simpl;
    [|assumption].
  destruct (PyInt.of_str a); simpl; assumption.
Qed.

(** C10.  On a [Connection], [read_error] returns [(code, msg)] exactly
    when the stripped reply is some text without a comma that [int] reads
    as [code], a comma, and a rest, [msg] being the rest without its
    surrounding white space and double quotes, further commas kept; a
    reply without a comma, or whose text before the first comma is no
    integer, raises [ValueError]. *)
Theorem read_error_result (inst : Instrument) (tr : trace) (raw : string) :
  on_query inst tr ":SYST:ERR?" = Return raw ->
  let res := fst (Status.read_error (Connection.make inst) tr) in
  (forall code msg,
      res = Return (code, msg) <->
      exists before rest,
        PyStr.strip raw = before ++ "," ++ rest
        /\ PyStr.contains "," before = false
        /\ PyInt.of_str before = Return code
        /\ msg = PyStr.strip_chars [PyStr.dquote] (PyStr.strip rest))
  /\ (PyStr.contains "," (PyStr.strip raw) = false -> res = Raise ValueError)
  /\ (forall before rest e,
        PyStr.strip raw = before ++ "," ++ rest ->
        PyStr.contains "," before = false ->
        PyInt.of_str before = Raise e ->
        res = Raise ValueError).
Proof.
  intros Hq res.
  assert (Hres : res
    = obind (Status.unpack2 (PyStr.split1 "," (PyStr.strip raw))) (fun p =>
      obind (PyInt.of_str (fst p)) (fun code =>
      Return (code,
              PyStr.strip_chars [PyStr.dquote] (PyStr.strip (snd p)))))).
  { apply read_error_decodes. simpl. unfold Connection.query. simpl.
    now rewrite Hq. }
  rewrite Hres. clear Hres res Hq.
  split; [|split].
  - intros code msg. split.
    + intro H.
      destruct (split1_spec "," (PyStr.strip raw))
        as [[_ Hs] | (a & b & Hab & Hn & Hs)]; rewrite Hs in H; simpl in H.
      * discriminate.
      * exists a, b. destruct (PyInt.of_str a) as [c|e]; simpl in H;
          [|discriminate].
        injection H as <- <-. now repeat split.
    + intros (a & b & Hab & Hn & Hc & Hm).
      change ("," ++ b) with (String "," b) in Hab.
      rewrite Hab, (split1_at_first _ _ _ Hn). simpl. rewrite Hc. simpl.
      now subst msg.
  - intro Hn.
    destruct (split1_spec "," (PyStr.strip raw))
      as [[_ Hs] | (a & b & Hab & Ha & Hs)].
    + now rewrite Hs.
    + exfalso. rewrite Hab in Hn. unfold PyStr.contains in *.
      clear - Hn. induction a as [|c a IH]; simpl in *.
      * discriminate.
      * apply orb_false_iff in Hn as [_ Hn]. auto.
  - intros a b e Hab Hn He.
    change ("," ++ b) with (String "," b) in Hab.
    rewrite Hab, (split1_at_first _ _ _ Hn). simpl. rewrite He. simpl.
    now rewrite (of_str_raises_value_error _ _ He).
Qed.

(** A reply with white space around it and a comma inside the message. *)
Lemma read_error_result_witness :
  let raw := "-113, " ++ Measure.quoted "Undefined header, sorry" ++ " " in
  fst (Status.read_error (Connection.make (scripted [raw] (Return []))) [])
  = Return (-113, "Undefined header, sorry").
Proof.
  intro raw.
  pose proof (read_error_result (scripted [raw] (Return [])) [] raw eq_refl)
    as [H _].
  apply H.
  exists "-113", (" " ++ Measure.quoted "Undefined header, sorry").
  repeat split.
Defined.

Lemma first_sentinel (replies : list (Z * string)) :
  existsb (fun e => fst e =? 0) replies = true ->
  exists pre msg rest,
    replies = (pre ++ (0, msg) :: rest)%list
    /\ Forall (fun e => fst e <> 0) pre.
Proof.
  induction replies as [|[c m] l IH]; simpl; [discriminate|].
  destruct (c =? 0) eqn:E; simpl.
  - intros _. apply Z.eqb_eq in E. subst c.
    exists [], m, l. now split.
  - intro H. destruct (IH H) as (pre & msg & rest & Hl & Hf).
    exists ((c, m) :: pre), msg, rest. subst l. split; [reflexivity|].
    constructor; [|assumption]. simpl. now apply Z.eqb_neq.
Qed.

Lemma repeat_snoc (c : string) (n : nat) :
  (repeat c n ++ [c])%list = repeat c (S n).
Proof. induction n; simpl; [reflexivity | now rewrite IHn]. Qed.

(** The loop, started after the replies [seen], collects the non-zero
    entries up to the sentinel. *)
Lemma read_all_errors_loop_drains (conn : Conn.t) (tr : trace)
    (replies : list (Z * string)) (msg : string) (rest : list (Z * string)) :
  Conn.logs conn ->
  (forall i e, nth_error replies i = Some e ->
     fst (Status.read_error conn (tr ++ repeat ":SYST:ERR?" i)%list)
     = Return e) ->
  forall pre seen errors fuel,
    replies = (seen ++ pre ++ (0, msg) :: rest)%list ->
    Forall (fun e => fst e <> 0) pre ->
    (List.length pre < fuel)%nat ->
    Status.read_all_errors_loop conn fuel errors
      (tr ++ repeat ":SYST:ERR?" (List.length seen))%list
    = Some (Return (errors ++ pre)%list,
            (tr ++ repeat ":SYST:ERR?"
                     (S (List.length seen + List.length pre)))%list).
Proof.
  intros L Hq. induction pre as [|[c m] pre IH]; intros seen errors fuel Hr Hf Hl.
  - destruct fuel as [|fuel]; [simpl in Hl; lia|]. simpl.
    pose proof (Hq (List.length seen) (0, msg)) as H0.
    pose proof (read_error_trace conn
                  (tr ++ repeat ":SYST:ERR?" (List.length seen))%list L) as Ht.
    destruct (Status.read_error conn
                (tr ++ repeat ":SYST:ERR?" (List.length seen))%list)
      as [o tr'].
    simpl in H0, Ht. rewrite H0.
    + simpl. subst tr'. rewrite app_nil_r, Nat.add_0_r.
      now rewrite <- app_assoc, repeat_snoc.
    + subst replies. rewrite nth_error_app2 by lia.
      now rewrite Nat.sub_diag.
  - destruct fuel as [|fuel]; [simpl in Hl; lia|]. simpl.
    pose proof (Hq (List.length seen) (c, m)) as H0.
    pose proof (read_error_trace conn
                  (tr ++ repeat ":SYST:ERR?" (List.length seen))%list L) as Ht.
    destruct (Status.read_error conn
                (tr ++ repeat ":SYST:ERR?" (List.length seen))%list)
      as [o tr'].
    simpl in H0, Ht. rewrite H0.
    + inversion Hf as [|? ? Hc Hf']; subst. simpl in Hc.
      apply Z.eqb_neq in Hc. rewrite Hc.
      rewrite <- app_assoc, repeat_snoc.
      specialize (IH (seen ++ [(c, m)])%list (errors ++ [(c, m)])%list fuel).
      rewrite length_app in IH. simpl in IH.
      replace (List.length seen + 1)%nat with (S (List.length seen)) in IH
        by lia.
      rewrite IH.
      * rewrite <- app_assoc. simpl.
        now replace (List.length seen + S (List.length pre))%nat
          with (S (List.length seen + List.length pre)) by lia.
      * now rewrite <- app_assoc.
      * assumption.
      * simpl in Hl. lia.
    + subst replies. rewrite nth_error_app2 by lia.
      now rewrite Nat.sub_diag.
Qed.

(** C6.  When the successive replies to [:SYST:ERR?] decode to the entries
    of a stream that holds a code-0 entry, [read_all_errors], given fuel
    for one query more than there are entries before the first code-0
    entry, returns exactly those entries, in their order and without the
    code-0 entry, having sent one query per entry up to and including the
    code-0 one. *)
Theorem read_all_errors_drains (conn : Conn.t) (tr : trace)
    (replies : list (Z * string)) :
  Conn.logs conn ->
  (forall i e, nth_error replies i = Some e ->
     fst (Status.read_error conn (tr ++ repeat ":SYST:ERR?" i)%list)
     = Return e) ->
  existsb (fun e => fst e =? 0) replies = true ->
  exists pre msg rest,
    replies = (pre ++ (0, msg) :: rest)%list
    /\ Forall (fun e => fst e <> 0) pre
    /\ forall fuel, (List.length pre < fuel)%nat ->
         Status.read_all_errors conn fuel tr
         = Some (Return pre,
                 (tr ++ repeat ":SYST:ERR?" (S (List.length pre)))%list).
Proof.
  intros L Hq Hz.
  destruct (first_sentinel replies Hz) as (pre & msg & rest & Hr & Hf).
  exists pre, msg, rest. split; [assumption|]. split; [assumption|].
  intros fuel Hl. unfold Status.read_all_errors.
  pose proof (read_all_errors_loop_drains conn tr replies msg rest L Hq
                pre [] [] fuel Hr Hf Hl) as H.
  simpl in H. now rewrite app_nil_r in H.
Qed.

(** The queue of the specification: (15, overflow), then (0, No error). *)
Lemma read_all_errors_drains_witness :
  let inst := scripted [ "15," ++ Measure.quoted "overflow";
                         "0," ++ Measure.quoted "No error" ] (Return []) in
  Status.read_all_errors (Connection.make inst) 2 []
  = Some (Return [(15, "overflow")], [":SYST:ERR?"; ":SYST:ERR?"])
  /\ Status.read_all_errors (Connection.make inst) 50 []
     = Some (Return [(15, "overflow")], [":SYST:ERR?"; ":SYST:ERR?"]).
Proof.
  intros inst.
  destruct (read_all_errors_drains (Connection.make inst) []
              [(15, "overflow"); (0, "No error")])
    as (pre & msg & rest & Hr & Hf & Hrun).
  - apply logs_connection.
  - intros [|[|[|i]]] e H; simpl in H; try discriminate;
      injection H as <-; reflexivity.
  - reflexivity.
  - destruct pre as [|p0 [|p1 pre]].
    + discriminate Hr.
    + injection Hr as -> _ _. split; apply Hrun; simpl; lia.
    + exfalso. injection Hr as _ Hp1 _. subst p1.
      inversion Hf as [|? ? _ Hf']. inversion Hf' as [|? ? Hc _].
      now apply Hc.
Defined.

(** ** Floats: comparison, truncation and rounding *)

Lemma SFcompare_antisym (x y : spec_float) :
  SFcompare y x = option_map CompOpp (SFcompare x y).
Proof.
  destruct x as [sx|sx| |sx mx ex], y as [sy|sy| |sy my ey]; simpl;
    try reflexivity;
    try (destruct sx; reflexivity); try (destruct sy; reflexivity);
    try (destruct sx, sy; reflexivity).
  destruct sx, sy; simpl; try reflexivity;
    rewrite (Z.compare_antisym ex ey);
    destruct (ex ?= ey); simpl; try reflexivity;
    rewrite (Pos.compare_cont_antisym mx my Eq); reflexivity.
Qed.

Lemma le_not_gt (x y : PyFloat.float) :
  PyFloat.le x y = true -> PyFloat.gt x y = false.
Proof.
  unfold PyFloat.le, PyFloat.gt, SFleb, SFltb.
  rewrite (SFcompare_antisym x y).
  destruct (SFcompare x y) as [[]|]; simpl; congruence.
Qed.

Lemma fraction_pos (m : positive) (e : Z) :
  0 < fst (PyFloat.fraction m e) /\ 0 < snd (PyFloat.fraction m e).
Proof.
  unfold PyFloat.fraction. destruct (0 <=? e) eqn:E; cbn [fst snd].
  - apply Z.leb_le in E. split; [|lia].
    apply Z.mul_pos_pos; [lia|]. now apply Z.pow_pos_nonneg.
  - apply Z.leb_gt in E. split; [lia|]. apply Z.pow_pos_nonneg; lia.
Qed.

(** [round_half_even n d] is an integer nearest to [n / d], and the even
    one of the two when [n / d] lies half way. *)
Lemma round_half_even_nearest (n d : Z) :
  0 < d ->
  let r := PyFloat.round_half_even n d in
  2 * Z.abs (r * d - n) <= d
  /\ (2 * Z.abs (r * d - n) = d -> Z.even r = true).
Proof.
  intros Hd r. subst r. unfold PyFloat.round_half_even.
  pose proof (Z.div_mod n d ltac:(lia)) as Hdm.
  pose proof (Z.mod_pos_bound n d Hd) as Hb.
  set (q := n / d) in *. set (m := n mod d) in *.
  destruct (2 * m ?= d) eqn:C.
  - apply Z.compare_eq in C.
    destruct (Z.even q) eqn:Ev; split; try nia; intros _.
    + assumption.
    + rewrite Z.even_add, Ev. reflexivity.
  - rewrite Z.compare_lt_iff in C. split; nia.
  - rewrite Z.compare_gt_iff in C. split; nia.
Qed.

(** [int] of a finite float is its value with the fraction dropped. *)
Lemma to_int_truncates (x : PyFloat.float) :
  PyFloat.is_finite x = true ->
  exists k, PyFloat.to_int x = Return k /\ truncation_of x k.
Proof.
  destruct x as [s|s| |s m e]; try discriminate; intros _.
  - now exists 0.
  - unfold PyFloat.to_int, truncation_of.
    destruct (fraction_pos m e) as [Hn Hd].
    destruct (PyFloat.fraction m e) as [num den]. cbn [fst snd] in Hn, Hd.
    exists (PyFloat.cond_opp s (num / den)). split; [reflexivity|].
    exists (num / den). split; [reflexivity|].
    pose proof (Z.div_mod num den ltac:(lia)).
    pose proof (Z.mod_pos_bound num den ltac:(lia)).
    split; [apply Z.div_pos; lia | nia].
Qed.

(** [round] of a finite float is a nearest integer, ties to even. *)
Lemma round_nearest (x : PyFloat.float) :
  PyFloat.is_finite x = true ->
  exists k, PyFloat.round x = Return k /\ nearest_integer_to x k.
Proof.
  destruct x as [s|s| |s m e]; try discriminate; intros _.
  - now exists 0.
  - unfold PyFloat.round, nearest_integer_to.
    destruct (fraction_pos m e) as [Hn Hd].
    destruct (PyFloat.fraction m e) as [num den]. cbn [fst snd] in Hn, Hd.
    exists (PyFloat.cond_opp s (PyFloat.round_half_even num den)).
    split; [reflexivity|].
    exists (PyFloat.round_half_even num den). split; [reflexivity|].
    apply round_half_even_nearest. assumption.
Qed.

(** ** Integer getters *)

Lemma query_then_decode {A} (conn : Conn.t) (cmd : string) (tr : trace)
    (r : string) (f : string -> outcome A) :
  fst (Conn.query conn cmd tr) = Return r ->
  fst ((x <- Conn.query conn cmd ;; lift (f x)) tr) = f r.
Proof.
  intro H. unfold bind, lift.
  destruct (Conn.query conn cmd tr) as [o tr']. simpl in H. now subst o.
Qed.

Lemma get_arm_count_decodes (conn : Conn.t) (tr : trace) (r : string) :
  fst (Conn.query conn ":ARM:COUN?" tr) = Return r ->
  fst (Trigger.get_arm_count conn tr)
  = obind (PyFloat.of_str r) (fun v =>
      if PyFloat.gt v (lit 2500 0) then Return (-1) else PyFloat.to_int v).
Proof.
  intro H. unfold Trigger.get_arm_count, bind, lift, ret.
  destruct (Conn.query conn ":ARM:COUN?" tr) as [o tr']. simpl in H. subst o.
  destruct (PyFloat.of_str r) as [v|e]; [|reflexivity].
  change (lit 2500 0) with Trigger.arm_limit.
  cbn [obind]. destruct (PyFloat.gt v Trigger.arm_limit); reflexivity.
Qed.

(** C8, as the code has it.  The integer getters of the Trigger and
    DataBuffer controllers decode the reply with [float] and then [int], so
    the reply 100.000000 gives 100; the five register getters of the Status
    controller decode it with [int] alone, which rejects that reply. *)
Theorem integer_getters_decoding (conn : Conn.t) (tr : trace) (r : string) :
  (forall cmd, fst (Conn.query conn cmd tr) = Return r) ->
  let via_float := obind (PyFloat.of_str r) PyFloat.to_int in
  (fst (Trigger.get_trigger_count conn tr) = via_float
   /\ fst (DataBuffer.get_size conn tr) = via_float
   /\ fst (DataBuffer.get_count conn tr) = via_float
   /\ fst (Trigger.get_arm_count conn tr)
      = obind (PyFloat.of_str r) (fun v =>
          if PyFloat.gt v (lit 2500 0) then Return (-1)
          else PyFloat.to_int v))
  /\ (fst (Status.read_status_byte conn tr) = PyInt.of_str r
      /\ fst (Status.read_event_register conn tr) = PyInt.of_str r
      /\ fst (Status.read_measurement_event conn tr) = PyInt.of_str r
      /\ fst (Status.read_operation_event conn tr) = PyInt.of_str r
      /\ fst (Status.read_questionable_event conn tr) = PyInt.of_str r)
  /\ (r = "100.000000" ->
      via_float = Return 100 /\ PyInt.of_str r = Raise ValueError).
Proof.
  intros H via_float. subst via_float. split; [|split].
  - split; [|split; [|split]];
      try (apply (query_then_decode conn _ tr r
                    (fun x => obind (PyFloat.of_str x) PyFloat.to_int));
           apply H).
    apply get_arm_count_decodes, H.
  - repeat split; apply (query_then_decode conn _ tr r PyInt.of_str);
      apply H.
  - intros ->. split; reflexivity.
Qed.

(** An instrument that answers 100.000000. *)
Lemma integer_getters_decoding_witness :
  let conn := Connection.make (scripted ["100.000000"] (Return [])) in
  (fst (Trigger.get_trigger_count conn []) = Return 100
   /\ fst (DataBuffer.get_size conn []) = Return 100
   /\ fst (DataBuffer.get_count conn []) = Return 100
   /\ fst (Trigger.get_arm_count conn []) = Return 100)
  /\ fst (Status.read_status_byte conn []) = Raise ValueError.
Proof.
  intro conn.
  destruct (integer_getters_decoding conn [] "100.000000"
              (fun cmd => eq_refl))
    as [(H1 & H2 & H3 & H4) [(H5 & _) _]].
  rewrite H1, H2, H3, H4, H5. repeat split.
Defined.

(** C8 fails as stated: each register getter of the Status controller
    raises [ValueError] on the reply 100.000000. *)
Lemma status_getters_reject_fractional_reply :
  let conn := Connection.make (scripted ["100.000000"] (Return [])) in
  fst (Status.read_status_byte conn []) = Raise ValueError
  /\ fst (Status.read_event_register conn []) = Raise ValueError
  /\ fst (Status.read_measurement_event conn []) = Raise ValueError
  /\ fst (Status.read_operation_event conn []) = Raise ValueError
  /\ fst (Status.read_questionable_event conn []) = Raise ValueError.
Proof. repeat split. Qed.

(** ** The arm count *)

(** C7, for finite values.  The arm-count getter returns -1 for every reply
    that parses to a value above 2500, and for every reply that parses to a
    finite value of at most 2500 it returns that value truncated to an
    integer. *)
Theorem get_arm_count_normalizes (conn : Conn.t) (tr : trace)
    (resp : string) (v : PyFloat.float) :
  fst (Conn.query conn ":ARM:COUN?" tr) = Return resp ->
  PyFloat.of_str resp = Return v ->
  (PyFloat.gt v (lit 2500 0) = true ->
   fst (Trigger.get_arm_count conn tr) = Return (-1))
  /\ (PyFloat.le v (lit 2500 0) = true ->
      PyFloat.is_finite v = true ->
      exists n, truncation_of v n
                /\ fst (Trigger.get_arm_count conn tr) = Return n).
Proof.
  intros Hq Hv. rewrite (get_arm_count_decodes _ _ _ Hq), Hv. simpl. split.
  - now intros ->.
  - intros Hle Hfin. rewrite (le_not_gt _ _ Hle).
    destruct (to_int_truncates v Hfin) as (n & Hn & Ht).
    exists n. now split.
Qed.

(** The replies 9.9E37 and 2500, the latter after writing 2500. *)
Lemma get_arm_count_normalizes_witness :
  fst (Trigger.get_arm_count
         (Connection.make (scripted ["9.9E37"] (Return []))) [])
  = Return (-1)
  /\ (Trigger.set_arm_count (Connection.make (scripted ["2500"] (Return [])))
                            2500 [])
     = (Return tt, [":ARM:COUN 2500"])
  /\ fst (Trigger.get_arm_count
            (Connection.make (scripted ["2500"] (Return [])))
            [":ARM:COUN 2500"])
     = Return 2500.
Proof.
  split; [|split].
  - apply (proj1 (get_arm_count_normalizes
                    (Connection.make (scripted ["9.9E37"] (Return []))) []
                    "9.9E37" (lit 99 36) eq_refl eq_refl)).
    reflexivity.
  - reflexivity.
  - destruct (proj2 (get_arm_count_normalizes
                       (Connection.make (scripted ["2500"] (Return [])))
                       [":ARM:COUN 2500"] "2500" (lit 2500 0)
                       eq_refl eq_refl) eq_refl eq_refl)
      as [n [Hn Hget]].
    rewrite Hget. f_equal.
    assert (Hv : lit 2500 0 = S754_finite false 5497558138880000 (-41))
      by (vm_compute; reflexivity).
    rewrite Hv in Hn. unfold truncation_of, PyFloat.fraction in Hn.
    cbn in Hn. destruct Hn as (a & -> & Ha & Hlo & Hhi). simpl. lia.
Defined.

(** C7 fails as stated: the reply -inf parses to a value that is at most
    2500, and the getter raises instead of returning an integer. *)
Lemma get_arm_count_negative_infinity :
  let conn := Connection.make (scripted ["-inf"] (Return [])) in
  PyFloat.of_str "-inf" = Return PyFloat.neg_inf
  /\ PyFloat.le PyFloat.neg_inf (lit 2500 0) = true
  /\ fst (Trigger.get_arm_count conn []) = Raise OverflowError.
Proof. repeat split. Qed.

(** ** The point count of a linear sweep *)

Lemma acquire_trace (conn : Conn.t) (tr : trace) :
  Conn.logs conn ->
  snd (acquire conn tr) = (tr ++ [":READ?"])%list
  \/ snd (acquire conn tr) = (tr ++ [":READ?"; ":OUTP OFF"])%list.
Proof.
  intro L. destruct (fst (Measure.read conn tr)) as [raw|e] eqn:E.
  - right. now rewrite (acquire_read_returns _ _ _ L E).
  - left. now rewrite (acquire_read_raises _ _ _ L E).
Qed.

Lemma prefix_heads (a b a' b' : ascii) (p s : string) :
  String.prefix (String a (String b p)) (String a' (String b' s)) = true ->
  a = a' /\ b = b'.
Proof.
  simpl. destruct (Ascii.ascii_dec a a') as [->|]; [|discriminate].
  destruct (Ascii.ascii_dec b b') as [->|]; [|discriminate]. now split.
Qed.

Lemma skipn_app_length {A} (l r : list A) :
  skipn (List.length l) (l ++ r) = r.
Proof. induction l; simpl; auto. Qed.

(** The trigger count is the thirteenth command of a linear sweep and the
    only [:TRIG:COUN] command in it. *)
Lemma linear_trigger_count (voltage : bool)
    (start stop step compliance delay nplc : PyFloat.float) (n : Z)
    (tail : list string) :
  let r := if voltage
           then VoltageLinear start stop step compliance delay nplc
           else CurrentLinear start stop step compliance delay nplc in
  tail = [":READ?"] \/ tail = [":READ?"; ":OUTP OFF"] ->
  let sent := (preamble r n ++ tail)%list in
  nth_error sent 12 = Some (":TRIG:COUN " ++ PyInt.to_str n)
  /\ forall c, In c sent -> String.prefix ":TRIG:COUN" c = true ->
               c = ":TRIG:COUN " ++ PyInt.to_str n.
Proof.
  intros r Ht sent. split.
  - subst sent r. destruct voltage; reflexivity.
  - intros c Hin Hp.
    assert (Hall : In c (preamble r n) \/ In c tail)
      by (apply in_app_or; exact Hin).
    destruct Hall as [H|H].
    + subst r. destruct voltage; unfold preamble, setup in H;
        cbn [In app] in H;
        repeat (destruct H as [H|H];
                [ subst c; cbn [append] in Hp |- *;
                  first [ reflexivity
                        | apply prefix_heads in Hp; destruct Hp; discriminate ]
                | ]);
        contradiction.
    + destruct Ht as [-> | ->]; cbn [In] in H;
        repeat (destruct H as [H|H];
                [ subst c; apply prefix_heads in Hp; destruct Hp; discriminate
                | ]);
        contradiction.
Qed.

(** C5, for a finite quotient.  For a linear sweep, voltage or current,
    with a non-zero step whose quotient |stop - start| / |step| is finite,
    the resolved point count is [round] of that quotient, an integer
    nearest to it with ties going to the even one, plus one; and this
    count is what the thirteenth command, the only [:TRIG:COUN] command of
    the sweep, carries. *)
Theorem linear_sweep_point_count (conn : Conn.t) (voltage : bool)
    (start stop step compliance delay nplc : PyFloat.float) (tr : trace) :
  let r := if voltage
           then VoltageLinear start stop step compliance delay nplc
           else CurrentLinear start stop step compliance delay nplc in
  let q := SFdiv PyFloat.prec PyFloat.emax
             (PyFloat.abs (PyFloat.sub stop start)) (PyFloat.abs step) in
  Conn.logs conn ->
  PyFloat.is_zero step = false ->
  PyFloat.is_finite q = true ->
  exists k,
    nearest_integer_to q k
    /\ PyFloat.round q = Return k
    /\ points r = Return (k + 1)
    /\ (writes_ok conn (preamble r (k + 1)) tr ->
        let sent := skipn (List.length tr) (snd (run conn r tr)) in
        nth_error sent 12 = Some (":TRIG:COUN " ++ PyInt.to_str (k + 1))
        /\ forall c, In c sent -> String.prefix ":TRIG:COUN" c = true ->
                     c = ":TRIG:COUN " ++ PyInt.to_str (k + 1)).
Proof.
  intros r q L Hstep Hq.
  destruct (round_nearest q Hq) as (k & Hk & Hnear).
  exists k. split; [exact Hnear|]. split; [exact Hk|].
  assert (Hp : points r = Return (k + 1)).
  { assert (Hl : Sweep.linear_points start stop step = Return (k + 1)).
    { unfold Sweep.linear_points, PyFloat.truediv.
      replace (PyFloat.is_zero (PyFloat.abs step)) with false
        by (destruct step; simpl in *; congruence).
      cbn [obind]. fold q. now rewrite Hk. }
    subst r. destruct voltage; exact Hl. }
  split; [exact Hp|].
  intros Hw sent. subst sent.
  rewrite (run_after_preamble _ _ _ _ L Hp Hw).
  destruct (acquire_trace conn (tr ++ preamble r (k + 1))%list L) as [H|H];
    rewrite H, <- app_assoc, skipn_app_length;
    apply (linear_trigger_count voltage); auto.
Qed.

(** The two sample sweeps: 0 to 1.0 by 0.5 gives 3 points, 0 to 0 by 0.1
    gives 1 point. *)
Lemma linear_sweep_point_count_witness :
  let conn := MockConnection.make [(":READ?", "0.0,1e-6,0.5,2e-6,1.0,3e-6")] in
  let r3 := VoltageLinear (lit 0 0) (lit 1 0) (lit 5 (-1))
                          (lit 1 (-1)) (lit 1 (-1)) (lit 1 0) in
  let r1 := CurrentLinear (lit 0 0) (lit 0 0) (lit 1 (-1))
                          (lit 1 (-1)) (lit 1 (-1)) (lit 1 0) in
  (points r3 = Return 3
   /\ nth_error (snd (run conn r3 [])) 12 = Some ":TRIG:COUN 3")
  /\ (points r1 = Return 1
      /\ nth_error (snd (run conn r1 [])) 12 = Some ":TRIG:COUN 1").
Proof.
  intros conn r3 r1. split.
  - destruct (linear_sweep_point_count conn true (lit 0 0) (lit 1 0)
                (lit 5 (-1)) (lit 1 (-1)) (lit 1 (-1)) (lit 1 0) []
                (logs_mock _) eq_refl eq_refl) as (k & _ & Hk & Hp & Ht).
    vm_compute in Hk. injection Hk as <-. split; [exact Hp|].
    apply Ht. simpl. repeat split.
  - destruct (linear_sweep_point_count conn false (lit 0 0) (lit 0 0)
                (lit 1 (-1)) (lit 1 (-1)) (lit 1 (-1)) (lit 1 0) []
                (logs_mock _) eq_refl eq_refl) as (k & _ & Hk & Hp & Ht).
    vm_compute in Hk. injection Hk as <-. split; [exact Hp|].
    apply Ht. simpl. repeat split.
Defined.

(** A quotient half way between two integers goes to the even one: 0 to
    2.5 by 1.0 gives round(2.5) + 1 = 3 points, 0 to 3.5 by 1.0 gives
    round(3.5) + 1 = 5 points. *)
Example linear_points_ties_to_even :
  Sweep.linear_points (lit 0 0) (lit 25 (-1)) (lit 1 0) = Return 3
  /\ Sweep.linear_points (lit 0 0) (lit 35 (-1)) (lit 1 0) = Return 5.
Proof. split; vm_compute; reflexivity. Qed.

(** C5 fails as stated: with the finite bounds 0 and 1e308 and the
    non-zero step 1e-10 the quotient overflows to infinity, and so it does
    with an infinite stop; the point count is not resolved and the sweep
    raises before it sends a command. *)
Lemma overflowing_quotient_resolves_no_point_count :
  let conn := MockConnection.make [(":READ?", "0.0,1e-6")] in
  let big := VoltageLinear (lit 0 0) (lit 1 308) (lit 1 (-10))
                           (lit 1 (-1)) (lit 1 (-1)) (lit 1 0) in
  let inf := CurrentLinear (lit 0 0) PyFloat.pos_inf (lit 1 0)
                           (lit 1 (-1)) (lit 1 (-1)) (lit 1 0) in
  (PyFloat.is_finite (lit 1 308) = true
   /\ PyFloat.is_zero (lit 1 (-10)) = false
   /\ points big = Raise OverflowError
   /\ run conn big [] = (Raise OverflowError, []))
  /\ (PyFloat.is_zero (lit 1 0) = false
      /\ points inf = Raise OverflowError
      /\ run conn inf [] = (Raise OverflowError, [])).
Proof. repeat split; vm_compute; reflexivity. Qed.

(** ** The E rendering of a float *)

Lemma pow10_pos (z : Z) : 0 < PyFloat.pow10 z.
Proof. unfold PyFloat.pow10. apply Z.pow_pos_nonneg; lia. Qed.

Lemma pow10_of_nonneg (z : Z) : 0 <= z -> PyFloat.pow10 z = 10 ^ z.
Proof. intro H. unfold PyFloat.pow10. now rewrite Z.max_l by lia. Qed.

Lemma pow10_of_nonpos (z : Z) : z <= 0 -> PyFloat.pow10 z = 1.
Proof. intro H. unfold PyFloat.pow10. now rewrite Z.max_r by lia. Qed.

(** [10^(a+b) = 10^a * 10^b], with every negative power moved across. *)
Lemma pow10_add (a b : Z) :
  PyFloat.pow10 (a + b) * PyFloat.pow10 (- a) * PyFloat.pow10 (- b)
  = PyFloat.pow10 a * PyFloat.pow10 b * PyFloat.pow10 (- (a + b)).
Proof.
  unfold PyFloat.pow10.
  destruct (Z.max_spec (a + b) 0) as [[A1 H1]|[A1 H1]];
  destruct (Z.max_spec (- a) 0) as [[A2 H2]|[A2 H2]];
  destruct (Z.max_spec (- b) 0) as [[A3 H3]|[A3 H3]];
  destruct (Z.max_spec a 0) as [[A4 H4]|[A4 H4]];
  destruct (Z.max_spec b 0) as [[A5 H5]|[A5 H5]];
  destruct (Z.max_spec (- (a + b)) 0) as [[A6 H6]|[A6 H6]];
  rewrite H1, H2, H3, H4, H5, H6; try lia;
  rewrite <- !Z.pow_add_r by lia; f_equal; lia.
Qed.

Lemma ndigits_fuel_spec : forall (fuel : nat) (n : Z),
  1 <= n -> n < 2 ^ Z.of_nat fuel ->
  let k := PyFloat.ndigits_fuel fuel n in
  1 <= k /\ 10 ^ (k - 1) <= n < 10 ^ k.
Proof.
  induction fuel as [|f IH]; intros n H1 Hf k; subst k.
  - simpl in Hf. lia.
  - cbn [PyFloat.ndigits_fuel]. destruct (n <? 10) eqn:E.
    + apply Z.ltb_lt in E. simpl. lia.
    + apply Z.ltb_ge in E.
      assert (Hq : 1 <= n / 10) by (apply Z.div_le_lower_bound; lia).
      assert (Hf' : n / 10 < 2 ^ Z.of_nat f).
      { apply Z.div_lt_upper_bound; [lia|].
        rewrite Nat2Z.inj_succ, Z.pow_succ_r in Hf by lia. lia. }
      destruct (IH (n / 10) Hq Hf') as [Hk [Hlo Hhi]].
      set (k := PyFloat.ndigits_fuel f (n / 10)) in *.
      replace (1 + k - 1) with (Z.succ (k - 1)) by lia.
      replace (1 + k) with (Z.succ k) by lia.
      rewrite !Z.pow_succ_r by lia.
      pose proof (Z.div_mod n 10 ltac:(lia)).
      pose proof (Z.mod_pos_bound n 10 ltac:(lia)).
      lia.
Qed.

Lemma ndigits_spec (n : Z) :
  1 <= n ->
  1 <= PyFloat.ndigits n
  /\ 10 ^ (PyFloat.ndigits n - 1) <= n < 10 ^ PyFloat.ndigits n.
Proof.
  intro H. unfold PyFloat.ndigits. apply ndigits_fuel_spec; [assumption|].
  rewrite Nat2Z.inj_succ, Z2Nat.id by apply Z.log2_nonneg.
  apply Z.log2_spec. lia.
Qed.

(** [10^e <= num / den < 10^(e + 1)] for [e = log10_floor num den]. *)
Lemma log10_floor_spec (num den : Z) :
  0 < num -> 0 < den ->
  let e := PyFloat.log10_floor num den in
  den * PyFloat.pow10 e <= num * PyFloat.pow10 (- e)
  /\ num * PyFloat.pow10 (- (e + 1)) < den * PyFloat.pow10 (e + 1).
Proof.
  intros Hn Hd e. subst e. unfold PyFloat.log10_floor, PyFloat.scale10.
  destruct (ndigits_spec num ltac:(lia)) as [Hkn [Hnlo Hnhi]].
  destruct (ndigits_spec den ltac:(lia)) as [Hkd [Hdlo Hdhi]].
  set (dn := PyFloat.ndigits num) in *. set (dd := PyFloat.ndigits den) in *.
  set (c := dn - dd).
  assert (Hup : num * PyFloat.pow10 (- (c + 1)) < den * PyFloat.pow10 (c + 1)).
  { destruct (Z_le_gt_dec 0 (c + 1)) as [Hc|Hc].
    - rewrite (pow10_of_nonpos (- (c + 1))), (pow10_of_nonneg (c + 1)) by lia.
      assert (10 ^ dn = 10 ^ (dd - 1) * 10 ^ (c + 1)).
      { rewrite <- Z.pow_add_r by lia. f_equal. lia. }
      assert (0 < 10 ^ (c + 1)) by (apply Z.pow_pos_nonneg; lia). nia.
    - rewrite (pow10_of_nonneg (- (c + 1))), (pow10_of_nonpos (c + 1)) by lia.
      assert (10 ^ (dd - 1) = 10 ^ dn * 10 ^ (- (c + 1))).
      { rewrite <- Z.pow_add_r by lia. f_equal. lia. }
      assert (0 < 10 ^ (- (c + 1))) by (apply Z.pow_pos_nonneg; lia). nia. }
  assert (Hlow : den * PyFloat.pow10 (c - 1)
                 <= num * PyFloat.pow10 (- (c - 1))).
  { destruct (Z_le_gt_dec 0 (c - 1)) as [Hc|Hc].
    - rewrite (pow10_of_nonpos (- (c - 1))), (pow10_of_nonneg (c - 1)) by lia.
      assert (10 ^ (dn - 1) = 10 ^ dd * 10 ^ (c - 1)).
      { rewrite <- Z.pow_add_r by lia. f_equal. lia. }
      assert (0 < 10 ^ (c - 1)) by (apply Z.pow_pos_nonneg; lia). nia.
    - rewrite (pow10_of_nonneg (- (c - 1))), (pow10_of_nonpos (c - 1)) by lia.
      assert (10 ^ dd = 10 ^ (dn - 1) * 10 ^ (- (c - 1))).
      { rewrite <- Z.pow_add_r by lia. f_equal. lia. }
      assert (0 < 10 ^ (- (c - 1))) by (apply Z.pow_pos_nonneg; lia). nia. }
  rewrite Z.opp_involutive.
  destruct (den * PyFloat.pow10 c <=? num * PyFloat.pow10 (- c)) eqn:E.
  - apply Z.leb_le in E. split; assumption.
  - apply Z.leb_gt in E. split; [assumption|].
    now replace (c - 1 + 1) with c by lia.
Qed.

(** The quotient scaled to [k] digits before the point. *)
Lemma scaled_bounds (num den k : Z) :
  0 < num -> 0 < den -> 1 <= k ->
  let '(n, d) :=
    PyFloat.scale10 num den (k - 1 - PyFloat.log10_floor num den) in
  0 < d /\ 10 ^ (k - 1) * d <= n < 10 ^ k * d.
Proof.
  intros Hn Hd Hk.
  destruct (log10_floor_spec num den Hn Hd) as [HA HB].
  set (e := PyFloat.log10_floor num den) in *.
  unfold PyFloat.scale10. set (j := k - 1 - e).
  pose proof (pow10_pos j). pose proof (pow10_pos (- j)).
  pose proof (pow10_pos e). pose proof (pow10_pos (- e)).
  pose proof (pow10_pos (e + 1)). pose proof (pow10_pos (- (e + 1))).
  split; [nia|]. split.
  - pose proof (pow10_add j e) as P.
    replace (j + e) with (k - 1) in P by (subst j; lia).
    rewrite (pow10_of_nonneg (k - 1)), (pow10_of_nonpos (- (k - 1))) in P
      by lia.
    apply (Z.mul_le_mono_pos_r _ _ (PyFloat.pow10 (- e))); [assumption|].
    replace (10 ^ (k - 1) * (den * PyFloat.pow10 (- j)) * PyFloat.pow10 (- e))
      with (den * (10 ^ (k - 1) * PyFloat.pow10 (- j) * PyFloat.pow10 (- e)))
      by ring.
    rewrite P.
    replace (den * (PyFloat.pow10 j * PyFloat.pow10 e * 1))
      with (PyFloat.pow10 j * (den * PyFloat.pow10 e)) by ring.
    replace (num * PyFloat.pow10 j * PyFloat.pow10 (- e))
      with (PyFloat.pow10 j * (num * PyFloat.pow10 (- e))) by ring.
    apply Z.mul_le_mono_nonneg_l; lia.
  - pose proof (pow10_add j (e + 1)) as P.
    replace (j + (e + 1)) with k in P by (subst j; lia).
    rewrite (pow10_of_nonneg k), (pow10_of_nonpos (- k)) in P by lia.
    apply (Z.mul_lt_mono_pos_r (PyFloat.pow10 (- (e + 1)))); [assumption|].
    replace (10 ^ k * (den * PyFloat.pow10 (- j)) * PyFloat.pow10 (- (e + 1)))
      with (den * (10 ^ k * PyFloat.pow10 (- j) * PyFloat.pow10 (- (e + 1))))
      by ring.
    rewrite P.
    replace (den * (PyFloat.pow10 j * PyFloat.pow10 (e + 1) * 1))
      with (PyFloat.pow10 j * (den * PyFloat.pow10 (e + 1))) by ring.
    replace (num * PyFloat.pow10 j * PyFloat.pow10 (- (e + 1)))
      with (PyFloat.pow10 j * (num * PyFloat.pow10 (- (e + 1)))) by ring.
    apply Z.mul_lt_mono_pos_l; lia.
Qed.

Lemma round_half_even_range (n d lo hi : Z) :
  0 < d -> lo * d <= n < hi * d ->
  lo <= PyFloat.round_half_even n d <= hi.
Proof.
  intros Hd [Hlo Hhi]. unfold PyFloat.round_half_even.
  assert (Hq : lo <= n / d < hi).
  { split.
    - apply Z.div_le_lower_bound; lia.
    - apply Z.div_lt_upper_bound; lia. }
  destruct (2 * (n mod d) ?= d); try destruct (Z.even (n / d)); lia.
Qed.

(** The rounded mantissa has exactly [k] digits. *)
Lemma round_sig_range (k num den : Z) :
  0 < num -> 0 < den -> 1 <= k ->
  10 ^ (k - 1) <= fst (PyFloat.round_sig k num den) < 10 ^ k.
Proof.
  intros Hn Hd Hk. unfold PyFloat.round_sig.
  pose proof (scaled_bounds num den k Hn Hd Hk) as H.
  destruct (PyFloat.scale10 num den (k - 1 - PyFloat.log10_floor num den))
    as [n d].
  destruct H as [Hd' Hb].
  pose proof (round_half_even_range n d _ _ Hd' Hb) as Hr.
  unfold PyFloat.carry.
  assert (10 ^ (k - 1) < 10 ^ k) by (apply Z.pow_lt_mono_r; lia).
  destruct (PyFloat.round_half_even n d =? 10 ^ k) eqn:E; cbn [fst].
  - lia.
  - apply Z.eqb_neq in E. lia.
Qed.

Lemma digit_char_is_digit (d : Z) :
  0 <= d <= 9 -> PyStr.is_digit (PyStr.digit_char d) = true.
Proof.
  intro H.
  assert (E : d = 0 \/ d = 1 \/ d = 2 \/ d = 3 \/ d = 4 \/ d = 5 \/ d = 6
              \/ d = 7 \/ d = 8 \/ d = 9) by lia.
  repeat (destruct E as [->|E]; [reflexivity|]). now subst.
Qed.

Lemma digit_char_not_zero (d : Z) :
  1 <= d <= 9 -> PyStr.digit_char d <> "0"%char.
Proof.
  intro H.
  assert (E : d = 1 \/ d = 2 \/ d = 3 \/ d = 4 \/ d = 5 \/ d = 6
              \/ d = 7 \/ d = 8 \/ d = 9) by lia.
  repeat (destruct E as [->|E]; [discriminate|]). now subst.
Qed.

Lemma str_length_app (a b : string) :
  String.length (a ++ b) = (String.length a + String.length b)%nat.
Proof. induction a; simpl; auto. Qed.

Lemma str_app_assoc (a b c : string) : (a ++ b) ++ c = a ++ b ++ c.
Proof. induction a; simpl; congruence. Qed.

Lemma all_digits_app (a b : string) :
  PyStr.all_digits (a ++ b) = PyStr.all_digits a && PyStr.all_digits b.
Proof.
  induction a as [|c a IH]; simpl; [reflexivity|].
  now rewrite IH, andb_assoc.
Qed.

(** A number of [k + 1] digits is printed as a non-zero digit followed by
    [k] digits. *)
Lemma digits_fuel_exact : forall (k : nat) (n : Z) (fuel : nat) (acc : string),
  10 ^ Z.of_nat k <= n < 10 ^ (Z.of_nat k + 1) ->
  (k < fuel)%nat ->
  exists d0 rest,
    PyInt.digits_fuel fuel n acc = String d0 (rest ++ acc)
    /\ String.length rest = k
    /\ PyStr.all_digits rest = true
    /\ PyStr.is_digit d0 = true
    /\ d0 <> "0"%char.
Proof.
  induction k as [|k IH]; intros n fuel acc Hn Hf.
  - destruct fuel as [|f]; [lia|]. simpl in Hn.
    cbn [PyInt.digits_fuel].
    replace (n <? 10) with true by (symmetry; apply Z.ltb_lt; lia).
    rewrite Z.mod_small by lia.
    exists (PyStr.digit_char n), EmptyString. repeat split.
    + apply digit_char_is_digit. lia.
    + apply digit_char_not_zero. lia.
  - destruct fuel as [|f]; [lia|].
    rewrite Nat2Z.inj_succ in Hn.
    replace (Z.succ (Z.of_nat k) + 1) with (Z.succ (Z.succ (Z.of_nat k)))
      in Hn by lia.
    rewrite !Z.pow_succ_r in Hn by lia.
    assert (0 < 10 ^ Z.of_nat k) by (apply Z.pow_pos_nonneg; lia).
    cbn [PyInt.digits_fuel].
    replace (n <? 10) with false by (symmetry; apply Z.ltb_ge; lia).
    pose proof (Z.div_mod n 10 ltac:(lia)) as Hdm.
    pose proof (Z.mod_pos_bound n 10 ltac:(lia)) as Hmb.
    assert (Hq : 10 ^ Z.of_nat k <= n / 10 < 10 ^ (Z.of_nat k + 1)).
    { rewrite Z.pow_add_r, Z.pow_1_r by lia. split.
      - apply Z.div_le_lower_bound; lia.
      - apply Z.div_lt_upper_bound; lia. }
    destruct (IH (n / 10) f (String (PyStr.digit_char (n mod 10)) acc) Hq
                 ltac:(lia))
      as (d0 & rest & Heq & Hlen & Hall & Hd & Hnz).
    exists d0, (rest ++ String (PyStr.digit_char (n mod 10)) EmptyString).
    rewrite Heq, str_app_assoc. repeat split; try assumption.
    + rewrite str_length_app. simpl. lia.
    + rewrite all_digits_app, Hall. simpl.
      rewrite digit_char_is_digit by lia. reflexivity.
Qed.

Lemma digits_exact (k : nat) (n : Z) :
  10 ^ Z.of_nat k <= n < 10 ^ (Z.of_nat k + 1) ->
  exists d0 rest,
    PyInt.digits n = String d0 rest
    /\ String.length rest = k
    /\ PyStr.all_digits rest = true
    /\ PyStr.is_digit d0 = true
    /\ d0 <> "0"%char.
Proof.
  intro H. unfold PyInt.digits.
  assert (0 < 10 ^ Z.of_nat k) by (apply Z.pow_pos_nonneg; lia).
  assert (Hl : Z.of_nat k <= Z.log2 n).
  { apply Z.log2_le_pow2; [lia|].
    transitivity (10 ^ Z.of_nat k); [|lia].
    apply Z.pow_le_mono_l. lia. }
  destruct (digits_fuel_exact k n (S (Z.to_nat (Z.log2 n))) EmptyString H
              ltac:(lia))
    as (d0 & rest & Heq & Hrest).
  exists d0, rest. split; [|exact Hrest].
  rewrite Heq. f_equal. clear. induction rest; simpl; congruence.
Qed.

(** Whatever the fuel, what is printed is digits, and at least one. *)
Lemma digits_fuel_all : forall (fuel : nat) (n : Z) (acc : string),
  0 <= n ->
  exists ds,
    PyInt.digits_fuel (S fuel) n acc = ds ++ acc
    /\ PyStr.all_digits ds = true
    /\ (1 <= String.length ds)%nat.
Proof.
  induction fuel as [|f IH]; intros n acc Hn;
    pose proof (Z.mod_pos_bound n 10 ltac:(lia)) as Hmb.
  - exists (String (PyStr.digit_char (n mod 10)) EmptyString).
    cbn [PyInt.digits_fuel]. split.
    + destruct (n <? 10); reflexivity.
    + simpl. rewrite digit_char_is_digit by lia. split; [reflexivity|lia].
  - cbn [PyInt.digits_fuel]. destruct (n <? 10).
    + exists (String (PyStr.digit_char (n mod 10)) EmptyString).
      split; [reflexivity|]. simpl.
      rewrite digit_char_is_digit by lia. split; [reflexivity|lia].
    + destruct (IH (n / 10) (String (PyStr.digit_char (n mod 10)) acc)
                   ltac:(apply Z.div_pos; lia))
        as (ds & Heq & Hall & Hlen).
      exists (ds ++ String (PyStr.digit_char (n mod 10)) EmptyString).
      cbn [PyInt.digits_fuel] in Heq. rewrite Heq, str_app_assoc.
      split; [reflexivity|]. split.
      * rewrite all_digits_app, Hall. simpl.
        rewrite digit_char_is_digit by lia. reflexivity.
      * rewrite str_length_app. lia.
Qed.

Lemma str_app_empty (s : string) : s ++ EmptyString = s.
Proof. induction s; simpl; congruence. Qed.

Lemma digits_all (n : Z) :
  0 <= n ->
  PyStr.all_digits (PyInt.digits n) = true
  /\ (1 <= String.length (PyInt.digits n))%nat
  /\ (10 <= n -> (2 <= String.length (PyInt.digits n))%nat).
Proof.
  intro Hn. unfold PyInt.digits.
  destruct (digits_fuel_all (Z.to_nat (Z.log2 n)) n EmptyString Hn)
    as (ds & Heq & Hall & Hlen).
  rewrite Heq, str_app_empty. split; [assumption|]. split; [assumption|].
  intro H10.
  assert (Hl : 3 <= Z.log2 n) by (apply Z.log2_le_pow2; simpl; lia).
  destruct (Z.to_nat (Z.log2 n)) as [|f] eqn:Ef; [lia|].
  cbn [PyInt.digits_fuel] in Heq.
  replace (n <? 10) with false in Heq by (symmetry; apply Z.ltb_ge; lia).
  destruct (digits_fuel_all f (n / 10)
              (String (PyStr.digit_char (n mod 10)) EmptyString)
              ltac:(apply Z.div_pos; lia))
    as (ds' & Heq' & _ & Hlen').
  rewrite str_app_empty in Heq.
  cbn [PyInt.digits_fuel] in Heq'. rewrite Heq' in Heq.
  rewrite <- Heq, str_length_app. simpl. lia.
Qed.

(** The exponent: a sign and at least two digits. *)
Lemma exp_str_shape (e : Z) :
  exists sg ds,
    PyFloat.exp_str e = String sg ds
    /\ (sg = "+"%char \/ sg = "-"%char)
    /\ PyStr.all_digits ds = true
    /\ (2 <= String.length ds)%nat.
Proof.
  unfold PyFloat.exp_str.
  destruct (digits_all (Z.abs e) ltac:(lia)) as (Hall & H1 & H2).
  exists (if e <? 0 then "-"%char else "+"%char),
         (if Z.abs e <? 10 then String "0" (PyInt.digits (Z.abs e))
          else PyInt.digits (Z.abs e)).
  split; [destruct (e <? 0); reflexivity|].
  split; [destruct (e <? 0); auto|].
  destruct (Z.abs e <? 10) eqn:E.
  - simpl. rewrite Hall. split; [reflexivity|lia].
  - apply Z.ltb_ge in E. split; [assumption|]. now apply H2.
Qed.

(** C9, for finite values.  Each setter of a source or measure level, range
    or compliance sends its header followed by the E rendering of the
    value, and for a finite value that rendering is an optional minus
    sign, one digit, which is not 0 unless the value is zero, a point,
    exactly six digits, the letter E, a sign and at least two digits. *)
Theorem setters_send_scientific (conn : Conn.t) (x : PyFloat.float) :
  Conn.logs conn ->
  PyFloat.is_finite x = true ->
  Forall (fun p : (Conn.t -> PyFloat.float -> M unit) * string =>
            forall tr : trace,
              snd (fst p conn x tr)
              = (tr ++ [(snd p ++ PyFloat.format_E x)%string])%list)
         e_setters
  /\ exists neg d0 frac esign edigits,
       PyFloat.format_E x
       = PyFloat.sign_str neg
         ++ String d0 ("." ++ frac ++ "E" ++ String esign edigits)
       /\ PyStr.is_digit d0 = true
       /\ (d0 = "0"%char -> PyFloat.is_zero x = true)
       /\ String.length frac = 6%nat
       /\ PyStr.all_digits frac = true
       /\ (esign = "+"%char \/ esign = "-"%char)
       /\ (2 <= String.length edigits)%nat
       /\ PyStr.all_digits edigits = true.
Proof.
  intros L Hfin. split.
  - unfold e_setters. repeat constructor; intro tr; apply (Conn.write_logs _ L).
  - destruct x as [s|s| |s m e]; try discriminate.
    + exists s, "0"%char, "000000", "+"%char, "00".
      repeat split; auto.
    + unfold PyFloat.format_E.
      destruct (fraction_pos m e) as [Hn Hd].
      destruct (PyFloat.fraction m e) as [n d]. cbn [fst snd] in Hn, Hd.
      pose proof (round_sig_range 7 n d Hn Hd ltac:(lia)) as Hr.
      destruct (PyFloat.round_sig 7 n d) as [mant e10]. cbn [fst] in Hr.
      destruct (digits_exact 6 mant Hr)
        as (d0 & rest & Heq & Hlen & Hall & Hdig & Hnz).
      destruct (exp_str_shape e10) as (sg & ds & Hexp & Hsg & Hds & Hdl).
      exists s, d0, rest, sg, ds. rewrite Heq. unfold PyFloat.sci.
      rewrite Hexp.
      destruct rest as [|c rest]; [discriminate Hlen|].
      repeat split; try assumption.
      intro H0. contradiction.
Qed.

(** The value 0.01 on the wire. *)
Lemma setters_send_scientific_witness :
  snd (Source.set_voltage (MockConnection.make []) (lit 1 (-2)) [])
  = [":SOUR:VOLT:LEV 1.000000E-02"]
  /\ snd (Measure.set_current_compliance (MockConnection.make [])
            (lit 1 (-2)) [])
     = [":SENS:CURR:PROT 1.000000E-02"].
Proof.
  destruct (setters_send_scientific (MockConnection.make []) (lit 1 (-2))
              (logs_mock _) eq_refl) as [Hs _].
  unfold e_setters in Hs.
  pose proof (Forall_inv Hs) as H1.
  pose proof (Forall_inv (Forall_inv_tail (Forall_inv_tail (Forall_inv_tail
                (Forall_inv_tail (Forall_inv_tail (Forall_inv_tail Hs)))))))
    as H7.
  cbn [fst snd] in H1, H7. split.
  - rewrite (H1 []). reflexivity.
  - rewrite (H7 []). reflexivity.
Defined.

(** C9 fails as stated: an infinite level is sent as INF and a NaN as NAN,
    neither of which is a digit followed by a point. *)
Lemma infinite_level_is_not_scientific :
  snd (Source.set_voltage (MockConnection.make []) PyFloat.pos_inf [])
  = [":SOUR:VOLT:LEV INF"]
  /\ snd (Measure.set_current_compliance (MockConnection.make [])
            PyFloat.neg_inf [])
     = [":SENS:CURR:PROT -INF"]
  /\ snd (Source.set_current (MockConnection.make []) PyFloat.nan [])
     = [":SOUR:CURR:LEV NAN"]
  /\ ~ (exists neg d0 rest,
          PyFloat.format_E PyFloat.pos_inf
          = PyFloat.sign_str neg ++ String d0 ("." ++ rest)).
Proof.
  repeat split.
  intros (neg & d0 & rest & H). destruct neg; discriminate H.
Qed.

(** * Further properties *)

(** ** Stripping *)

Lemma lstrip_head_kept (drop : ascii -> bool) : forall s,
  head_kept drop (PyStr.lstrip_with drop s) = true.
Proof.
  induction s as [|c r IH]; simpl; auto.
  destruct (drop c) eqn:E; simpl; auto. now rewrite E.
Qed.

Lemma rstrip_last_kept (drop : ascii -> bool) : forall s,
  last_kept drop (PyStr.rstrip_with drop s) = true.
Proof.
  induction s as [|c r IH]; simpl; auto.
  destruct (PyStr.rstrip_with drop r) as [|c' r'] eqn:E.
  - destruct (drop c) eqn:D; simpl; auto. now rewrite D.
  - exact IH.
Qed.

Lemma rstrip_head_kept (drop : ascii -> bool) (s : string) :
  head_kept drop s = true ->
  head_kept drop (PyStr.rstrip_with drop s) = true.
Proof.
  destruct s as [|c r]; simpl; auto. intro H.
  destruct (drop c) eqn:D; [discriminate|].
  destruct (PyStr.rstrip_with drop r); simpl; now rewrite D.
Qed.

Lemma lstrip_id (drop : ascii -> bool) (s : string) :
  head_kept drop s = true -> PyStr.lstrip_with drop s = s.
Proof.
  destruct s as [|c r]; simpl; auto.
  destruct (drop c); [discriminate | reflexivity].
Qed.

Lemma rstrip_id (drop : ascii -> bool) : forall s,
  last_kept drop s = true -> PyStr.rstrip_with drop s = s.
Proof.
  induction s as [|c r IH]; auto. intro H.
  destruct r as [|c' r'].
  - simpl in *. destruct (drop c); [discriminate | reflexivity].
  - change (last_kept drop (String c (String c' r')))
      with (last_kept drop (String c' r')) in H.
    specialize (IH H).
    change (PyStr.rstrip_with drop (String c (String c' r')))
      with (match PyStr.rstrip_with drop (String c' r') with
            | EmptyString =>
                if drop c then EmptyString else String c EmptyString
            | r0 => String c r0
            end).
    now rewrite IH.
Qed.

Lemma strip_with_ends (drop : ascii -> bool) (s : string) :
  head_kept drop (PyStr.strip_with drop s) = true
  /\ last_kept drop (PyStr.strip_with drop s) = true.
Proof.
  unfold PyStr.strip_with. split.
  - apply rstrip_head_kept, lstrip_head_kept.
  - apply rstrip_last_kept.
Qed.

Lemma strip_with_id (drop : ascii -> bool) (s : string) :
  head_kept drop s = true -> last_kept drop s = true ->
  PyStr.strip_with drop s = s.
Proof.
  intros Hh Hl. unfold PyStr.strip_with.
  rewrite (lstrip_id _ _ Hh). now apply rstrip_id.
Qed.

Lemma strip_with_idempotent (drop : ascii -> bool) (s : string) :
  PyStr.strip_with drop (PyStr.strip_with drop s) = PyStr.strip_with drop s.
Proof. destruct (strip_with_ends drop s). now apply strip_with_id. Qed.

(** Over a [Connection], whatever the instrument sends back, a getter that
    returns its reply as text returns it with no white space at either end:
    stripping it again changes nothing. *)
Theorem text_getters_return_stripped_text (inst : Instrument) :
  Forall (fun g : Conn.t -> M string =>
            forall tr r,
              fst (g (Connection.make inst) tr) = Return r ->
              head_kept PyStr.is_space r = true
              /\ last_kept PyStr.is_space r = true
              /\ PyStr.strip r = r)
         string_getters.
Proof.
  assert (Hq : forall cmd tr r,
             fst (Conn.query (Connection.make inst) cmd tr) = Return r ->
             head_kept PyStr.is_space r = true
             /\ last_kept PyStr.is_space r = true
             /\ PyStr.strip r = r).
  { intros cmd tr r H. cbn in H.
    destruct (on_query inst tr cmd) as [raw|e]; [|discriminate].
    cbn in H. injection H as <-.
    destruct (strip_with_ends PyStr.is_space raw) as [Hh Hl].
    repeat split; auto. apply strip_with_idempotent. }
  unfold string_getters.
  repeat (apply Forall_cons; [intros tr r H; exact (Hq _ tr r H)|]).
  apply Forall_nil.
Qed.

(** An identification string that arrives with a line end and blanks. *)
Lemma text_getters_return_stripped_text_witness :
  let inst := scripted ["  KEITHLEY 2400 " ++ String (ascii_of_nat 10)
                                                     EmptyString]
                       (Return []) in
  fst (Conn.identify (Connection.make inst) []) = Return "KEITHLEY 2400"
  /\ PyStr.strip "KEITHLEY 2400" = "KEITHLEY 2400".
Proof.
  intro inst. split; [reflexivity|].
  pose proof (Forall_inv (text_getters_return_stripped_text inst)) as H.
  exact (proj2 (proj2 (H [] "KEITHLEY 2400" eq_refl))).
Defined.

(** ** The message of an error entry *)

(** Whatever the connection and its reply, the message that [read_error]
    returns neither begins nor ends with a double quote. *)
Theorem read_error_message_is_unquoted
    (conn : Conn.t) (tr : trace) (code : Z) (msg : string) :
  fst (Status.read_error conn tr) = Return (code, msg) ->
  head_kept is_dquote msg = true /\ last_kept is_dquote msg = true.
Proof.
  intro H.
  destruct (fst (Conn.query conn ":SYST:ERR?" tr)) as [resp|e] eqn:Q.
  - rewrite (read_error_decodes _ _ _ Q) in H.
    destruct (Status.unpack2 (PyStr.split1 "," resp)) as [p|]; [|discriminate].
    cbn [obind] in H.
    destruct (PyInt.of_str (fst p)); [|discriminate].
    cbn [obind] in H. injection H as _ <-.
    apply (strip_with_ends (fun c => existsb (Ascii.eqb c) [PyStr.dquote])).
  - unfold Status.read_error, bind in H.
    destruct (Conn.query conn ":SYST:ERR?" tr) as [o tr'].
    cbn [fst] in Q. subst o. discriminate H.
Qed.

(** A message sent with doubled quotes and blanks around it. *)
Lemma read_error_message_is_unquoted_witness :
  let q := String PyStr.dquote EmptyString in
  let conn :=
    MockConnection.make
      [(":SYST:ERR?", "-113, " ++ q ++ q ++ "Undefined header" ++ q ++ " ")] in
  fst (Status.read_error conn []) = Return (-113, "Undefined header")
  /\ head_kept is_dquote "Undefined header" = true
  /\ last_kept is_dquote "Undefined header" = true.
Proof.
  intros q conn. split; [reflexivity|].
  exact (read_error_message_is_unquoted conn [] (-113) "Undefined header"
           eq_refl).
Defined.

(** ** The demultiplexer, both channels together *)

Lemma interleave_every_two : forall raw,
  interleave (Sweep.every 2 0 raw) (Sweep.every 2 1 raw) = raw.
Proof.
  induction raw as [| x | x y l IH] using pair_induction; try reflexivity.
  change (Sweep.every 2 0 (x :: y :: l)) with (x :: Sweep.every 2 0 l).
  change (Sweep.every 2 1 (x :: y :: l)) with (y :: Sweep.every 2 1 l).
  simpl. now rewrite IH.
Qed.

(** The demultiplexer loses nothing and invents nothing: for two distinct
    channel names and a reply of any length, taking a value from the first
    channel and a value from the second in turn gives the reply back, and
    the first channel is as long as the second or one value longer. *)
Theorem parse_two_element_interleaves
    (raw : list PyFloat.float) (ka kb : string) :
  ka <> kb ->
  exists a b,
    Sweep._parse_two_element raw ka kb = [(ka, a); (kb, b)]
    /\ interleave a b = raw
    /\ (List.length b <= List.length a <= List.length b + 1)%nat.
Proof.
  intro Hk. exists (Sweep.every 2 0 raw), (Sweep.every 2 1 raw).
  split; [now apply parse_two_element_distinct|].
  split; [apply interleave_every_two|].
  destruct (every_two_lengths raw) as [-> ->].
  pose proof (Nat.div_mod_eq (List.length raw + 1) 2) as D1.
  pose proof (Nat.div_mod_eq (List.length raw) 2) as D2.
  pose proof (Nat.mod_upper_bound (List.length raw + 1) 2 ltac:(lia)) as B1.
  pose proof (Nat.mod_upper_bound (List.length raw) 2 ltac:(lia)) as B2.
  lia.
Qed.

(** A reply of five values. *)
Lemma parse_two_element_interleaves_witness :
  exists a b,
    Sweep._parse_two_element
      [lit 1 0; lit 2 0; lit 3 0; lit 4 0; lit 5 0] "voltage" "current"
    = [("voltage", a); ("current", b)]
    /\ interleave a b = [lit 1 0; lit 2 0; lit 3 0; lit 4 0; lit 5 0]
    /\ (List.length b <= List.length a <= List.length b + 1)%nat.
Proof.
  apply (parse_two_element_interleaves
           [lit 1 0; lit 2 0; lit 3 0; lit 4 0; lit 5 0] "voltage" "current").
  discriminate.
Defined.

(** One name for both channels: the dict literal keeps the later value, so
    the values at the even indices are dropped. *)
Lemma parse_two_element_same_key (raw : list PyFloat.float) (k : string) :
  Sweep._parse_two_element raw k k = [(k, Sweep.every 2 1 raw)].
Proof.
  unfold Sweep._parse_two_element, Sweep.slice_from_step. simpl.
  now rewrite String.eqb_refl.
Qed.

(** ** The error queue that does not end well *)

Lemma read_all_errors_loop_raises (conn : Conn.t) (tr : trace)
    (replies : list (Z * string)) (e : exn) :
  Conn.logs conn ->
  (forall i r, nth_error replies i = Some r ->
     fst (Status.read_error conn (tr ++ repeat ":SYST:ERR?" i)%list)
     = Return r) ->
  fst (Status.read_error conn
         (tr ++ repeat ":SYST:ERR?" (List.length replies))%list) = Raise e ->
  forall pre seen errors fuel,
    replies = (seen ++ pre)%list ->
    Forall (fun r => fst r <> 0) pre ->
    (List.length pre < fuel)%nat ->
    Status.read_all_errors_loop conn fuel errors
      (tr ++ repeat ":SYST:ERR?" (List.length seen))%list
    = Some (Raise e,
            (tr ++ repeat ":SYST:ERR?"
                     (S (List.length seen + List.length pre)))%list).
Proof.
  intros L Hq He.
  induction pre as [|[c m] pre IH]; intros seen errors fuel Hr Hf Hl;
    (destruct fuel as [|fuel]; [simpl in Hl; lia|]); simpl;
    pose proof (read_error_trace conn
                  (tr ++ repeat ":SYST:ERR?" (List.length seen))%list L) as Ht.
  - rewrite app_nil_r in Hr. subst seen.
    destruct (Status.read_error conn
                (tr ++ repeat ":SYST:ERR?" (List.length replies))%list)
      as [o tr'].
    simpl in He, Ht. subst o tr'. rewrite Nat.add_0_r.
    now rewrite <- app_assoc, repeat_snoc.
  - pose proof (Hq (List.length seen) (c, m)) as H0.
    destruct (Status.read_error conn
                (tr ++ repeat ":SYST:ERR?" (List.length seen))%list)
      as [o tr'].
    simpl in H0, Ht. rewrite H0.
    + inversion Hf as [|? ? Hc Hf']; subst. simpl in Hc.
      apply Z.eqb_neq in Hc. rewrite Hc.
      rewrite <- app_assoc, repeat_snoc.
      specialize (IH (seen ++ [(c, m)])%list (errors ++ [(c, m)])%list fuel).
      rewrite length_app in IH. simpl in IH.
      replace (List.length seen + 1)%nat with (S (List.length seen)) in IH
        by lia.
      rewrite IH.
      * now replace (List.length seen + S (List.length pre))%nat
          with (S (List.length seen + List.length pre)) by lia.
      * now rewrite <- app_assoc.
      * assumption.
      * simpl in Hl. lia.
    + subst replies. rewrite nth_error_app2 by lia.
      now rewrite Nat.sub_diag.
Qed.

(** A reply that cannot be decoded, or a query that fails, ends
    [read_all_errors] with that error: after entries with codes other than
    zero, the failing query is the last command sent and the entries
    collected so far are not returned. *)
Theorem read_all_errors_raises_at_bad_reply (conn : Conn.t) (tr : trace)
    (replies : list (Z * string)) (e : exn) :
  Conn.logs conn ->
  (forall i r, nth_error replies i = Some r ->
     fst (Status.read_error conn (tr ++ repeat ":SYST:ERR?" i)%list)
     = Return r) ->
  Forall (fun r => fst r <> 0) replies ->
  fst (Status.read_error conn
         (tr ++ repeat ":SYST:ERR?" (List.length replies))%list) = Raise e ->
  forall fuel, (List.length replies < fuel)%nat ->
    Status.read_all_errors conn fuel tr
    = Some (Raise e,
            (tr ++ repeat ":SYST:ERR?" (S (List.length replies)))%list).
Proof.
  intros L Hq Hf He fuel Hl. unfold Status.read_all_errors.
  pose proof (read_all_errors_loop_raises conn tr replies e L Hq He
                replies [] [] fuel eq_refl Hf Hl) as H.
  simpl in H. now rewrite app_nil_r in H.
Qed.

(** One entry, then a reply without a comma; and one entry, then no reply
    at all. *)
Lemma read_all_errors_raises_at_bad_reply_witness :
  Status.read_all_errors
    (Connection.make (scripted [ "15," ++ Measure.quoted "overflow";
                                 "garbled" ] (Return []))) 5 []
  = Some (Raise ValueError, [":SYST:ERR?"; ":SYST:ERR?"])
  /\ Status.read_all_errors
       (Connection.make (scripted [ "15," ++ Measure.quoted "overflow" ]
                                  (Return []))) 5 []
     = Some (Raise TransportError, [":SYST:ERR?"; ":SYST:ERR?"]).
Proof.
  split.
  - apply (read_all_errors_raises_at_bad_reply _ [] [(15, "overflow")]).
    + apply logs_connection.
    + intros [|[|i]] r H; simpl in H; try discriminate;
        injection H as <-; reflexivity.
    + repeat constructor. simpl. lia.
    + reflexivity.
    + simpl. lia.
  - apply (read_all_errors_raises_at_bad_reply _ [] [(15, "overflow")]).
    + apply logs_connection.
    + intros [|[|i]] r H; simpl in H; try discriminate;
        injection H as <-; reflexivity.
    + repeat constructor. simpl. lia.
    + reflexivity.
    + simpl. lia.
Defined.

Lemma read_all_errors_loop_runs_on (conn : Conn.t) (tr : trace) :
  Conn.logs conn ->
  (forall i, exists code msg,
      fst (Status.read_error conn (tr ++ repeat ":SYST:ERR?" i)%list)
      = Return (code, msg) /\ code <> 0) ->
  forall fuel i errors,
    Status.read_all_errors_loop conn fuel errors
      (tr ++ repeat ":SYST:ERR?" i)%list = None.
Proof.
  intros L Hq. induction fuel as [|fuel IH]; intros i errors; simpl; auto.
  destruct (Hq i) as (code & msg & H0 & Hc).
  pose proof (read_error_trace conn (tr ++ repeat ":SYST:ERR?" i)%list L)
    as Ht.
  destruct (Status.read_error conn (tr ++ repeat ":SYST:ERR?" i)%list)
    as [o tr'].
  simpl in H0, Ht. subst o tr'.
  apply Z.eqb_neq in Hc. rewrite Hc.
  rewrite <- app_assoc, repeat_snoc. apply IH.
Qed.

(** [read_all_errors] has no bound of its own: against an instrument that
    never reports code zero the loop is still running after any number of
    rounds. *)
Theorem read_all_errors_needs_the_sentinel (conn : Conn.t) (tr : trace) :
  Conn.logs conn ->
  (forall i, exists code msg,
      fst (Status.read_error conn (tr ++ repeat ":SYST:ERR?" i)%list)
      = Return (code, msg) /\ code <> 0) ->
  forall fuel, Status.read_all_errors conn fuel tr = None.
Proof.
  intros L Hq fuel. unfold Status.read_all_errors.
  pose proof (read_all_errors_loop_runs_on conn tr L Hq fuel 0%nat []) as H.
  simpl in H. now rewrite app_nil_r in H.
Qed.

(** The mock answers every error query with the one reply it was loaded
    with. *)
Lemma read_all_errors_needs_the_sentinel_witness :
  Status.read_all_errors
    (MockConnection.make [(":SYST:ERR?", "15," ++ Measure.quoted "overflow")])
    1000 []
  = None.
Proof.
  apply (read_all_errors_needs_the_sentinel
           (MockConnection.make
              [(":SYST:ERR?", "15," ++ Measure.quoted "overflow")]) []).
  - apply logs_mock.
  - intro i. exists 15, "overflow". split; [reflexivity | lia].
Defined.

(** ** Sweeps stop at the first failure *)

Lemma acquire_with_spec {A} (f : list PyFloat.float -> A) (conn : Conn.t)
    (tr : trace) :
  Conn.logs conn ->
  acquire_with f conn tr
  = match fst (Measure.read conn tr) with
    | Raise e => (Raise e, (tr ++ [":READ?"])%list)
    | Return raw =>
        (match fst (Config.output_off conn (tr ++ [":READ?"])%list) with
         | Return _ => Return (f raw)
         | Raise e => Raise e
         end, (tr ++ [":READ?"; ":OUTP OFF"])%list)
    end.
Proof.
  intro L. unfold acquire_with, bind.
  pose proof (Conn.ascii_logs _ L ":READ?" tr) as Hs.
  unfold Measure.read in *.
  destruct (Conn.query_ascii_values conn ":READ?" tr) as [o tr'].
  cbn [fst snd] in *. subst tr'. destruct o as [raw|e]; [|reflexivity].
  pose proof (Conn.write_logs _ L ":OUTP OFF" (tr ++ [":READ?"])%list) as Hw.
  unfold Config.output_off.
  destruct (Conn.write conn ":OUTP OFF" (tr ++ [":READ?"])%list) as [o tr'].
  cbn [fst snd] in *. subst tr'. rewrite <- app_assoc.
  destruct o; reflexivity.
Qed.

Lemma acquire_with_fail_stop {A} (f : list PyFloat.float -> A)
    (conn : Conn.t) (tr : trace) :
  Conn.logs conn ->
  fail_stop conn (acquire_with f conn) [":READ?"; ":OUTP OFF"] tr.
Proof.
  intro L. unfold fail_stop. rewrite (acquire_with_spec f conn tr L).
  destruct (fst (Measure.read conn tr)) as [raw|e] eqn:R.
  - exists [":READ?"; ":OUTP OFF"], []. cbn [fst snd].
    split; [reflexivity|]. split; [reflexivity|]. split; [reflexivity|].
    intros e He. exists [":READ?"], ":OUTP OFF". split; [reflexivity|].
    left. unfold Config.output_off in He.
    destruct (fst (Conn.write conn ":OUTP OFF" (tr ++ [":READ?"])%list));
      [discriminate | congruence].
  - exists [":READ?"], [":OUTP OFF"]. cbn [fst snd].
    split; [reflexivity|]. split; [reflexivity|].
    split; [discriminate|].
    intros e' He. injection He as <-.
    exists [], ":READ?". split; [reflexivity|]. right.
    rewrite app_nil_r. exact R.
Qed.

Lemma acquire_fail_stop (conn : Conn.t) (tr : trace) :
  Conn.logs conn ->
  fail_stop conn (acquire conn) [":READ?"; ":OUTP OFF"] tr.
Proof.
  apply (acquire_with_fail_stop
           (fun raw => Sweep._parse_two_element raw "voltage" "current")).
Qed.


Lemma write_all_then_fail_stop {A} (conn : Conn.t) (k : M A)
    (K : list string) :
  Conn.logs conn ->
  (forall tr, fail_stop conn k K tr) ->
  forall cmds tr,
    fail_stop conn (write_all_then conn cmds k) (cmds ++ K)%list tr.
Proof.
  intros L Hk. induction cmds as [|c cmds IH]; intro tr; [apply Hk|].
  unfold fail_stop.
  change (write_all_then conn (c :: cmds) k tr)
    with (match Conn.write conn c tr with
          | (Return _, tr') => write_all_then conn cmds k tr'
          | (Raise e, tr') => (Raise e, tr')
          end).
  pose proof (Conn.write_logs _ L c tr) as Hs.
  destruct (Conn.write conn c tr) as [o tr'] eqn:E. cbn [snd] in Hs.
  subst tr'. destruct o as [u|e].
  - destruct (IH (tr ++ [c])%list) as (sent & rest & HK & Hsnd & Hret & Hraise).
    exists (c :: sent), rest.
    split; [simpl; now rewrite HK|].
    split; [rewrite Hsnd; now rewrite <- app_assoc|].
    split; [exact Hret|].
    intros e He. destruct (Hraise e He) as (pre & c' & Hp & Hor).
    exists (c :: pre), c'. split; [simpl; now rewrite Hp|].
    rewrite <- app_assoc in Hor. exact Hor.
  - exists [c], (cmds ++ K)%list. cbn [fst snd].
    split; [reflexivity|]. split; [reflexivity|]. split; [discriminate|].
    intros e' He. injection He as <-.
    exists [], c. split; [reflexivity|]. left.
    rewrite app_nil_r, E. reflexivity.
Qed.



(** A linear sweep with a step of zero, of either sign, divides by zero
    while it counts its points: it raises [ZeroDivisionError] whatever the
    other arguments and sends nothing, not even the reset. *)
Theorem linear_sweep_with_zero_step_sends_nothing
    (conn : Conn.t) (start stop compliance delay nplc : PyFloat.float)
    (negative : bool) (tr : trace) :
  run conn (VoltageLinear start stop (S754_zero negative)
                          compliance delay nplc) tr
  = (Raise ZeroDivisionError, tr)
  /\ run conn (CurrentLinear start stop (S754_zero negative)
                             compliance delay nplc) tr
     = (Raise ZeroDivisionError, tr).
Proof. split; rewrite run_unfold; reflexivity. Qed.

(** A request whose point count does not resolve sends nothing. *)
Lemma sweep_without_point_count_sends_nothing
    (conn : Conn.t) (r : request) (e : exn) (tr : trace) :
  points r = Raise e -> run conn r tr = (Raise e, tr).
Proof.
  intro H. rewrite run_unfold. unfold bind at 1, lift. now rewrite H.
Qed.

(** A current sweep from zero to infinity. *)
Lemma sweep_without_point_count_sends_nothing_witness :
  run (MockConnection.make [])
      (CurrentLinear (lit 0 0) PyFloat.pos_inf (lit 1 (-3))
                     (lit 1 0) (lit 1 (-1)) (lit 1 0)) []
  = (Raise OverflowError, []).
Proof.
  apply (sweep_without_point_count_sends_nothing (MockConnection.make [])).
  reflexivity.
Defined.

(** ** The facade *)



(** Leaving a [with] block always turns the output off: whatever the body
    did, returned or raised, [:OUTP OFF] is the one command sent after it;
    when that write and the closing of the session return, the body's
    result or error is the block's, and an error of the write or of the
    closing is the block's error instead. *)
Theorem with_block_turns_output_off {A} (conn : Conn.t)
    (on_close : trace -> outcome unit) (body : M A) (tr : trace) :
  Conn.logs conn ->
  let after := snd (body tr) in
  snd (Keithley2400.with_block conn on_close body tr)
  = (after ++ [":OUTP OFF"])%list
  /\ fst (Keithley2400.with_block conn on_close body tr)
     = match fst (Config.output_off conn after) with
       | Raise e => Raise e
       | Return _ =>
           match on_close (after ++ [":OUTP OFF"])%list with
           | Raise e => Raise e
           | Return _ => fst (body tr)
           end
       end.
Proof.
  intros L after. subst after.
  unfold Keithley2400.with_block, Keithley2400.close,
    Keithley2400.conn_close, bind.
  destruct (body tr) as [o tr1]. cbn [fst snd].
  pose proof (Conn.write_logs _ L ":OUTP OFF" tr1) as Hw.
  unfold Config.output_off in *.
  destruct (Conn.write conn ":OUTP OFF" tr1) as [w tr2]. cbn [fst snd] in *.
  subst tr2. destruct w as [u|e]; [|split; reflexivity].
  destruct (on_close (tr1 ++ [":OUTP OFF"])%list); split; reflexivity.
Qed.

(** A sweep whose read times out, run inside a [with] block: the time-out
    reaches the caller and the output is turned off on the way out. *)
Lemma with_block_turns_output_off_witness :
  let conn := Connection.make read_times_out in
  let r := VoltageLinear (lit 0 0) (lit 1 0) (lit 5 (-1))
                         (lit 1 (-1)) (lit 1 (-1)) (lit 1 0) in
  snd (Keithley2400.with_block conn (fun _ => Return tt) (run conn r) [])
  = (snd (run conn r []) ++ [":OUTP OFF"])%list
  /\ Keithley2400.with_block conn (fun _ => Return tt) (run conn r) []
     = (Raise TransportError,
        (setup r 3 ++ [":OUTP ON"; ":READ?"; ":OUTP OFF"])%list).
Proof.
  intros conn r. split.
  - apply (with_block_turns_output_off conn (fun _ => Return tt)
             (run conn r) [] (logs_connection _)).
  - vm_compute. reflexivity.
Defined.

(** ** Reading an E rendering back *)

Lemma e_char_plain (c : ascii) :
  e_char c = true ->
  PyStr.is_space c = false /\ PyStr.is_numeric_space c = false
  /\ Ascii.eqb c "_" = false /\ Ascii.eqb c "," = false.
Proof.
  destruct c as [[] [] [] [] [] [] [] []]; intro H; cbv in H;
    try discriminate H; repeat split.
Qed.

Lemma digit_is_e_char (c : ascii) :
  PyStr.is_digit c = true -> e_char c = true.
Proof. intro H. unfold e_char. now rewrite H. Qed.

Lemma digits_are_e_text : forall s,
  PyStr.all_digits s = true -> e_text s = true.
Proof.
  induction s as [|c r IH]; simpl; auto. intro H.
  apply andb_true_iff in H as [Hc Hr].
  now rewrite (digit_is_e_char _ Hc), IH.
Qed.

Lemma e_text_app (a b : string) :
  e_text (a ++ b) = e_text a && e_text b.
Proof.
  induction a as [|c a IH]; simpl; auto. now rewrite IH, andb_assoc.
Qed.

Lemma last_kept_e_text (drop : ascii -> bool) :
  (forall c, e_char c = true -> drop c = false) ->
  forall s, e_text s = true -> last_kept drop s = true.
Proof.
  intros Hd. induction s as [|c r IH]; auto. intro H.
  simpl in H. apply andb_true_iff in H as [Hc Hr].
  destruct r as [|c' r']; [simpl; now rewrite (Hd _ Hc)|].
  exact (IH Hr).
Qed.

Lemma head_kept_e_text (drop : ascii -> bool) (s : string) :
  (forall c, e_char c = true -> drop c = false) ->
  e_text s = true -> head_kept drop s = true.
Proof.
  intros Hd H. destruct s as [|c r]; auto. simpl in *.
  apply andb_true_iff in H as [Hc _]. now rewrite (Hd _ Hc).
Qed.

(** A text of such characters has nothing for [strip] to remove and no
    underscore. *)
Lemma e_text_strip (s : string) :
  e_text s = true ->
  PyStr.strip s = s /\ PyStr.strip_with PyStr.is_numeric_space s = s.
Proof.
  intro H. split; apply strip_with_id;
    first [apply head_kept_e_text | apply last_kept_e_text]; auto;
    intros c Hc; now destruct (e_char_plain c Hc) as (? & ? & _).
Qed.

Lemma e_text_underscores : forall s prev,
  e_text s = true -> Ascii.eqb prev "_" = false ->
  PyFloat.underscores_ok prev s = true /\ PyFloat.remove_underscores s = s.
Proof.
  induction s as [|c r IH]; intros prev H Hp; simpl.
  - now rewrite Hp.
  - simpl in H. apply andb_true_iff in H as [Hc Hr].
    destruct (e_char_plain c Hc) as (_ & _ & Hu & _).
    rewrite Hu, Hp. destruct (IH c Hr Hu) as [-> ->]. now split.
Qed.

Lemma e_text_no_comma : forall s,
  e_text s = true -> PyStr.contains "," s = false.
Proof.
  unfold PyStr.contains.
  induction s as [|c r IH]; [reflexivity|]. intro H.
  cbn [e_text] in H. apply andb_true_iff in H as [Hc Hr].
  destruct (e_char_plain c Hc) as (_ & _ & _ & Hk).
  cbn [list_ascii_of_string existsb].
  rewrite (Ascii.eqb_sym "," c), Hk. now apply IH.
Qed.

Lemma digit_val_digit_char (d : Z) :
  0 <= d <= 9 -> PyStr.digit_val (PyStr.digit_char d) = d.
Proof.
  intro H.
  assert (d = 0 \/ d = 1 \/ d = 2 \/ d = 3 \/ d = 4 \/ d = 5 \/ d = 6
          \/ d = 7 \/ d = 8 \/ d = 9) as C by lia.
  repeat (destruct C as [->|C]; [reflexivity|]). now subst.
Qed.

Lemma value_from_app : forall a b acc,
  value_from acc (a ++ b) = value_from (value_from acc a) b.
Proof. induction a as [|c a IH]; simpl; auto. Qed.

Lemma digits_fuel_value : forall (fuel : nat) (n : Z) (acc : string),
  0 <= n < 10 ^ Z.of_nat fuel ->
  exists ds,
    PyInt.digits_fuel fuel n acc = ds ++ acc
    /\ forall a, value_from a ds = a * 10 ^ Z.of_nat (String.length ds) + n.
Proof.
  induction fuel as [|fuel IH]; intros n acc Hn.
  - exists EmptyString. split; [reflexivity|]. intro a. simpl in *. lia.
  - cbn [PyInt.digits_fuel].
    assert (Hm : 0 <= n mod 10 <= 9) by (pose proof (Z.mod_pos_bound n 10); lia).
    destruct (n <? 10) eqn:E.
    + apply Z.ltb_lt in E. exists (String (PyStr.digit_char (n mod 10)) EmptyString).
      split; [reflexivity|]. intro a. cbn [value_from String.length].
      rewrite (digit_val_digit_char _ Hm). rewrite Z.mod_small by lia.
      change (Z.of_nat 1) with 1. lia.
    + apply Z.ltb_ge in E.
      destruct (IH (n / 10) (String (PyStr.digit_char (n mod 10)) acc))
        as (ds & Heq & Hv).
      { split; [apply Z.div_pos; lia|].
        apply Z.div_lt_upper_bound; [lia|].
        replace (Z.of_nat (S fuel)) with (Z.succ (Z.of_nat fuel)) in Hn by lia.
        rewrite Z.pow_succ_r in Hn by lia. lia. }
      exists (ds ++ String (PyStr.digit_char (n mod 10)) EmptyString).
      split.
      * rewrite Heq. now rewrite str_app_assoc.
      * intro a. rewrite value_from_app, Hv. cbn [value_from].
        rewrite (digit_val_digit_char _ Hm).
        rewrite str_length_app. cbn [String.length].
        replace (Z.of_nat (String.length ds + 1))
          with (Z.succ (Z.of_nat (String.length ds))) by lia.
        rewrite Z.pow_succ_r by lia.
        pose proof (Z.div_mod n 10 ltac:(lia)). lia.
Qed.

(** The digits of a number denote it. *)
Lemma digits_value (n : Z) :
  0 <= n -> value_from 0 (PyInt.digits n) = n.
Proof.
  intro Hn. unfold PyInt.digits.
  destruct (digits_fuel_value (S (Z.to_nat (Z.log2 n))) n EmptyString)
    as (ds & Heq & Hv).
  - split; [assumption|].
    destruct (Z.eq_dec n 0) as [->|Hz]; [reflexivity|].
    pose proof (Z.log2_nonneg n) as Hl.
    replace (Z.of_nat (S (Z.to_nat (Z.log2 n)))) with (Z.succ (Z.log2 n))
      by lia.
    destruct (Z.log2_spec n ltac:(lia)) as [_ Hu].
    apply Z.lt_le_trans with (1 := Hu).
    apply Z.pow_le_mono_l. lia.
  - rewrite Heq, str_app_empty, Hv. lia.
Qed.

Lemma span_digits_all : forall ds acc cnt,
  PyStr.all_digits ds = true ->
  PyFloat.span_digits ds acc cnt
  = (value_from acc ds, cnt + Z.of_nat (String.length ds), EmptyString).
Proof.
  induction ds as [|c r IH]; intros acc cnt H;
    cbn [PyFloat.span_digits value_from String.length].
  - now rewrite Z.add_0_r.
  - cbn [PyStr.all_digits] in H. apply andb_true_iff in H as [Hc Hr].
    rewrite Hc, (IH _ _ Hr), Nat2Z.inj_succ.
    now replace (cnt + 1 + Z.of_nat (String.length r))
      with (cnt + Z.succ (Z.of_nat (String.length r))) by lia.
Qed.

Lemma span_digits_until : forall ds c r acc cnt,
  PyStr.all_digits ds = true ->
  PyStr.is_digit c = false ->
  PyFloat.span_digits (ds ++ String c r) acc cnt
  = (value_from acc ds, cnt + Z.of_nat (String.length ds), String c r).
Proof.
  induction ds as [|d ds IH]; intros c r acc cnt H Hc.
  - cbn [append PyFloat.span_digits value_from String.length].
    now rewrite Hc, Z.add_0_r.
  - cbn [append PyFloat.span_digits value_from String.length].
    cbn [PyStr.all_digits] in H. apply andb_true_iff in H as [Hd Hr].
    rewrite Hd, (IH _ _ _ _ Hr Hc), Nat2Z.inj_succ.
    now replace (cnt + 1 + Z.of_nat (String.length ds))
      with (cnt + Z.succ (Z.of_nat (String.length ds))) by lia.
Qed.

Lemma split_sign_digit (c : ascii) (r : string) :
  PyStr.is_digit c = true ->
  PyFloat.split_sign (String c r) = (false, String c r).
Proof.
  destruct c as [[] [] [] [] [] [] [] []]; intro H; cbv in H;
    try discriminate H; reflexivity.
Qed.

(** The exponent part of an E rendering is read as the exponent. *)
Lemma parse_exponent_exp_str (e : Z) :
  PyFloat.parse_exponent (String "E" (PyFloat.exp_str e)) = Some e.
Proof.
  unfold PyFloat.parse_exponent.
  change (Ascii.eqb (PyFloat.lower "E") "e") with true. cbv iota.
  pose proof (digits_all (Z.abs e) (Z.abs_nonneg e)) as (Hall & Hlen & _).
  pose proof (digits_value (Z.abs e) (Z.abs_nonneg e)) as Hv.
  unfold PyFloat.exp_str.
  assert (Hs : forall neg X,
             PyStr.all_digits X = true ->
             (1 <= String.length X)%nat ->
             value_from 0 X = Z.abs e ->
             PyFloat.cond_opp neg (Z.abs e) = e ->
             (let '(neg0, r') := (neg, X) in
              match PyFloat.span_digits r' 0 0 with
              | (v, cnt, EmptyString) =>
                  if 0 <? cnt then Some (PyFloat.cond_opp neg0 v) else None
              | _ => None
              end) = Some e).
  { intros neg X HX HL HV HC. rewrite (span_digits_all _ _ _ HX), HV.
    replace (0 <? 0 + Z.of_nat (String.length X)) with true
      by (symmetry; apply Z.ltb_lt; lia).
    now rewrite HC. }
  assert (HX : forall X, X = (if Z.abs e <? 10
                              then String "0" (PyInt.digits (Z.abs e))
                              else PyInt.digits (Z.abs e)) ->
               PyStr.all_digits X = true /\ (1 <= String.length X)%nat
               /\ value_from 0 X = Z.abs e).
  { intros X ->. destruct (Z.abs e <? 10).
    - repeat split; [simpl; exact Hall | simpl; lia | exact Hv].
    - repeat split; assumption. }
  destruct (HX _ eq_refl) as (H1 & H2 & H3).
  destruct (e <? 0) eqn:E.
  - apply Z.ltb_lt in E.
    change (PyFloat.split_sign ("-" ++ ?X)) with (true, X).
    apply Hs; auto. unfold PyFloat.cond_opp. lia.
  - apply Z.ltb_ge in E.
    change (PyFloat.split_sign ("+" ++ ?X)) with (false, X).
    apply Hs; auto. unfold PyFloat.cond_opp. lia.
Qed.

(** A mantissa with a point, the exponent letter and an exponent. *)
Lemma parse_decimal_sci (neg : bool) (d0 : ascii) (rest : string) (e10 : Z) :
  PyStr.is_digit d0 = true ->
  PyStr.all_digits rest = true ->
  PyFloat.parse_decimal neg
    (String d0 ("." ++ rest ++ "E" ++ PyFloat.exp_str e10))
  = Some (PyFloat.of_decimal neg (value_from 0 (String d0 rest))
            (e10 - Z.of_nat (String.length rest))).
Proof.
  intros Hd Hr. unfold PyFloat.parse_decimal.
  change (PyFloat.span_digits
            (String d0 ("." ++ rest ++ "E" ++ PyFloat.exp_str e10)) 0 0)
    with (if PyStr.is_digit d0
          then PyFloat.span_digits
                 (String "." (rest ++ String "E" (PyFloat.exp_str e10)))
                 (10 * 0 + PyStr.digit_val d0) (0 + 1)
          else (0, 0, String d0 ("." ++ rest ++ "E" ++ PyFloat.exp_str e10))).
  rewrite Hd.
  change (PyFloat.span_digits
            (String "." (rest ++ String "E" (PyFloat.exp_str e10)))
            (10 * 0 + PyStr.digit_val d0) (0 + 1))
    with (10 * 0 + PyStr.digit_val d0, 0 + 1,
          String "." (rest ++ String "E" (PyFloat.exp_str e10))).
  cbv iota beta.
  rewrite (span_digits_until rest "E" (PyFloat.exp_str e10) _ 0 Hr eq_refl).
  replace (0 <? 0 + 1 + (0 + Z.of_nat (String.length rest))) with true
    by (symmetry; apply Z.ltb_lt; lia).
  rewrite parse_exponent_exp_str. reflexivity.
Qed.

(** [float] reads every E rendering, and reads it as the float nearest to
    the seven digits it shows: signed zeros, infinities and NaN come back
    as they were. *)
Lemma of_str_format_E (x : PyFloat.float) :
  e_text (PyFloat.format_E x) = true
  /\ PyFloat.of_str (PyFloat.format_E x) = Return (readback x).
Proof.
  destruct x as [s|s| |s m e]; try (destruct s; split; reflexivity);
    try (split; reflexivity).
  unfold PyFloat.format_E, readback.
  destruct (fraction_pos m e) as [Hn Hd].
  destruct (PyFloat.fraction m e) as [n d]. cbn [fst snd] in Hn, Hd.
  pose proof (round_sig_range 7 n d Hn Hd ltac:(lia)) as Hr.
  destruct (PyFloat.round_sig 7 n d) as [mant e10]. cbn [fst] in Hr.
  destruct (digits_exact 6 mant Hr)
    as (d0 & rest & Heq & Hlen & Hall & Hdig & Hnz).
  assert (Hv : value_from 0 (String d0 rest) = mant).
  { rewrite <- Heq. apply digits_value. lia. }
  rewrite Heq.
  destruct rest as [|c rest]; [discriminate Hlen|].
  pose (body := String d0 ("." ++ String c rest ++ "E" ++ PyFloat.exp_str e10)).
  change (PyFloat.sci true s (String d0 (String c rest)) e10 "E")
    with (PyFloat.sign_str s ++ body).
  assert (Hb : e_text body = true).
  { unfold body. cbn [e_text]. rewrite (digit_is_e_char _ Hdig).
    change ("." ++ String c rest ++ "E" ++ PyFloat.exp_str e10)
      with (String "." (String c rest ++ String "E" (PyFloat.exp_str e10))).
    cbn [e_text]. change (e_char ".") with true.
    rewrite e_text_app, (digits_are_e_text _ Hall). cbn [e_text].
    change (e_char "E") with true.
    destruct (exp_str_shape e10) as (sg & ds & -> & Hsg & Hds & _).
    cbn [e_text]. rewrite (digits_are_e_text _ Hds).
    destruct Hsg as [-> | ->]; reflexivity. }
  assert (Ht : e_text (PyFloat.sign_str s ++ body) = true).
  { destruct s; simpl; auto. }
  split; [exact Ht|].
  unfold PyFloat.of_str.
  rewrite (proj2 (e_text_strip _ Ht)).
  destruct (e_text_underscores _ " " Ht eq_refl) as [-> ->].
  assert (Hsp : PyFloat.split_sign (PyFloat.sign_str s ++ body) = (s, body)).
  { destruct s; [reflexivity|]. apply split_sign_digit. exact Hdig. }
  rewrite Hsp. unfold body.
  rewrite (parse_decimal_sci s d0 (String c rest) e10 Hdig Hall).
  rewrite Hv, Hlen. reflexivity.
Qed.

(** ** Setters and getters against an echoing instrument *)

Lemma strip_prefix_app : forall p s, strip_prefix p (p ++ s) = Some s.
Proof.
  induction p as [|c p IH]; intro s; simpl; auto.
  now rewrite Ascii.eqb_refl.
Qed.

Lemma header_of_query : forall h, header_of (h ++ "?") = Some h.
Proof.
  induction h as [|c h IH]; [reflexivity|].
  change (header_of (String c h ++ "?"))
    with (match h ++ "?" with
          | EmptyString => if Ascii.eqb c "?" then Some EmptyString else None
          | _ => option_map (String c) (header_of (h ++ "?"))
          end).
  rewrite IH. destruct h; reflexivity.
Qed.

Lemma latest_setting_last (h arg : string) : forall tr,
  latest_setting h (tr ++ [(h ++ " " ++ arg)%string])%list = Some arg.
Proof.
  induction tr as [|c tr IH]; cbn [app latest_setting].
  - replace (h ++ " " ++ arg) with ((h ++ " ") ++ arg)
      by apply str_app_assoc.
    apply strip_prefix_app.
  - now rewrite IH.
Qed.

(** The echo answers the query of a header with the argument just
    written, stripped by the connection. *)
Lemma echo_query (h arg : string) (tr : trace) :
  Connection.query echo (h ++ "?") (tr ++ [(h ++ " " ++ arg)%string])%list
  = (Return (PyStr.strip arg),
     (tr ++ [(h ++ " " ++ arg)%string; (h ++ "?")%string])%list).
Proof.
  unfold Connection.query. cbn [echo on_query].
  rewrite header_of_query, latest_setting_last. cbn [obind].
  now rewrite <- app_assoc.
Qed.

Lemma echo_set_get {A} (h arg : string) (decode : string -> M A)
    (tr : trace) :
  (Conn.write (Connection.make echo) (h ++ " " ++ arg) ;;;
   r <- Conn.query (Connection.make echo) (h ++ "?") ;; decode r) tr
  = decode (PyStr.strip arg)
      (tr ++ [(h ++ " " ++ arg)%string; (h ++ "?")%string])%list.
Proof.
  change ((Conn.write (Connection.make echo) (h ++ " " ++ arg) ;;;
           r <- Conn.query (Connection.make echo) (h ++ "?") ;; decode r) tr)
    with (match Connection.query echo (h ++ "?")
                  (tr ++ [(h ++ " " ++ arg)%string])%list with
          | (Return r, tr') => decode r tr'
          | (Raise e, tr') => (Raise e, tr')
          end).
  now rewrite echo_query.
Qed.

Lemma echo_set_get_text (h arg : string) (tr : trace) :
  (Conn.write (Connection.make echo) (h ++ " " ++ arg) ;;;
   Conn.query (Connection.make echo) (h ++ "?")) tr
  = (Return (PyStr.strip arg),
     (tr ++ [(h ++ " " ++ arg)%string; (h ++ "?")%string])%list).
Proof.
  change ((Conn.write (Connection.make echo) (h ++ " " ++ arg) ;;;
           Conn.query (Connection.make echo) (h ++ "?")) tr)
    with (Connection.query echo (h ++ "?")
            (tr ++ [(h ++ " " ++ arg)%string])%list).
  apply echo_query.
Qed.

(** Each setter of a token and its getter use one header: against an
    instrument that echoes, the getter called after the setter returns the
    token that was set, stripped of outer white space, so a token without
    any comes back as it was. *)
Theorem tokens_read_back (s : string) (tr : trace) :
  Forall (fun p : (Conn.t -> string -> M unit) * (Conn.t -> M string) =>
            fst ((fst p (Connection.make echo) s ;;;
                  snd p (Connection.make echo)) tr)
            = Return (PyStr.strip s))
         token_pairs.
Proof.
  unfold token_pairs.
  apply Forall_cons;
    [exact (f_equal fst (echo_set_get_text ":OUTP:SMOD" s tr))|].
  apply Forall_cons;
    [exact (f_equal fst (echo_set_get_text ":ROUT:TERM" s tr))|].
  apply Forall_cons;
    [exact (f_equal fst (echo_set_get_text ":SYST:AZER:STAT" s tr))|].
  apply Forall_cons;
    [exact (f_equal fst (echo_set_get_text ":SYST:GUAR" s tr))|].
  apply Forall_cons;
    [exact (f_equal fst (echo_set_get_text ":SOUR:FUNC" s tr))|].
  apply Forall_cons;
    [exact (f_equal fst (echo_set_get_text ":SOUR:VOLT:MODE" s tr))|].
  apply Forall_cons;
    [exact (f_equal fst (echo_set_get_text ":SOUR:CURR:MODE" s tr))|].
  apply Forall_cons;
    [exact (f_equal fst (echo_set_get_text ":TRIG:SOUR" s tr))|].
  apply Forall_cons;
    [exact (f_equal fst (echo_set_get_text ":ARM:SOUR" s tr))|].
  apply Forall_cons;
    [exact (f_equal fst (echo_set_get_text ":TRAC:CONT" s tr))|].
  apply Forall_cons;
    [exact (f_equal fst (echo_set_get_text ":TRAC:TST:FORM" s tr))|].
  apply Forall_nil.
Qed.

(** Each setter of a level, range or compliance and its getter use one
    header, and the getter can read what the setter wrote, whatever the
    float: against an instrument that echoes, the getter called after the
    setter never raises and returns the float nearest to the seven digits
    that were sent. *)
Theorem levels_read_back_rounded (x : PyFloat.float) (tr : trace) :
  Forall (fun p : (Conn.t -> PyFloat.float -> M unit)
                  * (Conn.t -> M PyFloat.float) =>
            fst ((fst p (Connection.make echo) x ;;;
                  snd p (Connection.make echo)) tr)
            = Return (readback x))
         level_pairs.
Proof.
  destruct (of_str_format_E x) as [Ht Hr].
  assert (H : forall h,
             fst ((Conn.write (Connection.make echo)
                     (h ++ " " ++ PyFloat.format_E x) ;;;
                   r <- Conn.query (Connection.make echo) (h ++ "?") ;;
                   lift (PyFloat.of_str r)) tr)
             = Return (readback x)).
  { intro h. rewrite echo_set_get. unfold lift. cbn [fst].
    now rewrite (proj1 (e_text_strip _ Ht)). }
  unfold level_pairs.
  apply Forall_cons; [exact (H ":SOUR:VOLT:LEV")|].
  apply Forall_cons; [exact (H ":SOUR:VOLT:RANG")|].
  apply Forall_cons; [exact (H ":SOUR:CURR:LEV")|].
  apply Forall_cons; [exact (H ":SOUR:CURR:RANG")|].
  apply Forall_cons; [exact (H ":SOUR:VOLT:PROT")|].
  apply Forall_cons; [exact (H ":SENS:VOLT:PROT")|].
  apply Forall_cons; [exact (H ":SENS:CURR:PROT")|].
  apply Forall_cons; [exact (H ":SENS:VOLT:RANG")|].
  apply Forall_cons; [exact (H ":SENS:CURR:RANG")|].
  apply Forall_nil.
Qed.

Lemma counts_checked : forallb count_reads_back (counts 0 2501) = true.
Proof. vm_compute. reflexivity. Qed.

(** Each setter of a count and its getter use one header, and for every
    count from 0 to 2500, the range of the instrument, the getter called
    after the setter against an instrument that echoes returns the count
    that was set. *)
Theorem counts_read_back (n : Z) (tr : trace) :
  0 <= n <= 2500 ->
  Forall (fun p : (Conn.t -> Z -> M unit) * (Conn.t -> M Z) =>
            fst ((fst p (Connection.make echo) n ;;;
                  snd p (Connection.make echo)) tr)
            = Return n)
         count_pairs.
Proof.
  intro Hn.
  assert (Hc : count_reads_back n = true).
  { apply (proj1 (forallb_forall _ _) counts_checked).
    unfold counts. apply in_map_iff. exists (Z.to_nat n).
    split; [lia|]. apply in_seq. lia. }
  unfold count_reads_back in Hc.
  destruct (PyFloat.of_str (PyStr.strip (PyInt.to_str n))) as [v|] eqn:Ev;
    [|discriminate]. cbn [obind] in Hc.
  destruct (PyFloat.gt v (lit 2500 0)) eqn:Eg; [discriminate|].
  destruct (PyFloat.to_int v) as [k|] eqn:Ek; [|discriminate].
  apply Z.eqb_eq in Hc. subst k.
  assert (H1 : forall h,
             fst ((Conn.write (Connection.make echo)
                     (h ++ " " ++ PyInt.to_str n) ;;;
                   r <- Conn.query (Connection.make echo) (h ++ "?") ;;
                   lift (obind (PyFloat.of_str r) PyFloat.to_int)) tr)
             = Return n).
  { intro h. rewrite echo_set_get. unfold lift. cbn [fst].
    rewrite Ev. exact Ek. }
  assert (H2 : forall h,
             fst ((Conn.write (Connection.make echo)
                     (h ++ " " ++ PyInt.to_str n) ;;;
                   r <- Conn.query (Connection.make echo) (h ++ "?") ;;
                   (val <- lift (PyFloat.of_str r) ;;
                    if PyFloat.gt val Trigger.arm_limit then ret (-1)
                    else lift (PyFloat.to_int val))) tr)
             = Return n).
  { intro h. rewrite echo_set_get. unfold bind, lift. rewrite Ev.
    change Trigger.arm_limit with (lit 2500 0). rewrite Eg. exact Ek. }
  unfold count_pairs.
  apply Forall_cons; [exact (H1 ":TRIG:COUN")|].
  apply Forall_cons; [exact (H2 ":ARM:COUN")|].
  apply Forall_cons; [exact (H1 ":TRAC:POIN")|].
  apply Forall_nil.
Qed.

(** A trigger count of 100. *)
Lemma counts_read_back_witness :
  fst ((Trigger.set_trigger_count (Connection.make echo) 100 ;;;
        Trigger.get_trigger_count (Connection.make echo)) [])
  = Return 100.
Proof.
  exact (Forall_inv (counts_read_back 100 [] ltac:(lia))).
Defined.

(** A getter of a flag returns true for the reply 1, outer white space
    apart, and false for every other reply: ON, 1.0 and +1 read as
    false. *)
Theorem flag_getters_accept_only_one (inst : Instrument) (tr : trace) :
  Forall (fun p : (Conn.t -> M bool) * string =>
            forall reply,
              on_query inst tr (snd p) = Return reply ->
              fst (fst p (Connection.make inst) tr)
              = Return (String.eqb (PyStr.strip reply) "1"))
         flag_getters.
Proof.
  assert (H : forall cmd reply,
             on_query inst tr cmd = Return reply ->
             fst ((r <- Conn.query (Connection.make inst) cmd ;;
                   ret (String.eqb r "1")) tr)
             = Return (String.eqb (PyStr.strip reply) "1")).
  { intros cmd reply Hq. unfold bind.
    cbn [Conn.query Connection.make Connection.query]. now rewrite Hq. }
  unfold flag_getters.
  repeat (apply Forall_cons; [intros reply Hq; exact (H _ reply Hq)|]).
  apply Forall_nil.
Qed.

(** The beeper switched on with the word the setter sends: echoed, that
    word reads as false. *)
Lemma flag_getters_accept_only_one_witness :
  let tr := snd (Config.set_beeper (Connection.make echo) true []) in
  on_query echo tr ":SYST:BEEP:STAT?" = Return "ON"
  /\ fst (Config.is_beeper_on (Connection.make echo) tr) = Return false.
Proof.
  intro tr. split; [reflexivity|].
  pose proof (Forall_inv (Forall_inv_tail (Forall_inv_tail
                (flag_getters_accept_only_one echo tr)))) as H.
  exact (H "ON" eq_refl).
Defined.

(** ** The payload of a list sweep *)

Lemma split_without_sep (sep : ascii) : forall a,
  PyStr.contains sep a = false -> PyStr.split sep a = [a].
Proof.
  unfold PyStr.contains.
  induction a as [|c a IH]; [reflexivity|]. intro H.
  cbn [list_ascii_of_string existsb] in H.
  apply orb_false_iff in H as [Hc Ha].
  cbn [PyStr.split]. rewrite (Ascii.eqb_sym c sep), Hc.
  now rewrite (IH Ha).
Qed.

Lemma split_at_sep (sep : ascii) (b : string) : forall a,
  PyStr.contains sep a = false ->
  PyStr.split sep (a ++ String sep b) = a :: PyStr.split sep b.
Proof.
  unfold PyStr.contains.
  induction a as [|c a IH]; intro H.
  - cbn [append PyStr.split]. now rewrite Ascii.eqb_refl.
  - cbn [list_ascii_of_string existsb] in H.
    apply orb_false_iff in H as [Hc Ha].
    cbn [append PyStr.split]. rewrite (Ascii.eqb_sym c sep), Hc.
    now rewrite (IH Ha).
Qed.

(** Joining parts that hold no comma and splitting at the commas gives
    the parts back, when there is a part at all. *)
Lemma split_join : forall parts,
  parts <> [] ->
  Forall (fun p => PyStr.contains "," p = false) parts ->
  PyStr.split "," (PyStr.join "," parts) = parts.
Proof.
  induction parts as [|p parts IH]; intros Hne Hf; [contradiction|].
  inversion Hf as [|? ? Hp Hrest]; subst.
  destruct parts as [|q parts].
  - cbn [PyStr.join]. now apply split_without_sep.
  - change (PyStr.join "," (p :: q :: parts))
      with (p ++ String "," (PyStr.join "," (q :: parts))).
    rewrite (split_at_sep _ _ _ Hp). f_equal.
    apply IH; [discriminate | assumption].
Qed.

Lemma floats_of_renderings : forall levels,
  MockConnection.floats (map PyFloat.format_E levels)
  = Return (map readback levels).
Proof.
  induction levels as [|x levels IH]; [reflexivity|].
  cbn [map MockConnection.floats].
  rewrite (proj2 (of_str_format_E x)). cbn [obind]. now rewrite IH.
Qed.

(** The levels of a list sweep go out in one command, as E renderings
    between commas.  No rendering holds a comma, so for a list that is not
    empty the payload splits at its commas into exactly one rendering per
    level, in order, and the parser of the test transport reads it as the
    levels rounded to seven digits. *)
Theorem list_sweep_payload_reads_back (levels : list PyFloat.float) :
  levels <> [] ->
  let payload := PyStr.join "," (map PyFloat.format_E levels) in
  PyStr.split "," payload = map PyFloat.format_E levels
  /\ MockConnection.floats (PyStr.split "," payload)
     = Return (map readback levels).
Proof.
  intros Hne payload.
  assert (Hs : PyStr.split "," payload = map PyFloat.format_E levels).
  { apply split_join.
    - destruct levels; [contradiction | discriminate].
    - apply Forall_forall. intros p Hin.
      apply in_map_iff in Hin as (x & <- & _).
      apply e_text_no_comma. exact (proj1 (of_str_format_E x)). }
  split; [exact Hs|]. rewrite Hs. apply floats_of_renderings.
Qed.

(** Three levels, one of them negative and one with more than seven
    digits. *)
Lemma list_sweep_payload_reads_back_witness :
  let levels := [lit 5 (-1); PyFloat.of_decimal true 25 (-1);
                 lit 123456789 (-8)] in
  PyStr.join "," (map PyFloat.format_E levels)
  = "5.000000E-01,-2.500000E+00,1.234568E+00"
  /\ MockConnection.floats
       (PyStr.split "," (PyStr.join "," (map PyFloat.format_E levels)))
     = Return [lit 5 (-1); PyFloat.of_decimal true 25 (-1);
               lit 1234568 (-6)].
Proof.
  intro levels. split; [vm_compute; reflexivity|].
  rewrite (proj2 (list_sweep_payload_reads_back levels ltac:(discriminate))).
  vm_compute. reflexivity.
Defined.


(** ** The output is enabled only after the whole setup *)

Lemma writes_ok_app (conn : Conn.t) : forall a b tr,
  writes_ok conn a tr -> writes_ok conn b (tr ++ a)%list ->
  writes_ok conn (a ++ b)%list tr.
Proof.
  induction a as [|c a IH]; intros b tr Ha Hb.
  - now rewrite app_nil_r in Hb.
  - destruct Ha as [Hc Ha]. split; [exact Hc|].
    apply IH; [exact Ha|]. now rewrite <- app_assoc.
Qed.

(** The writes either all return, or stop at the first one that raises. *)
Lemma write_all_then_cases {A} (conn : Conn.t) (k : M A) :
  Conn.logs conn ->
  forall cmds tr,
    (writes_ok conn cmds tr
     /\ write_all_then conn cmds k tr = k (tr ++ cmds)%list)
    \/ (exists pre c post e,
          cmds = (pre ++ c :: post)%list
          /\ writes_ok conn pre tr
          /\ write_all_then conn cmds k tr
             = (Raise e, (tr ++ pre ++ [c])%list)).
Proof.
  intro L. induction cmds as [|c cmds IH]; intro tr.
  - left. split; [exact I|]. simpl. now rewrite app_nil_r.
  - change (write_all_then conn (c :: cmds) k tr)
      with (match Conn.write conn c tr with
            | (Return _, tr') => write_all_then conn cmds k tr'
            | (Raise e, tr') => (Raise e, tr')
            end).
    pose proof (Conn.write_logs _ L c tr) as Hs.
    cbn [writes_ok].
    destruct (Conn.write conn c tr) as [o tr'] eqn:E. cbn [fst snd] in *.
    subst tr'. destruct o as [[]|e].
    + destruct (IH (tr ++ [c])%list)
        as [[Hw Hk] | (pre & c' & post & e & Hc & Hw & Hk)].
      * left. split; [now split|]. rewrite Hk. now rewrite <- app_assoc.
      * right. exists (c :: pre), c', post, e.
        split; [simpl; now rewrite Hc|].
        split; [cbn [writes_ok]; rewrite E; now split|].
        rewrite Hk. now rewrite <- app_assoc.
    + right. exists [], c, cmds, e. repeat split.
Qed.

Lemma setup_has_no_output_enable (r : request) (n : Z) :
  ~ In ":OUTP ON" (setup r n).
Proof.
  destruct r; unfold setup; cbn [In append];
    intro H; repeat (destruct H as [H|H]; [discriminate H|]); exact H.
Qed.

(** A sweep enables the output only when every command of its setup was
    accepted: over a connection that logs, if [:OUTP ON] is among the
    commands a sweep sent, then the reset and all the configuration writes
    before it returned.  A rejected setting never leaves the output
    enabled on a half-configured instrument. *)
Theorem output_enabled_only_after_setup (conn : Conn.t) (r : request)
    (n : Z) (tr : trace) (sent : list string) :
  Conn.logs conn ->
  points r = Return n ->
  snd (run conn r tr) = (tr ++ sent)%list ->
  In ":OUTP ON" sent ->
  writes_ok conn (setup r n) tr
  /\ exists rest, sent = (setup r n ++ ":OUTP ON" :: rest)%list.
Proof.
  intros L Hn Hs Hin.
  assert (E : run conn r tr
              = write_all_then conn (setup r n)
                  (write_all_then conn [":OUTP ON"] (acquire conn)) tr).
  { rewrite run_unfold. unfold bind at 1, lift. rewrite Hn.
    unfold preamble, write_all_then. now rewrite fold_right_app. }
  rewrite E in Hs.
  destruct (write_all_then_cases conn
              (write_all_then conn [":OUTP ON"] (acquire conn)) L
              (setup r n) tr)
    as [[Hw Hk] | (pre & c & post & e & Hc & Hw & Hk)].
  - split; [exact Hw|]. rewrite Hk in Hs.
    assert (F : fail_stop conn
                  (write_all_then conn [":OUTP ON"] (acquire conn))
                  ([":OUTP ON"] ++ [":READ?"; ":OUTP OFF"])%list
                  (tr ++ setup r n)%list).
    { apply write_all_then_fail_stop; [exact L|].
      intro tr'. now apply acquire_fail_stop. }
    destruct F as (s & rest & HK & Hsnd & _ & _).
    rewrite Hsnd, <- app_assoc in Hs. apply app_inv_head in Hs. subst sent.
    destruct s as [|c s].
    + rewrite app_nil_r in Hin.
      now apply setup_has_no_output_enable in Hin.
    + injection HK as <- _. now exists s.
  - exfalso. rewrite Hk in Hs. cbn [snd] in Hs.
    apply app_inv_head in Hs. subst sent.
    apply (setup_has_no_output_enable r n). rewrite Hc.
    apply in_app_or in Hin as [Hin | [<- | []]].
    + apply in_or_app. now left.
    + apply in_or_app. right. now left.
Qed.

(** On the mock, which accepts everything, a logarithmic current sweep
    sends the output enable right after its whole setup. *)
Lemma output_enabled_only_after_setup_witness :
  let r := CurrentLog (lit 1 (-3)) (lit 1 (-1)) 3 (lit 1 0) (lit 1 (-1))
                      (lit 1 0) in
  writes_ok (MockConnection.make []) (setup r 3) []
  /\ exists rest,
       (setup r 3 ++ [":OUTP ON"; ":READ?"; ":OUTP OFF"])%list
       = (setup r 3 ++ ":OUTP ON" :: rest)%list.
Proof.
  intro r.
  apply (output_enabled_only_after_setup (MockConnection.make []) r 3 []
           (setup r 3 ++ [":OUTP ON"; ":READ?"; ":OUTP OFF"])%list).
  - apply logs_mock.
  - reflexivity.
  - vm_compute. reflexivity.
  - apply in_or_app. right. now left.
Defined.

(** ** Lists of names *)


